(** * informed-consent-ai: the ingestion and query pipeline

    A shallow embedding of the Python sources

      - [api/ai_analyzer.py]   (module [ai_analyzer])
      - [api/ocr_processor.py] (module [ocr_processor])
      - [api/database.py]      (module [database])
      - [scripts/ingest_pdf.py] (module [ingest_pdf])
      - [api/app.py]           (module [app])

    Python values that come out of [json.loads] are values of [JValue];
    a call that may raise returns a [result]; code that talks to the
    outside (pdfplumber, Tesseract, Ollama, the SQLite store, the console)
    runs in the monad [M], a state-and-exception monad over [World].
    Text is ASCII: [str.lower], [str.strip] and [str.split] are modelled on
    the characters below 128, other bytes are left alone. *)

From Stdlib Require Import String Ascii List Bool Arith ZArith Lia.
Import ListNotations.
Local Open Scope string_scope.

(* ================================================================== *)
(** * The Python runtime the sources rely on *)
(* ================================================================== *)

Module Py.

(** Exception classes that the sources raise, catch or can meet. *)
Inductive ExnClass : Type :=
  | JSONDecodeError
  | TypeError
  | AttributeError
  | KeyError
  | IndexError
  | UnboundLocalError
  | FileNotFoundError
  | IntegrityError
  | InterfaceError
  | OverflowError
  | PlainException.

Definition ExnClass_eqb (a b : ExnClass) : bool :=
  match a, b with
  | JSONDecodeError, JSONDecodeError
  | TypeError, TypeError
  | AttributeError, AttributeError
  | KeyError, KeyError
  | IndexError, IndexError
  | UnboundLocalError, UnboundLocalError
  | FileNotFoundError, FileNotFoundError
  | IntegrityError, IntegrityError
  | InterfaceError, InterfaceError
  | OverflowError, OverflowError
  | PlainException, PlainException => true
  | _, _ => false
  end.

(** An exception object: its class and [str(e)]. *)
Record Exn : Type := mkExn { exn_class : ExnClass; exn_str : string }.

(** The outcome of an expression: a value, or a raised exception. *)
Inductive result (A : Type) : Type :=
  | Ok (a : A)
  | Raise (e : Exn).
Arguments Ok {A} a.
Arguments Raise {A} e.

Definition rbind {A B} (r : result A) (k : A -> result B) : result B :=
  match r with
  | Ok a => k a
  | Raise e => Raise e
  end.

Definition is_ok {A} (r : result A) : bool :=
  match r with Ok _ => true | Raise _ => false end.

(** ** Strings *)

(** [str.isspace] on the ASCII range: tab, line feed, vertical tab, form
    feed, carriage return, the four separators 28..31 and the space. *)
Definition is_space (c : ascii) : bool :=
  let n := nat_of_ascii c in
  (((9 <=? n) && (n <=? 13)) || ((28 <=? n) && (n <=? 32)))%nat.

Definition lower_ascii (c : ascii) : ascii :=
  let n := nat_of_ascii c in
  if ((65 <=? n) && (n <=? 90))%nat then ascii_of_nat (n + 32) else c.

(** [s.lower()] *)
Fixpoint lower (s : string) : string :=
  match s with
  | EmptyString => EmptyString
  | String c s' => String (lower_ascii c) (lower s')
  end.

(** [s.lstrip()] *)
Fixpoint lstrip (s : string) : string :=
  match s with
  | EmptyString => EmptyString
  | String c s' => if is_space c then lstrip s' else s
  end.

(** [s.rstrip()]: a character is dropped when it is white and everything
    after it was dropped. *)
Fixpoint rstrip (s : string) : string :=
  match s with
  | EmptyString => EmptyString
  | String c s' =>
      match rstrip s' with
      | EmptyString => if is_space c then EmptyString else String c EmptyString
      | r => String c r
      end
  end.

(** [s.strip()] *)
Definition strip (s : string) : string := rstrip (lstrip s).

(** [s.split()] with no separator: the maximal runs of non-white characters.
    [cur] is the run being read, kept reversed. *)
Fixpoint rev_string (acc : string) (s : string) : string :=
  match s with
  | EmptyString => acc
  | String c s' => rev_string (String c acc) s'
  end.

Fixpoint split_aux (cur : string) (s : string) : list string :=
  match s with
  | EmptyString =>
      match cur with
      | EmptyString => []
      | _ => [rev_string EmptyString cur]
      end
  | String c s' =>
      if is_space c then
        match cur with
        | EmptyString => split_aux EmptyString s'
        | _ => rev_string EmptyString cur :: split_aux EmptyString s'
        end
      else split_aux (String c cur) s'
  end.

Definition split (s : string) : list string := split_aux EmptyString s.

(** [sep.join(xs)] *)
Fixpoint join (sep : string) (xs : list string) : string :=
  match xs with
  | [] => EmptyString
  | [x] => x
  | x :: rest => x ++ sep ++ join sep rest
  end.

(** [s.endswith(suffix)] *)
Definition endswith (s suffix : string) : bool :=
  let n := String.length s in
  let m := String.length suffix in
  (m <=? n)%nat && String.eqb (substring (n - m) m s) suffix.

(** [sub in s] for two strings *)
Fixpoint contains (sub s : string) : bool :=
  prefix sub s ||
  match s with
  | EmptyString => false
  | String _ s' => contains sub s'
  end.

(** Decimal numerals, as [str(n)] and the f-string [{n}] print them. *)
Definition digit (n : nat) : ascii := ascii_of_nat (48 + n).

Fixpoint str_nat_aux (fuel n : nat) (acc : string) : string :=
  match fuel with
  | O => acc
  | S fuel' =>
      let acc' := String (digit (n mod 10)) acc in
      match n / 10 with
      | O => acc'
      | q => str_nat_aux fuel' q acc'
      end
  end.

Definition str_nat (n : nat) : string := str_nat_aux (S n) n EmptyString.

Definition str_Z (z : Z) : string :=
  match z with
  | Z0 => "0"
  | Zpos p => str_nat (Pos.to_nat p)
  | Zneg p => "-" ++ str_nat (Pos.to_nat p)
  end.

(** [c * n] for a one-character string *)
Fixpoint repeat_char (c : ascii) (n : nat) : string :=
  match n with
  | O => EmptyString
  | S n' => String c (repeat_char c n')
  end.

End Py.
Import Py.

(* ================================================================== *)
(** * JSON values and the Python operations the sources apply to them *)
(* ================================================================== *)

Module Json.

Set Warnings "-register-all".

(** What [json.loads] returns.  A float is kept as its [repr]; a [dict] is
    an association list in insertion order. *)
Inductive JValue : Type :=
  | JNull
  | JBool (b : bool)
  | JInt (z : Z)
  | JFloat (repr : string)
  | JStr (s : string)
  | JArr (items : list JValue)
  | JObj (fields : list (string * JValue)).

Definition Dict : Type := list (string * JValue).

(** [d.get(key)] as an option; [key in d]; [d[key] = v]. *)
Fixpoint dict_get (d : Dict) (key : string) : option JValue :=
  match d with
  | [] => None
  | (k, v) :: d' => if String.eqb k key then Some v else dict_get d' key
  end.

Definition dict_mem (d : Dict) (key : string) : bool :=
  match dict_get d key with Some _ => true | None => false end.

Fixpoint dict_set (d : Dict) (key : string) (v : JValue) : Dict :=
  match d with
  | [] => [(key, v)]
  | (k, x) :: d' =>
      if String.eqb k key then (k, v) :: d' else (k, x) :: dict_set d' key v
  end.

(** [d.get(key, default)] *)
Definition dict_get_default (d : Dict) (key : string) (default : JValue) : JValue :=
  match dict_get d key with Some v => v | None => default end.

(** [d.get(key)], which is [None] for a missing key *)
Definition dict_get_none (d : Dict) (key : string) : JValue :=
  dict_get_default d key JNull.

(** [d[key]] on a dict *)
Definition dict_getitem (d : Dict) (key : string) : result JValue :=
  match dict_get d key with
  | Some v => Ok v
  | None => Raise (mkExn KeyError ("'" ++ key ++ "'"))
  end.

Definition is_none (v : JValue) : bool :=
  match v with JNull => true | _ => false end.

(** [bool(v)] *)
Definition truthy (v : JValue) : bool :=
  match v with
  | JNull => false
  | JBool b => b
  | JInt z => negb (Z.eqb z 0)
  | JFloat r => negb (String.eqb r "0.0" || String.eqb r "-0.0")
  | JStr s => negb (String.eqb s "")
  | JArr l => match l with [] => false | _ => true end
  | JObj o => match o with [] => false | _ => true end
  end.

Definition type_name (v : JValue) : string :=
  match v with
  | JNull => "NoneType"
  | JBool _ => "bool"
  | JInt _ => "int"
  | JFloat _ => "float"
  | JStr _ => "str"
  | JArr _ => "list"
  | JObj _ => "dict"
  end.

Definition is_str (v : JValue) (s : string) : bool :=
  match v with JStr t => String.eqb t s | _ => false end.

(** [key in v] for a string [key] and any value [v] *)
Definition py_in (key : string) (v : JValue) : result bool :=
  match v with
  | JObj o => Ok (dict_mem o key)
  | JArr l => Ok (existsb (fun x => is_str x key) l)
  | JStr s => Ok (contains key s)
  | _ => Raise (mkExn TypeError
                  ("argument of type '" ++ type_name v ++ "' is not iterable"))
  end.

(** [v[key]] for a string [key] *)
Definition py_getitem (v : JValue) (key : string) : result JValue :=
  match v with
  | JObj o => dict_getitem o key
  | JArr _ => Raise (mkExn TypeError "list indices must be integers or slices, not str")
  | JStr _ => Raise (mkExn TypeError "string indices must be integers")
  | _ => Raise (mkExn TypeError
                  ("'" ++ type_name v ++ "' object is not subscriptable"))
  end.

(** [v[key] = x] for a string [key] *)
Definition py_setitem (v : JValue) (key : string) (x : JValue) : result JValue :=
  match v with
  | JObj o => Ok (JObj (dict_set o key x))
  | JArr _ => Raise (mkExn TypeError "list indices must be integers or slices, not str")
  | _ => Raise (mkExn TypeError
                  ("'" ++ type_name v ++ "' object does not support item assignment"))
  end.

Definition no_attribute (v : JValue) (attr : string) : Exn :=
  mkExn AttributeError
        ("'" ++ type_name v ++ "' object has no attribute '" ++ attr ++ "'").

(** [v.lower()], [v.split()], [v.strip()]: methods of [str] only *)
Definition py_lower (v : JValue) : result string :=
  match v with
  | JStr s => Ok (lower s)
  | _ => Raise (no_attribute v "lower")
  end.

Definition py_split (v : JValue) : result (list string) :=
  match v with
  | JStr s => Ok (split s)
  | _ => Raise (no_attribute v "split")
  end.

Definition py_strip (v : JValue) : result string :=
  match v with
  | JStr s => Ok (strip s)
  | _ => Raise (no_attribute v "strip")
  end.

(** [xs[0]] on a list of strings *)
Definition first_item (xs : list string) : result string :=
  match xs with
  | x :: _ => Ok x
  | [] => Raise (mkExn IndexError "list index out of range")
  end.

(** [repr(s)] for a string: single quotes, unless the string holds a single
    quote and no double quote; backslash, the quote in use, tab, line feed
    and carriage return are escaped, the other control characters are written
    in hexadecimal. *)
Definition dquote : ascii := ascii_of_nat 34.
Definition squote : ascii := ascii_of_nat 39.
Definition backslash : ascii := ascii_of_nat 92.

Definition hex_digit (n : nat) : ascii :=
  if (n <? 10)%nat then ascii_of_nat (48 + n) else ascii_of_nat (87 + n).

Definition repr_char (quote : ascii) (c : ascii) : string :=
  let n := nat_of_ascii c in
  if Ascii.eqb c backslash then String backslash (String backslash EmptyString)
  else if Ascii.eqb c quote then String backslash (String c EmptyString)
  else if Nat.eqb n 10 then String backslash "n"
  else if Nat.eqb n 13 then String backslash "r"
  else if Nat.eqb n 9 then String backslash "t"
  else if ((n <? 32) || Nat.eqb n 127)%nat
       then String backslash
              (String "x" (String (hex_digit (n / 16))
                                  (String (hex_digit (n mod 16)) EmptyString)))
  else String c EmptyString.

Fixpoint repr_body (quote : ascii) (s : string) : string :=
  match s with
  | EmptyString => EmptyString
  | String c s' => repr_char quote c ++ repr_body quote s'
  end.

Fixpoint has_char (c : ascii) (s : string) : bool :=
  match s with
  | EmptyString => false
  | String d s' => Ascii.eqb c d || has_char c s'
  end.

Definition repr_str (s : string) : string :=
  let quote := if has_char squote s && negb (has_char dquote s)
               then dquote else squote in
  String quote (repr_body quote s ++ String quote EmptyString).

(** [repr(v)] *)
Fixpoint py_repr (v : JValue) : string :=
  match v with
  | JNull => "None"
  | JBool true => "True"
  | JBool false => "False"
  | JInt z => str_Z z
  | JFloat r => r
  | JStr s => repr_str s
  | JArr l => "[" ++ join ", " (map py_repr l) ++ "]"
  | JObj o =>
      "{" ++ join ", " (map (fun kv => match kv with
                                       | (k, x) => repr_str k ++ ": " ++ py_repr x
                                       end) o) ++ "}"
  end.

(** [str(v)], which is also what an f-string field prints *)
Definition py_str (v : JValue) : string :=
  match v with
  | JStr s => s
  | _ => py_repr v
  end.

(** [sep.join(v)]: [v] must be iterable and yield strings.  A string yields
    its characters, a dict its keys. *)
Fixpoint chars (s : string) : list string :=
  match s with
  | EmptyString => []
  | String c s' => String c EmptyString :: chars s'
  end.

Fixpoint join_items (idx : nat) (l : list JValue) : result (list string) :=
  match l with
  | [] => Ok []
  | JStr s :: l' => rbind (join_items (S idx) l') (fun r => Ok (s :: r))
  | x :: _ =>
      Raise (mkExn TypeError
               ("sequence item " ++ str_nat idx ++ ": expected str instance, "
                ++ type_name x ++ " found"))
  end.

Definition py_join (sep : string) (v : JValue) : result string :=
  match v with
  | JArr l => rbind (join_items 0 l) (fun xs => Ok (join sep xs))
  | JStr s => Ok (join sep (chars s))
  | JObj o => Ok (join sep (map fst o))
  | _ => Raise (mkExn TypeError "can only join an iterable")
  end.

End Json.
Import Json.

(* ================================================================== *)
(** * api/database.py: the tables and what a session does to them *)
(* ================================================================== *)

Module database.

(** [bcrypt.hashpw(password, salt)].  The digest is kept symbolic: the
    program reads a digest only through [bcrypt.checkpw]. *)
Inductive PasswordHash : Type :=
  | Bcrypt (salt : string) (password : string).

Definition checkpw (password : string) (h : PasswordHash) : bool :=
  match h with Bcrypt _ p => String.eqb password p end.

(** A row of [patients]. *)
Record Patient : Type := mkPatient {
  id : nat;
  email : string;
  password_hash : PasswordHash;
  patient_name : JValue;
  default_password : option string;
  created_at : Z
}.

(** A [Patient(...)] object before it is flushed: no [id], and no
    [password_hash] until [set_password] runs. *)
Record NewPatient : Type := mkNewPatient {
  np_email : string;
  np_password_hash : option PasswordHash;
  np_patient_name : JValue;
  np_default_password : option string
}.

(** [Patient.set_password] *)
Definition set_password (p : NewPatient) (password salt : string) : NewPatient :=
  mkNewPatient (np_email p) (Some (Bcrypt salt password))
               (np_patient_name p) (np_default_password p).

(** [Patient.check_password] *)
Definition check_password (p : Patient) (password : string) : bool :=
  checkpw password (password_hash p).

(** A row of [consents].  [c_ai_analysis_json] stands for the text
    [json.dumps(analysis)], written as the value it serialises. *)
Record Consent : Type := mkConsent {
  c_id : nat;
  c_patient_id : nat;
  c_filename : string;
  c_full_text : string;
  c_ai_analysis_json : JValue;
  c_processed_timestamp : Z
}.

(** A row of [entity_index].  The columns filled from the analysis hold the
    Python value handed to the driver; [e_consented_items] and
    [e_declined_items] stand for [json.dumps] texts, as above. *)
Record EntityIndex : Type := mkEntityIndex {
  e_id : nat;
  e_consent_id : nat;
  e_patient_id : nat;
  e_patient_name : JValue;
  e_patient_email : JValue;
  e_patient_dob : JValue;
  e_doctor_name : JValue;
  e_procedure : JValue;
  e_procedure_date : JValue;
  e_consented_items : JValue;
  e_declined_items : JValue;
  e_summary : JValue;
  e_search_terms : string;
  e_processed_timestamp : Z
}.

(** The three tables of the pipeline ([sessions] belongs to the login code). *)
Record Database : Type := mkDatabase {
  patients : list Patient;
  consents : list Consent;
  entity_index : list EntityIndex
}.

Definition empty_db : Database := mkDatabase [] [] [].

(** The rowid SQLite gives to the next row: one more than the largest. *)
Definition next_id (ids : list nat) : nat := S (fold_right Nat.max 0 ids).

(** [query(Patient).filter(Patient.email == e).first()] *)
Definition find_patient_by_email (db : Database) (e : string) : option Patient :=
  find (fun p => String.eqb (email p) e) (patients db).

(** [query(Patient).filter(Patient.id == i).first()] *)
Definition find_patient_by_id (db : Database) (i : nat) : option Patient :=
  find (fun p => Nat.eqb (id p) i) (patients db).

(** [query(EntityIndex).filter(EntityIndex.patient_id == i).all()] *)
Definition entities_of_patient (db : Database) (i : nat) : list EntityIndex :=
  filter (fun e => Nat.eqb (e_patient_id e) i) (entity_index db).

(** The driver binds [None], booleans, floats, strings and the integers
    that fit 64 bits; a list or a dict, and an integer outside 64 bits, is
    refused when the INSERT is emitted. *)
Definition bindable (v : JValue) : bool :=
  match v with
  | JArr _ | JObj _ => false
  | JInt z => ((- 2 ^ 63 <=? z) && (z <? 2 ^ 63))%Z
  | _ => true
  end.

Definition bind_error (v : JValue) : Exn :=
  match v with
  | JInt _ =>
      mkExn OverflowError "Python int too large to convert to SQLite INTEGER"
  | _ =>
      mkExn InterfaceError
            ("Error binding parameter: type '" ++ type_name v ++ "' is not supported")
  end.

Definition integrity_error (what : string) : Exn :=
  mkExn IntegrityError what.

(** INSERT of a patient: [password_hash] and [patient_name] are NOT NULL,
    the name must bind, [email] is UNIQUE. *)
Definition insert_patient (now : Z) (p : NewPatient) (db : Database)
  : result (Patient * Database) :=
  match np_password_hash p with
  | None => Raise (integrity_error "NOT NULL constraint failed: patients.password_hash")
  | Some h =>
      if is_none (np_patient_name p)
      then Raise (integrity_error "NOT NULL constraint failed: patients.patient_name")
      else if negb (bindable (np_patient_name p))
      then Raise (bind_error (np_patient_name p))
      else
        match find_patient_by_email db (np_email p) with
        | Some _ => Raise (integrity_error "UNIQUE constraint failed: patients.email")
        | None =>
            let row := mkPatient (next_id (map id (patients db))) (np_email p) h
                                 (np_patient_name p) (np_default_password p) now in
            Ok (row, mkDatabase (patients db ++ [row]) (consents db) (entity_index db))
        end
  end.

(** INSERT of a consent; [mk] is the object without its [id]. *)
Definition insert_consent (mk : nat -> Consent) (db : Database)
  : result (Consent * Database) :=
  let row := mk (next_id (map c_id (consents db))) in
  Ok (row, mkDatabase (patients db) (consents db ++ [row]) (entity_index db)).

Definition first_unbindable (vs : list JValue) : option JValue :=
  find (fun v => negb (bindable v)) vs.

(** INSERT of an index row: every column must bind, [consent_id] is UNIQUE. *)
Definition insert_entity (mk : nat -> EntityIndex) (db : Database)
  : result (EntityIndex * Database) :=
  let row := mk (next_id (map e_id (entity_index db))) in
  match first_unbindable [e_patient_name row; e_patient_email row; e_patient_dob row;
                          e_doctor_name row; e_procedure row; e_procedure_date row;
                          e_summary row] with
  | Some v => Raise (bind_error v)
  | None =>
      if existsb (fun e => Nat.eqb (e_consent_id e) (e_consent_id row)) (entity_index db)
      then Raise (integrity_error "UNIQUE constraint failed: entity_index.consent_id")
      else Ok (row, mkDatabase (patients db) (consents db) (entity_index db ++ [row]))
  end.

End database.
Import database.

(* ================================================================== *)
(** * The outside world *)
(* ================================================================== *)

Module Runtime.

(** What the libraries and services answer.  The nat argument of [chat],
    [gensalt], [utcnow] and [store_fault] is the number of answers already
    drawn from the outside in this run, so repeated calls may differ. *)
Record Env : Type := mkEnv {
  (** [os.path.exists], [os.path.isdir], [os.listdir] *)
  path_exists : string -> bool;
  isdir : string -> bool;
  listdir : string -> list string;
  (** [pdfplumber.open(path).pages], each with its [extract_text()] *)
  pdf_pages : string -> result (list (result (option string)));
  (** [convert_from_path(path, dpi=300)], each image with its
      [pytesseract.image_to_string] *)
  ocr_pages : string -> result (list (result string));
  (** [ollama.chat(...)['message']['content']] for a prompt *)
  chat : nat -> string -> result JValue;
  (** [json.loads] *)
  json_loads : string -> result JValue;
  (** [bcrypt.gensalt()], [datetime.utcnow()] *)
  gensalt : nat -> string;
  utcnow : nat -> Z;
  (** a failure of the storage engine on a flush or a commit *)
  store_fault : nat -> option Exn;
  (** the order in which [set(xs)] is iterated: hash order, not ours to fix *)
  set_iter : list string -> list string
}.

(** Calls to the capability providers, in the order they were made. *)
Inductive Call : Type :=
  | CallPdfplumber (path : string)
  | CallTesseract (path : string)
  | CallChat (prompt : string).

Record World : Type := mkWorld {
  db : Database;          (** the committed store *)
  calls : list Call;      (** provider calls so far, oldest first *)
  stdout : list string;   (** lines printed by the batch loop *)
  draws : nat             (** answers drawn from the outside so far *)
}.

Definition initial_world (d : Database) : World := mkWorld d [] [] 0.

(** A computation: it may change the world and either returns or raises. *)
Definition M (A : Type) : Type := World -> result A * World.

Definition ret {A} (a : A) : M A := fun w => (Ok a, w).

Definition raise {A} (e : Exn) : M A := fun w => (Raise e, w).

Definition bind {A B} (c : M A) (k : A -> M B) : M B :=
  fun w =>
    match c w with
    | (Ok a, w') => k a w'
    | (Raise e, w') => (Raise e, w')
    end.

(** [try: c  except Exception as e: handler(e)] *)
Definition try_except {A} (c : M A) (handler : Exn -> M A) : M A :=
  fun w =>
    match c w with
    | (Ok a, w') => (Ok a, w')
    | (Raise e, w') => handler e w'
    end.

Definition lift {A} (r : result A) : M A := fun w => (r, w).

Definition get_world : M World := fun w => (Ok w, w).

Definition record_call (c : Call) : M unit :=
  fun w => (Ok tt, mkWorld (db w) (calls w ++ [c]) (stdout w) (draws w)).

Definition print (line : string) : M unit :=
  fun w => (Ok tt, mkWorld (db w) (calls w) (stdout w ++ [line]) (draws w)).

(** Take the next answer of an oracle indexed by [draws]. *)
Definition draw {A} (oracle : nat -> A) : M A :=
  fun w => (Ok (oracle (draws w)), mkWorld (db w) (calls w) (stdout w) (S (draws w))).

Definition set_db (d : Database) : M unit :=
  fun w => (Ok tt, mkWorld d (calls w) (stdout w) (draws w)).

End Runtime.
Import Runtime.

Declare Scope monad_scope.
Delimit Scope monad_scope with monad.
Notation "x <- c ;; k" := (bind c (fun x => k))
  (at level 61, c at next level, right associativity) : monad_scope.
Notation "' pat <- c ;; k" := (bind c (fun x => match x with pat => k end))
  (at level 61, pat pattern, c at next level, right associativity) : monad_scope.
Notation "c ;;; k" := (bind c (fun _ => k))
  (at level 61, right associativity) : monad_scope.
Local Open Scope monad_scope.

(** What a SQLAlchemy session does.  A session works on its own copy of the
    store; [commit] publishes the copy, [rollback] and [close] drop it. *)
Module DbSession.

(** [db_manager.get_session()] *)
Definition get_session : M Database := fun w => (Ok (db w), w).

(** Any statement sent to the engine may fail. *)
Definition store_op (env : Env) : M unit :=
  fault <- draw (store_fault env) ;;
  match fault with
  | Some e => raise e
  | None => ret tt
  end.

(** [session.add(obj); session.flush()]: the INSERT [ins] runs on the
    session's copy and the row comes back with its [id]. *)
Definition add_flush {Row : Type} (env : Env)
    (ins : Database -> result (Row * Database)) (session : Database)
  : M (Row * Database) :=
  store_op env ;;;
  lift (ins session).

(** [session.commit()], everything being flushed *)
Definition commit (env : Env) (session : Database) : M unit :=
  store_op env ;;;
  set_db session.

End DbSession.
Import DbSession.

(* ================================================================== *)
(** * api/ocr_processor.py *)
(* ================================================================== *)

Module ocr_processor.

Definition nl : string := String (ascii_of_nat 10) EmptyString.

(** [f"\n--- Page {page_num} ---\n"] *)
Definition page_marker (page_num : nat) : string :=
  nl ++ "--- Page " ++ str_nat page_num ++ " ---" ++ nl.

(** The loop of [_extract_with_pdfplumber]: a page contributes its marker
    and its text when [extract_text()] is truthy. *)
Fixpoint pdfplumber_loop (page_num : nat) (pages : list (result (option string)))
  : result (list string) :=
  match pages with
  | [] => Ok []
  | page :: rest =>
      rbind page (fun page_text =>
      rbind (pdfplumber_loop (S page_num) rest) (fun text =>
      match page_text with
      | Some t => if String.eqb t "" then Ok text
                  else Ok (page_marker page_num :: t :: text)
      | None => Ok text
      end))
  end.

(** What [_extract_with_pdfplumber] returns or raises for a path. *)
Definition pdfplumber_text (env : Env) (pdf_path : string) : result string :=
  match rbind (pdf_pages env pdf_path) (pdfplumber_loop 1) with
  | Ok text => Ok (String.concat "" text)
  | Raise e =>
      Raise (mkExn PlainException ("pdfplumber extraction failed: " ++ exn_str e))
  end.

Definition _extract_with_pdfplumber (env : Env) (pdf_path : string) : M string :=
  record_call (CallPdfplumber pdf_path) ;;;
  lift (pdfplumber_text env pdf_path).

(** The loop of [_extract_with_tesseract]: every page contributes. *)
Fixpoint tesseract_loop (page_num : nat) (images : list (result string))
  : result (list string) :=
  match images with
  | [] => Ok []
  | image :: rest =>
      rbind image (fun page_text =>
      rbind (tesseract_loop (S page_num) rest) (fun text =>
      Ok (page_marker page_num :: page_text :: text)))
  end.

Definition tesseract_text (env : Env) (pdf_path : string) : result string :=
  match rbind (ocr_pages env pdf_path) (tesseract_loop 1) with
  | Ok text => Ok (String.concat "" text)
  | Raise e =>
      Raise (mkExn PlainException
               ("Tesseract extraction failed: " ++ exn_str e ++ ". "
                ++ "Make sure Tesseract is installed: 'brew install tesseract' (macOS) "
                ++ "or 'apt-get install tesseract-ocr' (Linux)"))
  end.

Definition _extract_with_tesseract (env : Env) (pdf_path : string) : M string :=
  record_call (CallTesseract pdf_path) ;;;
  lift (tesseract_text env pdf_path).

(** [OCRProcessor(ocr_engine).extract_text_from_pdf(pdf_path)] *)
Definition extract_text_from_pdf (env : Env) (ocr_engine : string) (pdf_path : string)
  : M string :=
  if negb (path_exists env pdf_path) then
    raise (mkExn FileNotFoundError ("PDF file not found: " ++ pdf_path))
  else if String.eqb ocr_engine "pdfplumber" then
    _extract_with_pdfplumber env pdf_path
  else if String.eqb ocr_engine "tesseract" then
    _extract_with_tesseract env pdf_path
  else
    try_except
      (text <- _extract_with_pdfplumber env pdf_path ;;
       if (50 <? String.length (strip text))%nat
       then ret text
       else _extract_with_tesseract env pdf_path)
      (fun e => _extract_with_tesseract env pdf_path).

End ocr_processor.

(* ================================================================== *)
(** * api/ai_analyzer.py *)
(* ================================================================== *)

Module ai_analyzer.

(** The prompt of [analyze_consent_form]. *)
Definition analysis_prompt (ocr_text : string) : string :=
  "You are a medical consent form analyzer. Analyze the following consent form text and extract information in JSON format.

CONSENT FORM TEXT:
" ++ ocr_text ++ "

Extract the following information and return ONLY a valid JSON object with these fields:
- patient_name: Patient's full name
- patient_email: Patient's email address (if available)
- patient_dob: Patient's date of birth (format: YYYY-MM-DD or as written)
- doctor_name: Name of the doctor/physician
- procedure: Medical procedure or treatment
- procedure_date: Date of procedure (format: YYYY-MM-DD or as written)
- consented_items: Array of items/procedures the patient consented to
- declined_items: Array of items the patient declined or refused
- summary: A 2-3 sentence summary of the consent form

Important:
- Return ONLY the JSON object, no additional text
- If a field is not found, use null
- For email, if not found, generate format: firstname.lastname@example.com
- For consented_items and declined_items, return arrays even if empty
- Be thorough in identifying what was consented to vs declined

JSON Response:".

(** [_get_default_analysis] *)
Definition _get_default_analysis : Dict :=
  [ ("patient_name", JStr "Unknown");
    ("patient_email", JStr "unknown@example.com");
    ("patient_dob", JNull);
    ("doctor_name", JStr "Unknown");
    ("procedure", JStr "Unknown");
    ("procedure_date", JNull);
    ("consented_items", JArr []);
    ("declined_items", JArr []);
    ("summary", JStr "Unable to extract summary from consent form.") ].

(** The body of the loop of [_validate_analysis] for one key. *)
Definition validate_key (analysis : JValue) (key : string) (default : JValue)
  : result JValue :=
  rbind (py_in key analysis) (fun present =>
  if negb present then py_setitem analysis key default
  else
    rbind (py_getitem analysis key) (fun v =>
    if is_none v then py_setitem analysis key default else Ok analysis)).

Fixpoint validate_loop (defaults : Dict) (analysis : JValue) : result JValue :=
  match defaults with
  | [] => Ok analysis
  | (key, default) :: rest =>
      rbind (validate_key analysis key default) (validate_loop rest)
  end.

(** [_validate_analysis] *)
Definition _validate_analysis (analysis : JValue) : result JValue :=
  validate_loop _get_default_analysis analysis.

(** [re.search(r'\{.*\}', text, re.DOTALL)]: from the first opening brace
    to the last closing brace after it. *)
Fixpoint from_first_open (s : string) : option string :=
  match s with
  | EmptyString => None
  | String c s' => if Ascii.eqb c "{"%char then Some s else from_first_open s'
  end.

(** The longest prefix of [s] that ends with a closing brace. *)
Fixpoint upto_last_close (s : string) : option string :=
  match s with
  | EmptyString => None
  | String c s' =>
      match upto_last_close s' with
      | Some r => Some (String c r)
      | None => if Ascii.eqb c "}"%char then Some (String c EmptyString) else None
      end
  end.

Definition re_search_braces (text : string) : option string :=
  match from_first_open text with
  | Some s => upto_last_close s
  | None => None
  end.

Definition unbound_response_text : Exn :=
  mkExn UnboundLocalError
        "cannot access local variable 'response_text' where it is not associated with a value".

(** The two [except] clauses of [analyze_consent_form].  [response_text] is
    the local variable of that name, [None] while nothing was assigned to
    it; the first clause prints [response_text[:500]]. *)
Definition analyze_except (response_text : option string) (e : Exn) : M Dict :=
  if ExnClass_eqb (exn_class e) JSONDecodeError then
    match response_text with
    | Some _ => ret _get_default_analysis
    | None => raise unbound_response_text
    end
  else ret _get_default_analysis.

(** A validated analysis is a dict: [_validate_analysis] raises on anything
    else (see [validate_dict] below). *)
Definition as_dict (v : JValue) : M Dict :=
  match v with
  | JObj o => ret o
  | _ => raise (mkExn TypeError "not a dict")
  end.

(** The first two statements of the [try] block: the call and
    [response['message']['content'].strip()]. *)
Definition chat_stage (env : Env) (prompt : string) : M string :=
  record_call (CallChat prompt) ;;;
  answer <- draw (chat env) ;;
  content <- lift (answer prompt) ;;
  lift (py_strip content).

(** The rest of the [try] block, once [response_text] is assigned. *)
Definition parse_stage (env : Env) (response_text : string) : M Dict :=
  analysis <- lift (json_loads env response_text) ;;
  analysis <- lift (_validate_analysis analysis) ;;
  as_dict analysis.

(** [analyze_consent_form] *)
Definition analyze_consent_form (env : Env) (ocr_text : string) : M Dict :=
  fun w =>
    match chat_stage env (analysis_prompt ocr_text) w with
    | (Raise e, w1) => analyze_except None e w1
    | (Ok response_text, w1) =>
        let response_text :=
          match re_search_braces response_text with
          | Some m => m
          | None => response_text
          end in
        try_except (parse_stage env response_text)
                   (analyze_except (Some response_text)) w1
    end.

(** [x or y] on strings *)
Definition str_or (x y : string) : string :=
  if String.eqb x "" then y else x.

(** One block of [_format_consents_for_context]. *)
Definition format_consent (idx : nat) (consent : Dict) : result string :=
  rbind (py_join ", " (dict_get_default consent "consented_items" (JArr [])))
        (fun consented =>
  rbind (py_join ", " (dict_get_default consent "declined_items" (JArr [])))
        (fun declined =>
  Ok ("
CONSENT FORM #" ++ str_nat idx ++ ":
- Patient: " ++ py_str (dict_get_default consent "patient_name" (JStr "Unknown")) ++ "
- Procedure: " ++ py_str (dict_get_default consent "procedure" (JStr "Unknown")) ++ "
- Doctor: " ++ py_str (dict_get_default consent "doctor_name" (JStr "Unknown")) ++ "
- Date: " ++ py_str (dict_get_default consent "procedure_date" (JStr "Unknown")) ++ "
- Consented to: " ++ str_or consented "None listed" ++ "
- Declined: " ++ str_or declined "None listed" ++ "
- Summary: " ++ py_str (dict_get_default consent "summary" (JStr "No summary available")) ++ "
"))).

Fixpoint format_consents_loop (idx : nat) (patient_consents : list Dict)
  : result (list string) :=
  match patient_consents with
  | [] => Ok []
  | consent :: rest =>
      rbind (format_consent idx consent) (fun part =>
      rbind (format_consents_loop (S idx) rest) (fun parts => Ok (part :: parts)))
  end.

(** [_format_consents_for_context] *)
Definition _format_consents_for_context (patient_consents : list Dict) : result string :=
  match patient_consents with
  | [] => Ok "No consent forms found."
  | _ => rbind (format_consents_loop 1 patient_consents)
               (fun context_parts => Ok (join ocr_processor.nl context_parts))
  end.

(** The prompt of [answer_query]. *)
Definition query_prompt (context query : string) : string :=
  "You are a helpful medical consent assistant. Answer the patient's question based ONLY on their consent form data below.

PATIENT'S CONSENT FORMS:
" ++ context ++ "

PATIENT'S QUESTION:
" ++ query ++ "

IMPORTANT RULES:
- Answer based ONLY on the consent form data provided above
- Be clear, patient-friendly, and concise
- If the information is not in the consent forms, politely say you don't have that information
- NEVER discuss or mention other patients' data
- Focus on what the patient consented to, declined, procedures, and dates
- Be helpful and professional

Your Answer:".

Definition query_apology : string :=
  "I apologize, but I'm having trouble processing your query right now. Please try again.".

(** [answer_query] *)
Definition answer_query (env : Env) (query : string) (patient_consents : list Dict)
  : M string :=
  context <- lift (_format_consents_for_context patient_consents) ;;
  let prompt := query_prompt context query in
  try_except (chat_stage env prompt) (fun e => ret query_apology).

End ai_analyzer.

(* ================================================================== *)
(** * scripts/ingest_pdf.py *)
(* ================================================================== *)

Module ingest_pdf.

(** The dict [_store_consent_data] returns. *)
Record StoreResult : Type := mkStoreResult {
  success : bool;
  r_patient_id : nat;
  r_patient_name : JValue;
  r_patient_email : string;
  r_default_password : option string;
  r_consent_id : nat;
  r_filename : string
}.

(** [os.path.basename] *)
Fixpoint basename_aux (cur : string) (s : string) : string :=
  match s with
  | EmptyString => rev_string EmptyString cur
  | String c s' =>
      if Ascii.eqb c "/"%char then basename_aux EmptyString s'
      else basename_aux (String c cur) s'
  end.

Definition basename (path : string) : string := basename_aux EmptyString path.

(** [os.path.join(a, b)] *)
Definition path_join (a b : string) : string :=
  if prefix "/" b then b
  else if String.eqb a "" || endswith a "/" then a ++ b
  else a ++ "/" ++ b.

(** One [if analysis.get(key): terms.append(analysis[key].lower())]. *)
Definition lowered_term (analysis : Dict) (key : string) : result (list string) :=
  if truthy (dict_get_none analysis key)
  then rbind (dict_getitem analysis key) (fun v =>
       rbind (py_lower v) (fun t => Ok [t]))
  else Ok [].

(** [_generate_search_terms] *)
Definition _generate_search_terms (env : Env) (analysis : Dict) : result string :=
  rbind (if truthy (dict_get_none analysis "patient_name")
         then rbind (dict_getitem analysis "patient_name") (fun v =>
              rbind (py_lower v) (fun t => Ok (t :: split t)))
         else Ok []) (fun name_terms =>
  rbind (lowered_term analysis "patient_email") (fun email_terms =>
  rbind (lowered_term analysis "procedure") (fun procedure_terms =>
  rbind (lowered_term analysis "doctor_name") (fun doctor_terms =>
  Ok (join " " (set_iter env (name_terms ++ email_terms
                                ++ procedure_terms ++ doctor_terms))))))).

(** Step 1 of [_store_consent_data], the branch [if not patient]: build the
    account, derive the default password, hash it, add and flush. *)
Definition derive_default_password (patient_name : JValue) : result string :=
  rbind (py_split patient_name) (fun parts =>
  rbind (first_item parts) (fun first =>
  let first_name := lower first in
  Ok (first_name ++ "123!"))).

Definition create_patient (env : Env) (session : Database)
    (patient_email : string) (patient_name : JValue)
  : M (Patient * option string * Database) :=
  let patient := mkNewPatient patient_email None patient_name None in
  default_password <- lift (derive_default_password patient_name) ;;
  salt <- draw (gensalt env) ;;
  let patient := set_password patient default_password salt in
  let patient := mkNewPatient (np_email patient) (np_password_hash patient)
                              (np_patient_name patient) (Some default_password) in
  now <- draw (utcnow env) ;;
  '(row, session) <- add_flush env (insert_patient now patient) session ;;
  ret (row, Some default_password, session).

(** The [try] block of [_store_consent_data]. *)
Definition store_try (env : Env) (session : Database)
    (pdf_path ocr_text : string) (analysis : Dict) : M StoreResult :=
  let filename := basename pdf_path in
  email <- lift (dict_getitem analysis "patient_email") ;;
  patient_email <- lift (py_lower email) ;;
  patient_name <- lift (dict_getitem analysis "patient_name") ;;
  '(patient, default_password, session) <-
     match find_patient_by_email session patient_email with
     | None => create_patient env session patient_email patient_name
     | Some patient => ret (patient, default_password patient, session)
     end ;;
  now <- draw (utcnow env) ;;
  '(consent, session) <-
     add_flush env
       (insert_consent (fun i => mkConsent i (id patient) filename ocr_text
                                           (JObj analysis) now))
       session ;;
  e_name <- lift (dict_getitem analysis "patient_name") ;;
  e_email <- lift (dict_getitem analysis "patient_email") ;;
  search_terms <- lift (_generate_search_terms env analysis) ;;
  now <- draw (utcnow env) ;;
  '(entity, session) <-
     add_flush env
       (insert_entity (fun i =>
          mkEntityIndex i (c_id consent) (id patient) e_name e_email
            (dict_get_none analysis "patient_dob")
            (dict_get_none analysis "doctor_name")
            (dict_get_none analysis "procedure")
            (dict_get_none analysis "procedure_date")
            (dict_get_default analysis "consented_items" (JArr []))
            (dict_get_default analysis "declined_items" (JArr []))
            (dict_get_none analysis "summary")
            search_terms now))
       session ;;
  commit env session ;;;
  ret (mkStoreResult true (id patient) patient_name patient_email
                     default_password (c_id consent) filename).

(** [_store_consent_data]: on an exception the session is rolled back, its
    copy is dropped, and the exception goes on. *)
Definition _store_consent_data (env : Env)
    (pdf_path ocr_text : string) (analysis : Dict) : M StoreResult :=
  db_session <- get_session ;;
  try_except (store_try env db_session pdf_path ocr_text analysis)
             (fun e => raise e).

(** [process_pdf]; [ocr_engine] is the value of OCR_ENGINE. *)
Definition process_pdf (env : Env) (ocr_engine : string) (pdf_path : string)
  : M StoreResult :=
  try_except
    (ocr_text <- ocr_processor.extract_text_from_pdf env ocr_engine pdf_path ;;
     analysis <- ai_analyzer.analyze_consent_form env ocr_text ;;
     _store_consent_data env pdf_path ocr_text analysis)
    (fun e => raise e).

(** The [for] loop of [process_directory]: [results] is the list being
    built; a failure is printed and the loop goes on. *)
Fixpoint process_files (env : Env) (ocr_engine directory_path : string)
    (pdf_files : list string) (results : list StoreResult) : M (list StoreResult) :=
  match pdf_files with
  | [] => ret results
  | pdf_file :: rest =>
      let pdf_path := path_join directory_path pdf_file in
      results <-
        try_except
          (result <- process_pdf env ocr_engine pdf_path ;;
           ret (results ++ [result])%list)
          (fun e =>
             print ("Failed to process " ++ pdf_file ++ ": " ++ exn_str e) ;;;
             ret results) ;;
      process_files env ocr_engine directory_path rest results
  end.

(** [str(x)] for a password that may be [None] *)
Definition str_option (x : option string) : string :=
  match x with Some s => s | None => "None" end.

Definition rule : string := repeat_char "="%char 60.

Definition summary_line (result : StoreResult) : string :=
  "  • " ++ r_patient_email result ++ " → Password: "
  ++ str_option (r_default_password result).

Fixpoint print_all (lines : list string) : M unit :=
  match lines with
  | [] => ret tt
  | l :: rest => print l ;;; print_all rest
  end.

(** The files the batch looks at. *)
Definition pdf_files_of (env : Env) (directory_path : string) : list string :=
  filter (fun f => endswith f ".pdf") (listdir env directory_path).

(** [process_directory]; it returns [None] on every path. *)
Definition process_directory (env : Env) (ocr_engine directory_path : string) : M unit :=
  if negb (isdir env directory_path) then
    print ("Error: " ++ directory_path ++ " is not a directory")
  else
    let pdf_files := pdf_files_of env directory_path in
    match pdf_files with
    | [] => print ("No PDF files found in " ++ directory_path)
    | _ =>
        print (ocr_processor.nl ++ "Found " ++ str_nat (List.length pdf_files)
               ++ " PDF files to process" ++ ocr_processor.nl) ;;;
        results <- process_files env ocr_engine directory_path pdf_files [] ;;
        print (ocr_processor.nl ++ rule) ;;;
        print "BATCH PROCESSING COMPLETE" ;;;
        print rule ;;;
        print ("Total processed: " ++ str_nat (List.length results) ++ "/"
               ++ str_nat (List.length pdf_files)) ;;;
        print (ocr_processor.nl ++ "Patient Accounts Created/Updated:") ;;;
        print_all (map summary_line results) ;;;
        print (rule ++ ocr_processor.nl)
    end.

End ingest_pdf.

(* ================================================================== *)
(** * api/app.py: the query and upload routes *)
(* ================================================================== *)

Module app.

(** [jsonify(body), status] *)
Record Response : Type := mkResponse { body : Dict; status : nat }.

Definition no_consents_answer : string :=
  "I could not find any consent forms associated with your account. "
  ++ "Please contact your healthcare provider if you believe this is an error.".

(** The dict the query route builds from an index row. *)
Definition consent_dict (consent : EntityIndex) : Dict :=
  [ ("patient_name", e_patient_name consent);
    ("patient_email", e_patient_email consent);
    ("doctor_name", e_doctor_name consent);
    ("procedure", e_procedure consent);
    ("procedure_date", e_procedure_date consent);
    ("consented_items", e_consented_items consent);
    ("declined_items", e_declined_items consent);
    ("summary", e_summary consent) ].

(** [data.get('query', '')] on the request body *)
Definition request_field (data : JValue) (key : string) : result JValue :=
  match data with
  | JObj o => Ok (dict_get_default o key (JStr ""))
  | _ => Raise (no_attribute data "get")
  end.

(** [query()].  [session_patient] is what [validate_session] returned for
    the request's token, [data] is [request.get_json()]. *)
Definition query (env : Env) (session_patient : option nat) (data : JValue)
  : M Response :=
  try_except
    (match session_patient with
     | None | Some O =>
         ret (mkResponse [("error", JStr "Invalid or expired session")] 401)
     | Some patient_id =>
         field <- lift (request_field data "query") ;;
         query_text <- lift (py_strip field) ;;
         if String.eqb query_text "" then
           ret (mkResponse [("error", JStr "Query text required")] 400)
         else
           db_session <- get_session ;;
           match find_patient_by_id db_session patient_id with
           | None => ret (mkResponse [("error", JStr "Patient not found")] 404)
           | Some patient =>
               let consents := entities_of_patient db_session patient_id in
               match consents with
               | [] => ret (mkResponse [("answer", JStr no_consents_answer)] 200)
               | _ =>
                   let consent_data := map consent_dict consents in
                   answer <- ai_analyzer.answer_query env query_text consent_data ;;
                   ret (mkResponse [("answer", JStr answer);
                                    ("query", JStr query_text)] 200)
               end
           end
     end)
    (fun e => ret (mkResponse [("error", JStr "Query processing failed")] 500)).

(** [upload_consent()] from the text extraction on: the session is valid for
    [patient_id], the upload is saved at [file_path] and was sent under the
    name [filename]. *)
Definition upload_consent (env : Env) (patient_id : nat) (filename file_path : string)
  : M Response :=
  try_except
    (text <- ocr_processor.extract_text_from_pdf env "auto" file_path ;;
     if String.eqb text "" || (String.length text <? 50)%nat then
       ret (mkResponse [("error", JStr "Could not extract text from PDF")] 400)
     else
       analysis <- ai_analyzer.analyze_consent_form env text ;;
       db_session <- get_session ;;
       let patient := find_patient_by_id db_session patient_id in
       now <- draw (utcnow env) ;;
       '(consent, db_session) <-
          add_flush env
            (insert_consent (fun i => mkConsent i patient_id filename text
                                                (JObj analysis) now))
            db_session ;;
       commit env db_session ;;;
       patient <-
         match patient with
         | Some p => ret p
         | None => raise (no_attribute JNull "patient_name")
         end ;;
       items <- lift (py_join " " (dict_get_default analysis "consented_items" (JArr []))) ;;
       let search_terms :=
         lower (join " " [ py_str (dict_get_default analysis "patient_name" (JStr ""));
                           py_str (dict_get_default analysis "doctor_name" (JStr ""));
                           py_str (dict_get_default analysis "procedure" (JStr ""));
                           items ]) in
       now <- draw (utcnow env) ;;
       '(entity, db_session) <-
          add_flush env
            (insert_entity (fun i =>
               mkEntityIndex i (c_id consent) patient_id
                 (dict_get_default analysis "patient_name" (patient_name patient))
                 (dict_get_default analysis "patient_email" (JStr (email patient)))
                 (dict_get_none analysis "patient_dob")
                 (dict_get_none analysis "doctor_name")
                 (dict_get_none analysis "procedure")
                 (dict_get_none analysis "procedure_date")
                 (dict_get_default analysis "consented_items" (JArr []))
                 (dict_get_default analysis "declined_items" (JArr []))
                 (dict_get_default analysis "summary" (JStr ""))
                 search_terms now))
            db_session ;;
       commit env db_session ;;;
       ret (mkResponse [("success", JBool true);
                        ("message", JStr "Consent form processed successfully");
                        ("analysis", JObj analysis)] 200))
    (fun e => ret (mkResponse
                     [("error", JStr ("Failed to process PDF: " ++ exn_str e))] 500)).

End app.

(* ================================================================== *)
(** * api/app.py and api/database.py: sessions, login and logout *)
(* ================================================================== *)

Module auth.

Import app.

(** A row of [sessions]. *)
Record Session : Type := mkSession {
  s_id : nat;
  s_patient_id : nat;
  session_token : string;
  s_created_at : Z;
  expires_at : Z
}.

(** The store with its fourth table. *)
Record Store : Type := mkStore {
  st_db : Database;
  st_sessions : list Session
}.

(** What a request meets outside the store.  Times are seconds. *)
Record AuthEnv : Type := mkAuthEnv {
  (** [secrets.token_urlsafe(32)] *)
  token_urlsafe : string;
  (** [datetime.utcnow()] *)
  clock : Z;
  (** SESSION_EXPIRY_HOURS *)
  expiry_hours : Z;
  (** [datetime.isoformat] *)
  isoformat : Z -> string;
  (** a failure of the storage engine on the commit *)
  commit_fault : option Exn
}.

(** [query(Session).filter(Session.session_token == t).first()] *)
Definition find_session (st : Store) (t : string) : option Session :=
  find (fun x => String.eqb (session_token x) t) (st_sessions st).

(** [db_session.delete(session); db_session.commit()] *)
Definition delete_session (aenv : AuthEnv) (x : Session) (st : Store) : result Store :=
  match commit_fault aenv with
  | Some e => Raise e
  | None =>
      Ok (mkStore (st_db st)
                  (filter (fun y => negb (Nat.eqb (s_id y) (s_id x))) (st_sessions st)))
  end.

(** [db_session.add(new_session); db_session.commit()]: [session_token] is
    UNIQUE. *)
Definition insert_session (aenv : AuthEnv) (patient_id : nat) (token : string)
    (expires : Z) (st : Store) : result Store :=
  match commit_fault aenv with
  | Some e => Raise e
  | None =>
      match find_session st token with
      | Some _ =>
          Raise (integrity_error "UNIQUE constraint failed: sessions.session_token")
      | None =>
          Ok (mkStore (st_db st)
                      (st_sessions st
                       ++ [mkSession (next_id (map s_id (st_sessions st))) patient_id
                                     token (clock aenv) expires]))
      end
  end.

(** [validate_session]: the patient of a live session; an expired session
    is deleted on the way. *)
Definition validate_session (aenv : AuthEnv) (token : string) (st : Store)
  : result (option nat) * Store :=
  if String.eqb token "" then (Ok None, st)
  else
    match find_session st token with
    | None => (Ok None, st)
    | Some x =>
        if (expires_at x <? clock aenv)%Z then
          match delete_session aenv x st with
          | Ok st' => (Ok None, st')
          | Raise e => (Raise e, st)
          end
        else (Ok (Some (s_patient_id x)), st)
    end.

(** [data.get(key, '').strip()] on the request body *)
Definition stripped_field (data : JValue) (key : string) : result string :=
  rbind (request_field data key) py_strip.

(** The [try] block of [login]. *)
Definition login_try (aenv : AuthEnv) (data : JValue) (st : Store)
  : result (Response * Store) :=
  rbind (stripped_field data "email") (fun stripped =>
  let email := lower stripped in
  rbind (stripped_field data "password") (fun password =>
  if String.eqb email "" || String.eqb password "" then
    Ok (mkResponse [("error", JStr "Email and password required")] 400, st)
  else
    match find_patient_by_email (st_db st) email with
    | None => Ok (mkResponse [("error", JStr "Invalid credentials")] 401, st)
    | Some patient =>
        if negb (check_password patient password) then
          Ok (mkResponse [("error", JStr "Invalid credentials")] 401, st)
        else
          let token := token_urlsafe aenv in
          let expires := (clock aenv + expiry_hours aenv * 3600)%Z in
          rbind (insert_session aenv (id patient) token expires st) (fun st' =>
          Ok (mkResponse [ ("success", JBool true);
                           ("session_token", JStr token);
                           ("patient_name", patient_name patient);
                           ("email", JStr (database.email patient));
                           ("expires_at", JStr (isoformat aenv expires)) ] 200,
              st'))
    end)).

(** [login()]; [data] is [request.get_json()]. *)
Definition login (aenv : AuthEnv) (data : JValue) (st : Store) : Response * Store :=
  match login_try aenv data st with
  | Ok out => out
  | Raise _ => (mkResponse [("error", JStr "Login failed")] 500, st)
  end.

(** [header.replace('Bearer ', '')]: every occurrence goes. *)
Fixpoint drop (n : nat) (s : string) : string :=
  match n, s with
  | O, _ => s
  | S n', String _ s' => drop n' s'
  | S _, EmptyString => EmptyString
  end.

Fixpoint remove_all (fuel : nat) (pat s : string) : string :=
  match fuel with
  | O => s
  | S fuel' =>
      if prefix pat s then remove_all fuel' pat (drop (String.length pat) s)
      else
        match s with
        | EmptyString => EmptyString
        | String c s' => String c (remove_all fuel' pat s')
        end
  end.

Definition bearer_token (authorization : string) : string :=
  remove_all (S (String.length authorization)) "Bearer " authorization.

(** [logout()]; [authorization] is the Authorization header, or the empty
    string. *)
Definition logout (aenv : AuthEnv) (authorization : string) (st : Store)
  : Response * Store :=
  let token := bearer_token authorization in
  if String.eqb token "" then
    (mkResponse [("error", JStr "No session token provided")] 400, st)
  else
    match find_session st token with
    | Some x =>
        match delete_session aenv x st with
        | Ok st' => (mkResponse [("success", JBool true)] 200, st')
        | Raise _ => (mkResponse [("error", JStr "Logout failed")] 500, st)
        end
    | None => (mkResponse [("success", JBool true)] 200, st)
    end.

(** [stats()] for the patient [validate_session] found. *)
Definition stats (session_patient : option nat) (st : Store) : Response :=
  match session_patient with
  | None | Some O => mkResponse [("error", JStr "Invalid or expired session")] 401
  | Some patient_id =>
      let consent_count := List.length (entities_of_patient (st_db st) patient_id) in
      match find_patient_by_id (st_db st) patient_id with
      | Some patient =>
          mkResponse [ ("consent_forms", JInt (Z.of_nat consent_count));
                       ("patient_name", patient_name patient);
                       ("email", JStr (database.email patient)) ] 200
      | None =>
          mkResponse [ ("consent_forms", JInt (Z.of_nat consent_count));
                       ("patient_name", JStr "Unknown");
                       ("email", JStr "Unknown") ] 200
      end
  end.

(** [query()] on a whole request: [authorization] is the Authorization
    header, or the empty string when there is none; [data] is
    [request.get_json()].  The tables [patients], [consents] and
    [entity_index] are those of the world, [sessions] is the fourth table.
    An exception of [validate_session] is caught by the route as any other.
    What the route prints is left out. *)
Definition query_request (aenv : AuthEnv) (env : Env) (authorization : string)
    (data : JValue) (sessions : list Session) (w : World)
  : Response * list Session * World :=
  match validate_session aenv (bearer_token authorization)
                         (mkStore (db w) sessions) with
  | (Raise _, _) =>
      (mkResponse [("error", JStr "Query processing failed")] 500, sessions, w)
  | (Ok session_patient, st) =>
      match query env session_patient data w with
      | (Ok resp, w') => (resp, st_sessions st, w')
      | (Raise _, w') =>
          (mkResponse [("error", JStr "Query processing failed")] 500,
           st_sessions st, w')
      end
  end.

Definition upload_failed (e : Exn) : Response :=
  mkResponse [("error", JStr ("Failed to process PDF: " ++ exn_str e))] 500.

(** [upload_consent()] on a whole request: [file] is the filename of the
    part 'file' when the request has one; [saved] is what saving the upload
    gave, the path of the copy or the error of [os.makedirs] or
    [file.save].  What the route prints is left out. *)
Definition upload_request (aenv : AuthEnv) (env : Env) (authorization : string)
    (file : option string) (saved : result string)
    (sessions : list Session) (w : World)
  : Response * list Session * World :=
  match validate_session aenv (bearer_token authorization)
                         (mkStore (db w) sessions) with
  | (Raise e, _) => (upload_failed e, sessions, w)
  | (Ok session_patient, st) =>
      match session_patient with
      | None | Some O =>
          (mkResponse [("error", JStr "Invalid or expired session")] 401,
           st_sessions st, w)
      | Some patient_id =>
          match file with
          | None =>
              (mkResponse [("error", JStr "No file uploaded")] 400, st_sessions st, w)
          | Some filename =>
              if String.eqb filename "" then
                (mkResponse [("error", JStr "No file selected")] 400,
                 st_sessions st, w)
              else if negb (endswith (lower filename) ".pdf") then
                (mkResponse [("error", JStr "Only PDF files are allowed")] 400,
                 st_sessions st, w)
              else
                match saved with
                | Raise e => (upload_failed e, st_sessions st, w)
                | Ok file_path =>
                    match upload_consent env patient_id filename file_path w with
                    | (Ok resp, w') => (resp, st_sessions st, w')
                    | (Raise e, w') => (upload_failed e, st_sessions st, w')
                    end
                end
          end
      end
  end.

End auth.

(* ================================================================== *)
(** * Properties *)
(* ================================================================== *)

Import ocr_processor ai_analyzer ingest_pdf app.

(** ** Strings *)

Fixpoint all_chars (p : ascii -> bool) (s : string) : bool :=
  match s with
  | EmptyString => true
  | String c s' => p c && all_chars p s'
  end.

Definition blank (s : string) : bool := all_chars is_space s.

Definition solid (s : string) : bool := all_chars (fun c => negb (is_space c)) s.

(** [rest] is empty or begins with a white character: a token may end
    before it. *)
Definition token_end (rest : string) : bool :=
  match rest with
  | EmptyString => true
  | String c _ => is_space c
  end.

(** ** Stand-ins for the providers, used to run the model on examples *)

Module Fixtures.

Definition q (s : string) : string :=
  String dquote (s ++ String dquote EmptyString).

(** A page of a digital form, long enough for the layout extractor. *)
Definition form_text : string :=
  "PATIENT CONSENT FORM Patient Name: Maria Garcia Email: Maria.Garcia@Example.com".

(** What the model answers for it, and what [json.loads] makes of that. *)
Definition maria_json : string :=
  "{" ++ q "patient_name" ++ ": " ++ q "Maria Garcia" ++ ", "
      ++ q "patient_email" ++ ": " ++ q "Maria.Garcia@Example.com" ++ ", "
      ++ q "procedure" ++ ": " ++ q "Appendectomy" ++ "}".

Definition maria_parsed : Dict :=
  [ ("patient_name", JStr "Maria Garcia");
    ("patient_email", JStr "Maria.Garcia@Example.com");
    ("procedure", JStr "Appendectomy") ].

(** The same analysis once validated. *)
Definition maria : Dict :=
  [ ("patient_name", JStr "Maria Garcia");
    ("patient_email", JStr "Maria.Garcia@Example.com");
    ("procedure", JStr "Appendectomy");
    ("patient_dob", JNull);
    ("doctor_name", JStr "Unknown");
    ("procedure_date", JNull);
    ("consented_items", JArr []);
    ("declined_items", JArr []);
    ("summary", JStr "Unable to extract summary from consent form.") ].

(** An analysis whose name is the empty string. *)
Definition nameless : Dict := dict_set maria "patient_name" (JStr "").

(** An answer that lists the consented items as objects, not as strings. *)
Definition itemised_json : string :=
  "{" ++ q "patient_name" ++ ": " ++ q "Maria Garcia" ++ ", "
      ++ q "consented_items" ++ ": [{" ++ q "item" ++ ": "
      ++ q "General anesthesia" ++ "}]}".

Definition itemised_parsed : Dict :=
  [ ("patient_name", JStr "Maria Garcia");
    ("consented_items", JArr [JObj [("item", JStr "General anesthesia")]]) ].

Definition json_loads_double (text : string) : result JValue :=
  if String.eqb text maria_json then Ok (JObj maria_parsed)
  else if String.eqb text itemised_json then Ok (JObj itemised_parsed)
  else Raise (mkExn JSONDecodeError "Expecting value: line 1 column 1 (char 0)").

Definition engine_down (what : string) : Exn := mkExn PlainException what.

(** Every document reads as [form_text], except that nothing can be read
    from a path ending in [b.pdf]; the model answers [answer]. *)
Definition env_with (answer : result JValue) : Env :=
  mkEnv (fun _ => true) (fun _ => true)
        (fun _ => ["a.pdf"; "notes.txt"; "b.pdf"; "scan.PDF"; "c.pdf"])
        (fun path => if endswith path "b.pdf"
                     then Raise (engine_down "No /Root object")
                     else Ok [Ok (Some form_text)])
        (fun path => if endswith path "b.pdf"
                     then Raise (engine_down "Unable to get page count")
                     else Ok [Ok "scanned"])
        (fun _ _ => answer)
        json_loads_double
        (fun n => "salt" ++ str_nat n)
        (fun n => Z.of_nat n)
        (fun _ => None)
        (fun xs => nodup string_dec xs).

Definition env_ok : Env := env_with (Ok (JStr maria_json)).

Definition env_itemised : Env := env_with (Ok (JStr itemised_json)).

(** The HTTP client of the model got a body that is not JSON. *)
Definition env_bad_body : Env :=
  env_with (Raise (mkExn JSONDecodeError "Expecting value: line 1 column 1 (char 0)")).

(** A document whose only page reads as 35 characters: with the page
    marker the trimmed text has exactly 50. *)
Definition short_page : string := "Consent form: Maria Garcia, signed.".

Definition env_fifty : Env :=
  mkEnv (fun _ => true) (fun _ => true) (fun _ => ["a.pdf"])
        (fun _ => Ok [Ok (Some short_page)])
        (fun _ => Ok [Ok "scanned"])
        (fun _ _ => Ok (JStr maria_json))
        json_loads_double
        (fun n => "salt" ++ str_nat n)
        (fun n => Z.of_nat n)
        (fun _ => None)
        (fun xs => nodup string_dec xs).

Definition w0 : World := initial_world empty_db.

(** The store once [a.pdf] was ingested. *)
Definition w_maria : World :=
  snd (_store_consent_data env_ok "forms/a.pdf" form_text maria w0).


End Fixtures.

(** ** Vocabulary of the statements *)

(** A computation keeps the component [f] of the world when it ends, with
    a value or an exception, in a world with the same [f]. *)
Definition keeps {X A} (f : World -> X) (c : M A) : Prop :=
  forall w r w', c w = (r, w') -> f w' = f w.

(** The committed store is left alone. *)
Abbreviation db_frame := (keeps db).

(** A component that does not depend on the provider calls made or on the
    answers drawn. *)
Definition quiet {X} (f : World -> X) : Prop :=
  forall d c s n c' n', f (mkWorld d c s n) = f (mkWorld d c' s n').

(** How the patient of a stored document was found: already there, or
    created with the derived password [cred]. *)
Inductive Resolved (session : Database) (analysis : Dict) (lowered : string)
    (patient : Patient) (res : StoreResult) : list Patient -> Prop :=
  | resolved_existing :
      find_patient_by_email session lowered = Some patient ->
      r_default_password res = default_password patient ->
      Resolved session analysis lowered patient res []
  | resolved_created (name : JValue) (cred salt : string) :
      find_patient_by_email session lowered = None ->
      dict_get analysis "patient_name" = Some name ->
      derive_default_password name = Ok cred ->
      password_hash patient = Bcrypt salt cred ->
      default_password patient = Some cred ->
      r_default_password res = Some cred ->
      email patient = lowered ->
      Resolved session analysis lowered patient res [patient].

(** A successful run on the session copy [session] ends in the store
    [final]: the patient rows [added], one consent and one index row, all
    tied together. *)
Inductive Stored (session : Database) (analysis : Dict) (res : StoreResult)
    (final : Database) : Prop :=
  | stored_together (e : string) (patient : Patient) (added : list Patient)
      (consent : Consent) (entity : EntityIndex) :
      dict_get analysis "patient_email" = Some (JStr e) ->
      r_patient_email res = lower e ->
      Resolved session analysis (lower e) patient res added ->
      final = mkDatabase (patients session ++ added)
                         (consents session ++ [consent])
                         (entity_index session ++ [entity]) ->
      c_patient_id consent = id patient ->
      e_patient_id entity = id patient ->
      e_consent_id entity = c_id consent ->
      r_patient_id res = id patient ->
      r_consent_id res = c_id consent ->
      Stored session analysis res final.

(** A computation that may publish to the store only when it succeeds. *)
Definition db_atomic {A} (c : M A) : Prop :=
  forall w e w', c w = (Raise e, w') -> db w' = db w.

(** What validation leaves under a key whose default is [d]: the value that
    was there, unless it was missing or null. *)
Definition filled (before : option JValue) (d : JValue) : JValue :=
  match before with
  | Some v => if is_none v then d else v
  | None => d
  end.

(** The text handed to [json.loads] for a reply. *)
Definition json_candidate (content : string) : string :=
  match re_search_braces (strip content) with
  | Some m => m
  | None => strip content
  end.

(** The world after the provider calls [cs]. *)
Definition after_calls (w : World) (cs : list Call) : World :=
  mkWorld (db w) (calls w ++ cs) (stdout w) (draws w).

(** What the loop prints for a document that failed. *)
Definition failure_line (pdf_file : string) (e : Exn) : string :=
  "Failed to process " ++ pdf_file ++ ": " ++ exn_str e.

Definition after_print (w : World) (line : string) : World :=
  mkWorld (db w) (calls w) (stdout w ++ [line]) (draws w).

(** The runs of the loop: every file is processed in the world the previous
    file left, whether that one succeeded or failed. *)
Inductive Ran (env : Env) (ocr_engine directory_path : string)
  : World -> list (string * result StoreResult) -> World -> Prop :=
  | ran_done (w : World) : Ran env ocr_engine directory_path w [] w
  | ran_success (w : World) pdf_file res w1 rest w2 :
      process_pdf env ocr_engine (path_join directory_path pdf_file) w = (Ok res, w1) ->
      Ran env ocr_engine directory_path w1 rest w2 ->
      Ran env ocr_engine directory_path w ((pdf_file, Ok res) :: rest) w2
  | ran_failure (w : World) pdf_file e w1 rest w2 :
      process_pdf env ocr_engine (path_join directory_path pdf_file) w = (Raise e, w1) ->
      Ran env ocr_engine directory_path (after_print w1 (failure_line pdf_file e)) rest w2 ->
      Ran env ocr_engine directory_path w ((pdf_file, Raise e) :: rest) w2.

(** The entries of [results], and the lines printed, for a list of runs. *)
Fixpoint successes_of (outcomes : list (string * result StoreResult))
  : list StoreResult :=
  match outcomes with
  | [] => []
  | (_, Ok res) :: rest => res :: successes_of rest
  | (_, Raise _) :: rest => successes_of rest
  end.

Fixpoint failures_of (outcomes : list (string * result StoreResult)) : list string :=
  match outcomes with
  | [] => []
  | (_, Ok _) :: rest => failures_of rest
  | (f, Raise e) :: rest => failure_line f e :: failures_of rest
  end.

(** What the batch prints once the loop is over. *)
Definition summary (pdf_files : list string) (results : list StoreResult) : list string :=
  [ nl ++ rule;
    "BATCH PROCESSING COMPLETE";
    rule;
    "Total processed: " ++ str_nat (List.length results) ++ "/"
      ++ str_nat (List.length pdf_files);
    nl ++ "Patient Accounts Created/Updated:" ]
  ++ map summary_line results
  ++ [ rule ++ nl ].

Definition found_line (pdf_files : list string) : string :=
  nl ++ "Found " ++ str_nat (List.length pdf_files) ++ " PDF files to process" ++ nl.

(** The same providers over another directory listing. *)
Definition with_listdir (env : Env) (ls : string -> list string) : Env :=
  mkEnv (path_exists env) (isdir env) ls (pdf_pages env) (ocr_pages env)
        (chat env) (json_loads env) (gensalt env) (utcnow env)
        (store_fault env) (set_iter env).

(** A value that [sep.join] accepts: a list of strings, a string, a dict. *)
Definition joinable (v : JValue) : bool :=
  match v with
  | JArr l => forallb (fun x => match x with JStr _ => true | _ => false end) l
  | JStr _ | JObj _ => true
  | _ => false
  end.

(** A consent whose two item lists can be joined. *)
Definition formattable (consent : Dict) : bool :=
  joinable (dict_get_default consent "consented_items" (JArr []))
  && joinable (dict_get_default consent "declined_items" (JArr [])).

(** The world after the model was asked once. *)
Definition after_chat (w : World) (prompt : string) : World :=
  mkWorld (db w) (calls w ++ [CallChat prompt]) (stdout w) (S (draws w)).

(** More stand-ins for the providers. *)
Module Samples.

(** A scan of two pages: no text layer, Tesseract reads both. *)
Definition env_scan : Env :=
  mkEnv (fun _ => true) (fun _ => true) (fun _ => ["scan.pdf"])
        (fun _ => Ok [Ok None; Ok (Some "")])
        (fun _ => Ok [Ok "Consent"; Ok "Signed"])
        (fun _ _ => Ok (JStr Fixtures.maria_json))
        Fixtures.json_loads_double
        (fun n => "salt" ++ str_nat n)
        (fun n => Z.of_nat n)
        (fun _ => None)
        (fun xs => nodup string_dec xs).

(** A short digital page, and no Tesseract on the machine. *)
Definition env_no_tesseract : Env :=
  mkEnv (fun _ => true) (fun _ => true) (fun _ => ["a.pdf"])
        (fun _ => Ok [Ok (Some "Hello")])
        (fun _ => Raise (mkExn PlainException "tesseract is not installed"))
        (fun _ _ => Ok (JStr Fixtures.maria_json))
        Fixtures.json_loads_double
        (fun n => "salt" ++ str_nat n)
        (fun n => Z.of_nat n)
        (fun _ => None)
        (fun xs => nodup string_dec xs).

(** A scan of four pages on which Tesseract reads nothing. *)
Definition env_blank_scan : Env :=
  mkEnv (fun _ => true) (fun _ => true) (fun _ => ["scan.pdf"])
        (fun _ => Ok [Ok None; Ok None; Ok None; Ok None])
        (fun _ => Ok [Ok ""; Ok ""; Ok ""; Ok ""])
        (fun _ _ => Ok (JStr Fixtures.maria_json))
        Fixtures.json_loads_double
        (fun n => "salt" ++ str_nat n)
        (fun n => Z.of_nat n)
        (fun _ => None)
        (fun xs => nodup string_dec xs).

(** The model is down. *)
Definition env_model_down : Env :=
  Fixtures.env_with (Raise (mkExn PlainException "Connection refused")).

End Samples.

(** A store as the script leaves it: emails and ids are keys, every consent
    belongs to a patient and has its index row, every index row points at
    one consent and at the patient of that consent. *)
Record well_formed (d : Database) : Prop := mkWellFormed {
  wf_emails : NoDup (map email (patients d));
  wf_patient_ids : NoDup (map id (patients d));
  wf_consent_ids : NoDup (map c_id (consents d));
  wf_entity_ids : NoDup (map e_id (entity_index d));
  wf_entity_consents : NoDup (map e_consent_id (entity_index d));
  wf_consent_owner :
    forall c, In c (consents d) -> In (c_patient_id c) (map id (patients d));
  wf_entity_consent :
    forall e, In e (entity_index d) ->
      exists c, In c (consents d)
                /\ c_id c = e_consent_id e /\ c_patient_id c = e_patient_id e;
  wf_consent_indexed :
    forall c, In c (consents d) ->
      exists e, In e (entity_index d) /\ e_consent_id e = c_id c
}.

(** [d'] holds every row of [d], unchanged and in place, and maybe more. *)
Definition extends (d d' : Database) : Prop :=
  (exists ps, patients d' = (patients d ++ ps)%list)
  /\ (exists cs, consents d' = (consents d ++ cs)%list)
  /\ (exists es, entity_index d' = (entity_index d ++ es)%list).

(** The storage engine does not fail. *)
Definition no_faults (env : Env) : Prop := forall n, store_fault env n = None.

(** A value [_generate_search_terms] can lower-case and the driver can
    bind: a string or a null. *)
Definition text_or_null (v : JValue) : bool :=
  match v with
  | JStr _ | JNull => true
  | _ => false
  end.

(** A computation whose start and end stores are related by [R]. *)
Definition db_rel {A} (R : Database -> Database -> Prop) (c : M A) : Prop :=
  forall w r w', c w = (r, w') -> R (db w) (db w').

(** The store [d] with one more consent, and with its index row. *)
Definition with_consent (d : Database) (c : Consent) : Database :=
  mkDatabase (patients d) (consents d ++ [c]) (entity_index d).

Definition with_indexed_consent (d : Database) (c : Consent) (x : EntityIndex)
  : Database :=
  mkDatabase (patients d) (consents d ++ [c]) (entity_index d ++ [x]).

(** The body of a login request. *)
Definition credentials (typed_email typed_password : string) : JValue :=
  JObj [("email", JStr typed_email); ("password", JStr typed_password)].

(** Tokens and ids are keys of the sessions table. *)
Definition sessions_ok (st : auth.Store) : Prop :=
  NoDup (map auth.session_token (auth.st_sessions st))
  /\ NoDup (map auth.s_id (auth.st_sessions st)).

(** The instant a session opened under [aenv] ends. *)
Definition expiry (aenv : auth.AuthEnv) : Z :=
  (auth.clock aenv + auth.expiry_hours aenv * 3600)%Z.

(** A login request against the store the first document left. *)
Module AuthSamples.

Definition aenv : auth.AuthEnv :=
  auth.mkAuthEnv "k3Jx0Zr-9dQ" 1000 8 (fun z => str_Z z) None.

Definition later (now : Z) : auth.AuthEnv :=
  auth.mkAuthEnv "n0t-Us3d" now 8 (fun z => str_Z z) None.

Definition st : auth.Store := auth.mkStore (db Fixtures.w_maria) [].

Definition maria_row : Patient :=
  mkPatient 1 "maria.garcia@example.com" (Bcrypt "salt0" "maria123!")
            (JStr "Maria Garcia") (Some "maria123!") 1.

Definition st_logged_in : auth.Store :=
  snd (auth.login aenv (credentials " Maria.Garcia@Example.com " "maria123!") st).

End AuthSamples.

(** What iterating over [set(xs)] gives: the elements of [xs], each once. *)
Definition set_law (env : Env) : Prop :=
  forall xs, NoDup (set_iter env xs)
             /\ forall x, In x (set_iter env xs) <-> In x xs.

(** The store of [Fixtures.w_maria] with one more index row, of another
    patient. *)
Definition stranger_row : EntityIndex :=
  mkEntityIndex 99 99 9 (JStr "Omar Haddad") (JStr "omar@example.com") JNull
    (JStr "Dr. Lind") (JStr "Knee arthroscopy") JNull
    (JArr [JStr "Local anesthesia"]) (JArr []) (JStr "Knee surgery.")
    "omar haddad" 0%Z.

Definition w_maria_and_stranger : World :=
  mkWorld (mkDatabase (patients (db Fixtures.w_maria))
                      (consents (db Fixtures.w_maria))
                      (entity_index (db Fixtures.w_maria) ++ [stranger_row]))
          [] [] (draws Fixtures.w_maria).

(** The document opens and converts, and both engines fail on a page: the
    second page has a broken content stream, and the Tesseract binary is
    not on the machine. *)
Definition env_page_faults : Env :=
  mkEnv (fun _ => true) (fun _ => true) (fun _ => ["a.pdf"])
        (fun _ => Ok [Ok (Some "Page one"); Raise (mkExn PlainException "Unexpected EOF")])
        (fun _ => Ok [Raise (mkExn PlainException
                               "tesseract is not installed or it's not in your PATH")])
        (fun _ _ => Ok (JStr Fixtures.maria_json))
        Fixtures.json_loads_double
        (fun n => "salt" ++ str_nat n)
        (fun n => Z.of_nat n)
        (fun _ => None)
        (fun xs => nodup string_dec xs).

(** ** Strings: what [split] returns *)

Lemma rev_string_twice (s a b : string) :
  rev_string a (rev_string b s) = rev_string (s ++ a) b.
Proof.
  revert a b. induction s as [|c s IH]; intros a b; simpl.
  - reflexivity.
  - rewrite IH. reflexivity.
Qed.

Lemma split_aux_blank (ws s : string) :
  blank ws = true -> split_aux EmptyString (ws ++ s) = split_aux EmptyString s.
Proof.
  induction ws as [|c ws IH]; simpl; intros H.
  - reflexivity.
  - apply andb_prop in H. destruct H as [Hc Hws].
    rewrite Hc. apply IH. exact Hws.
Qed.

Lemma split_aux_solid (tok rest cur : string) :
  solid tok = true ->
  split_aux cur (tok ++ rest) = split_aux (rev_string cur tok) rest.
Proof.
  revert cur. induction tok as [|c tok IH]; simpl; intros cur H.
  - reflexivity.
  - apply andb_prop in H. destruct H as [Hc Htok].
    apply negb_true_iff in Hc. rewrite Hc. apply IH. exact Htok.
Qed.

Lemma rev_string_nonempty (tok cur : string) :
  tok <> EmptyString -> rev_string cur tok <> EmptyString.
Proof.
  revert cur. induction tok as [|c tok IH]; intros cur H.
  - contradiction.
  - simpl. destruct tok as [|d tok'].
    + simpl. discriminate.
    + apply IH. discriminate.
Qed.

Lemma append_empty_r (s : string) : s ++ EmptyString = s.
Proof. induction s as [|c s IH]; simpl; [reflexivity | now rewrite IH]. Qed.

Lemma split_aux_end (cur : string) :
  cur <> EmptyString -> split_aux cur EmptyString = [rev_string EmptyString cur].
Proof. destruct cur; [contradiction | reflexivity]. Qed.

Lemma split_aux_space (cur : string) (c : ascii) (rest : string) :
  cur <> EmptyString -> is_space c = true ->
  split_aux cur (String c rest)
  = rev_string EmptyString cur :: split_aux EmptyString rest.
Proof.
  intros Hcur Hc. cbn [split_aux]. rewrite Hc.
  destruct cur; [contradiction | reflexivity].
Qed.

(** The first item of [s.split()] is the first maximal run of non-white
    characters. *)
Lemma split_first_token (ws tok rest : string) :
  blank ws = true -> tok <> EmptyString -> solid tok = true ->
  token_end rest = true ->
  exists others, split (ws ++ tok ++ rest) = tok :: others.
Proof.
  intros Hws Hne Htok Hrest. unfold split.
  rewrite split_aux_blank by exact Hws.
  rewrite split_aux_solid by exact Htok.
  pose proof (rev_string_nonempty tok EmptyString Hne) as Hcur.
  assert (Hback : rev_string EmptyString (rev_string EmptyString tok) = tok).
  { rewrite rev_string_twice. simpl. apply append_empty_r. }
  destruct rest as [|c rest].
  - rewrite split_aux_end by exact Hcur. rewrite Hback. eexists. reflexivity.
  - simpl in Hrest. rewrite split_aux_space by assumption.
    rewrite Hback. eexists. reflexivity.
Qed.

Lemma split_blank_nil (s : string) : blank s = true -> split s = [].
Proof.
  intros H. unfold split.
  rewrite <- (append_empty_r s).
  rewrite split_aux_blank by exact H. reflexivity.
Qed.

(** ** The default password *)

(** C9, as amended: when the patient name has a first whitespace-delimited
    token (white space [ws], then the token [tok], then the end of the name
    or a white character), the default password is that token in lower case
    followed by "123!". *)
Theorem default_password_first_token (ws tok rest : string) :
  blank ws = true -> tok <> EmptyString -> solid tok = true ->
  token_end rest = true ->
  derive_default_password (JStr (ws ++ tok ++ rest)) = Ok (lower tok ++ "123!").
Proof.
  intros Hws Hne Htok Hrest. unfold derive_default_password. simpl.
  destruct (split_first_token ws tok rest Hws Hne Htok Hrest) as [others ->].
  reflexivity.
Qed.

Lemma default_password_first_token_witness :
  (blank "" = true /\ "Maria" <> "" /\ solid "Maria" = true
   /\ token_end " Garcia" = true)
  /\ derive_default_password (JStr "Maria Garcia") = Ok "maria123!"
  /\ derive_default_password (JStr "Unknown") = Ok "unknown123!".
Proof.
  split; [repeat split; discriminate|]. split.
  - apply (default_password_first_token "" "Maria" " Garcia");
      [reflexivity | discriminate | reflexivity | reflexivity].
  - apply (default_password_first_token "" "Unknown" "");
      [reflexivity | discriminate | reflexivity | reflexivity].
Defined.

(** C9, as stated, fails: an empty patient name has no first token, the
    derivation raises [IndexError] and yields no password; storing such a
    record fails and leaves the store as it was. *)
Lemma default_password_empty_name_raises :
  derive_default_password (JStr "")
  = Raise (mkExn IndexError "list index out of range")
  /\ derive_default_password (JStr "") <> Ok "unknown123!"
  /\ fst (_store_consent_data Fixtures.env_ok "forms/a.pdf" Fixtures.form_text
                               Fixtures.nameless Fixtures.w0)
     = Raise (mkExn IndexError "list index out of range")
  /\ db (snd (_store_consent_data Fixtures.env_ok "forms/a.pdf" Fixtures.form_text
                                   Fixtures.nameless Fixtures.w0))
     = empty_db.
Proof.
  repeat split; try reflexivity. discriminate.
Qed.

(** ** Reasoning about computations *)

Lemma bind_inv {A B} (c : M A) (k : A -> M B) (w : World) r w' :
  bind c k w = (r, w') ->
  (exists e, c w = (Raise e, w') /\ r = Raise e)
  \/ (exists a w1, c w = (Ok a, w1) /\ k a w1 = (r, w')).
Proof.
  unfold bind. destruct (c w) as [[a|e] w1] eqn:E; intros H.
  - right. exists a, w1. split; [reflexivity | exact H].
  - left. exists e. inversion H; subst. split; reflexivity.
Qed.

Lemma try_except_inv {A} (c : M A) (h : Exn -> M A) (w : World) r w' :
  try_except c h w = (r, w') ->
  (exists a, c w = (Ok a, w') /\ r = Ok a)
  \/ (exists e w1, c w = (Raise e, w1) /\ h e w1 = (r, w')).
Proof.
  unfold try_except. destruct (c w) as [[a|e] w1] eqn:E; intros H.
  - left. exists a. inversion H; subst. split; reflexivity.
  - right. exists e, w1. split; [reflexivity | exact H].
Qed.

Lemma quiet_db : quiet db.
Proof. intros d c s n c' n'. reflexivity. Qed.

Lemma quiet_stdout : quiet stdout.
Proof. intros d c s n c' n'. reflexivity. Qed.

Section Keeps.
Context {X : Type} (f : World -> X).

Lemma keeps_ret {A} (a : A) : keeps f (ret a).
Proof. intros w r w' H. inversion H; reflexivity. Qed.

Lemma keeps_raise {A} (e : Exn) : keeps f (@raise A e).
Proof. intros w r w' H. inversion H; reflexivity. Qed.

Lemma keeps_lift {A} (x : result A) : keeps f (lift x).
Proof. intros w r w' H. inversion H; reflexivity. Qed.

Lemma keeps_get_session : keeps f get_session.
Proof. intros w r w' H. inversion H; reflexivity. Qed.

Lemma keeps_bind {A B} (c : M A) (k : A -> M B) :
  keeps f c -> (forall a, keeps f (k a)) -> keeps f (bind c k).
Proof.
  intros Hc Hk w r w' H.
  apply bind_inv in H. destruct H as [(e & H & _) | (a & w1 & Ha & H)].
  - eapply Hc; eassumption.
  - rewrite (Hk a _ _ _ H). eapply Hc; eassumption.
Qed.

Lemma keeps_try_except {A} (c : M A) (h : Exn -> M A) :
  keeps f c -> (forall e, keeps f (h e)) -> keeps f (try_except c h).
Proof.
  intros Hc Hh w r w' H.
  apply try_except_inv in H. destruct H as [(a & H & _) | (e & w1 & He & H)].
  - eapply Hc; eassumption.
  - rewrite (Hh e _ _ _ H). eapply Hc; eassumption.
Qed.

Hypothesis f_quiet : quiet f.

Lemma keeps_draw {A} (oracle : nat -> A) : keeps f (draw oracle).
Proof.
  intros w r w' H. inversion H; subst. destruct w. apply f_quiet.
Qed.

Lemma keeps_record_call (c : Call) : keeps f (record_call c).
Proof.
  intros w r w' H. inversion H; subst. destruct w. apply f_quiet.
Qed.
End Keeps.

Lemma keeps_db_print (line : string) : keeps db (print line).
Proof. intros w r w' H. inversion H; reflexivity. Qed.

Lemma keeps_stdout_set_db (d : Database) : keeps stdout (set_db d).
Proof. intros w r w' H. inversion H; reflexivity. Qed.

Create HintDb frame.
#[export] Hint Resolve quiet_db quiet_stdout : frame.
#[export] Hint Resolve keeps_ret keeps_raise keeps_lift keeps_get_session
  keeps_draw keeps_record_call keeps_db_print keeps_stdout_set_db : frame.

(** Break a [keeps] goal down along the shape of the computation. *)
Ltac frame :=
  repeat first
    [ progress intros
    | match goal with
      | |- keeps _ (bind _ _) => apply keeps_bind
      | |- keeps _ (try_except _ _) => apply keeps_try_except
      | |- keeps _ (match ?x with _ => _ end) => destruct x
      | |- keeps _ (if ?x then _ else _) => destruct x
      end
    | solve [auto with frame] ].

Section KeepsQuiet.
Context {X : Type} (f : World -> X) (f_quiet : quiet f).

Lemma keeps_store_op (env : Env) : keeps f (store_op env).
Proof. unfold store_op. frame. Qed.

Lemma keeps_add_flush {Row} (env : Env)
    (ins : Database -> result (Row * Database)) (session : Database) :
  keeps f (add_flush env ins session).
Proof. unfold add_flush. pose proof keeps_store_op. frame. Qed.

Lemma keeps_create_patient (env : Env) session patient_email patient_name :
  keeps f (create_patient env session patient_email patient_name).
Proof. unfold create_patient. pose proof @keeps_add_flush. frame. Qed.

Lemma keeps_extract (env : Env) ocr_engine pdf_path :
  keeps f (extract_text_from_pdf env ocr_engine pdf_path).
Proof.
  unfold extract_text_from_pdf, _extract_with_pdfplumber, _extract_with_tesseract.
  frame.
Qed.

Lemma keeps_chat_stage (env : Env) prompt : keeps f (chat_stage env prompt).
Proof. unfold chat_stage. frame. Qed.

Lemma keeps_analyze_except response_text e :
  keeps f (analyze_except response_text e).
Proof. unfold analyze_except. frame. Qed.

Lemma keeps_parse_stage (env : Env) response_text :
  keeps f (parse_stage env response_text).
Proof. unfold parse_stage, as_dict. frame. Qed.

Lemma keeps_analyze (env : Env) ocr_text :
  keeps f (analyze_consent_form env ocr_text).
Proof.
  intros w r w' H. unfold analyze_consent_form in H.
  destruct (chat_stage env (analysis_prompt ocr_text) w) as [[t|e] w1] eqn:E;
    apply keeps_chat_stage in E; rewrite <- E.
  - refine (keeps_try_except f _ _ _ _ _ _ _ H).
    + apply keeps_parse_stage.
    + intros e. apply keeps_analyze_except.
  - exact (keeps_analyze_except _ _ _ _ _ H).
Qed.
End KeepsQuiet.

#[export] Hint Resolve keeps_store_op keeps_add_flush keeps_create_patient
  keeps_extract keeps_chat_stage keeps_analyze : frame.

Lemma db_frame_store_op (env : Env) : db_frame (store_op env).
Proof. apply keeps_store_op, quiet_db. Qed.

Lemma db_frame_extract (env : Env) ocr_engine pdf_path :
  db_frame (extract_text_from_pdf env ocr_engine pdf_path).
Proof. apply keeps_extract, quiet_db. Qed.

Lemma db_frame_analyze (env : Env) ocr_text :
  db_frame (analyze_consent_form env ocr_text).
Proof. apply keeps_analyze, quiet_db. Qed.

(** ** What [_store_consent_data] leaves in the store *)

Lemma lift_inv {A} (x : result A) (w : World) r w' :
  lift x w = (r, w') -> x = r /\ w' = w.
Proof. intros H. inversion H; split; reflexivity. Qed.

Lemma add_flush_ok {Row} (env : Env)
    (ins : Database -> result (Row * Database)) (session : Database)
    (w : World) row session' w' :
  add_flush env ins session w = (Ok (row, session'), w') ->
  ins session = Ok (row, session').
Proof.
  unfold add_flush. intros H.
  apply bind_inv in H. destruct H as [(e & _ & He) | (a & w1 & _ & H)].
  - discriminate He.
  - apply lift_inv in H. destruct H as [H _]. exact H.
Qed.

Lemma commit_inv (env : Env) (session : Database) (w : World) r w' :
  commit env session w = (r, w') ->
  (exists e, r = Raise e /\ db w' = db w) \/ (r = Ok tt /\ db w' = session).
Proof.
  unfold commit. intros H.
  apply bind_inv in H. destruct H as [(e & H & ->) | (a & w1 & _ & H)].
  - left. exists e. split; [reflexivity|].
    exact (db_frame_store_op env _ _ _ H).
  - right. inversion H; subst. split; reflexivity.
Qed.

Lemma insert_patient_ok now p session row session' :
  insert_patient now p session = Ok (row, session') ->
  session' = mkDatabase (patients session ++ [row]) (consents session)
                        (entity_index session)
  /\ email row = np_email p
  /\ Some (password_hash row) = np_password_hash p
  /\ default_password row = np_default_password p.
Proof.
  unfold insert_patient.
  destruct (np_password_hash p) as [h|]; [|discriminate].
  destruct (is_none (np_patient_name p)); [discriminate|].
  destruct (negb (bindable (np_patient_name p))); [discriminate|].
  destruct (find_patient_by_email session (np_email p)); [discriminate|].
  intros H. inversion H; subst; clear H. simpl. repeat split; reflexivity.
Qed.

Lemma insert_consent_ok mk session row session' :
  insert_consent mk session = Ok (row, session') ->
  row = mk (next_id (map c_id (consents session)))
  /\ session' = mkDatabase (patients session) (consents session ++ [row])
                           (entity_index session).
Proof.
  unfold insert_consent. intros H. inversion H; subst. split; reflexivity.
Qed.

Lemma insert_entity_ok mk session row session' :
  insert_entity mk session = Ok (row, session') ->
  row = mk (next_id (map e_id (entity_index session)))
  /\ session' = mkDatabase (patients session) (consents session)
                           (entity_index session ++ [row]).
Proof.
  unfold insert_entity.
  destruct (first_unbindable _); [discriminate|].
  destruct (existsb _ _); [discriminate|].
  intros H. inversion H; subst. split; reflexivity.
Qed.

Lemma db_atomic_frame {A} (c : M A) : db_frame c -> db_atomic c.
Proof. intros H w e w' Hc. exact (H _ _ _ Hc). Qed.

Lemma db_atomic_bind {A B} (c : M A) (k : A -> M B) :
  db_frame c -> (forall a, db_atomic (k a)) -> db_atomic (bind c k).
Proof.
  intros Hc Hk w e w' H.
  apply bind_inv in H. destruct H as [(e' & H & _) | (a & w1 & Ha & H)].
  - exact (Hc _ _ _ H).
  - rewrite (Hk a _ _ _ H). exact (Hc _ _ _ Ha).
Qed.

Lemma db_atomic_try_reraise {A} (c : M A) :
  db_atomic c -> db_atomic (try_except c (fun e => raise e)).
Proof.
  intros Hc w e w' H.
  apply try_except_inv in H. destruct H as [(a & _ & He) | (e' & w1 & Hr & H)].
  - discriminate He.
  - inversion H; subst. exact (Hc _ _ _ Hr).
Qed.

Lemma db_atomic_commit_ret {A} (env : Env) (session : Database) (a : A) :
  db_atomic (commit env session ;;; ret a).
Proof.
  intros w e w' H.
  apply bind_inv in H. destruct H as [(e' & H & _) | (u & w1 & _ & H)].
  - apply commit_inv in H. destruct H as [(e2 & _ & Hdb) | (He & _)].
    + exact Hdb.
    + discriminate He.
  - inversion H.
Qed.

Ltac atomic :=
  repeat first
    [ progress intros
    | apply db_atomic_commit_ret
    | match goal with
      | |- db_atomic (bind _ _) => apply db_atomic_bind; [solve [frame] | ]
      | |- db_atomic (match ?x with _ => _ end) => destruct x
      end ].

Lemma db_atomic_store_try env session pdf_path ocr_text analysis :
  db_atomic (store_try env session pdf_path ocr_text analysis).
Proof. unfold store_try. atomic. Qed.

Lemma db_atomic_store env pdf_path ocr_text analysis :
  db_atomic (_store_consent_data env pdf_path ocr_text analysis).
Proof.
  unfold _store_consent_data.
  apply db_atomic_bind; [frame|]. intros session.
  apply db_atomic_try_reraise. apply db_atomic_store_try.
Qed.

Lemma draw_inv {A} (oracle : nat -> A) (w : World) r w' :
  draw oracle w = (r, w') -> r = Ok (oracle (draws w)).
Proof. intros H. inversion H; reflexivity. Qed.

(** One successful step of a computation that succeeded as a whole. *)
Ltac ok_step H a w1 Ha :=
  apply bind_inv in H;
  destruct H as [(?e & _ & ?He) | (a & w1 & Ha & H)]; [discriminate|].

Lemma create_patient_ok env session patient_email patient_name w row pw session' w' :
  create_patient env session patient_email patient_name w
  = (Ok (row, pw, session'), w') ->
  exists cred salt,
    derive_default_password patient_name = Ok cred
    /\ pw = Some cred
    /\ session' = mkDatabase (patients session ++ [row]) (consents session)
                             (entity_index session)
    /\ email row = patient_email
    /\ password_hash row = Bcrypt salt cred
    /\ default_password row = Some cred
    /\ find_patient_by_email session patient_email = None.
Proof.
  unfold create_patient. intros H.
  ok_step H cred w1 Hcred. apply lift_inv in Hcred. destruct Hcred as [Hcred _].
  ok_step H salt w2 Hsalt.
  ok_step H now w3 Hnow.
  ok_step H rs w4 Hins. destruct rs as [row' s'].
  apply add_flush_ok in Hins.
  inversion H; subst; clear H.
  assert (Hfree : find_patient_by_email session patient_email = None).
  { unfold insert_patient in Hins. simpl in Hins.
    destruct (is_none patient_name); [discriminate|].
    destruct (negb (bindable patient_name)); [discriminate|].
    destruct (find_patient_by_email session patient_email); [discriminate|].
    reflexivity. }
  apply insert_patient_ok in Hins. simpl in Hins.
  destruct Hins as (Hs & Hemail & Hhash & Hpw).
  exists cred, salt. repeat split; try assumption; try (symmetry; assumption).
  congruence.
Qed.

Lemma dict_getitem_ok (d : Dict) (key : string) (v : JValue) :
  dict_getitem d key = Ok v -> dict_get d key = Some v.
Proof.
  unfold dict_getitem. destruct (dict_get d key); intros H; inversion H; reflexivity.
Qed.

Lemma py_lower_ok (v : JValue) (t : string) :
  py_lower v = Ok t -> exists s, v = JStr s /\ t = lower s.
Proof.
  destruct v; simpl; intros H; inversion H. eexists. split; reflexivity.
Qed.

Lemma store_try_ok env session pdf_path ocr_text analysis w res w' :
  store_try env session pdf_path ocr_text analysis w = (Ok res, w') ->
  Stored session analysis res (db w').
Proof.
  unfold store_try. intros H.
  ok_step H email_v w1 Hemail. apply lift_inv in Hemail. destruct Hemail as [Hemail _].
  apply dict_getitem_ok in Hemail.
  ok_step H lowered w2 Hlow. apply lift_inv in Hlow. destruct Hlow as [Hlow _].
  apply py_lower_ok in Hlow. destruct Hlow as (e & -> & ->).
  ok_step H name w3 Hname. apply lift_inv in Hname. destruct Hname as [Hname _].
  apply dict_getitem_ok in Hname.
  ok_step H found w4 Hfound. destruct found as [[patient pw] session1].
  ok_step H now1 w5 Hnow1.
  ok_step H cs w6 Hcons. destruct cs as [consent session2].
  apply add_flush_ok, insert_consent_ok in Hcons. destruct Hcons as [Hconsent Hs2].
  ok_step H e_name w7 He1.
  ok_step H e_email w8 He2.
  ok_step H terms w9 Hterms.
  ok_step H now2 w10 Hnow2.
  ok_step H es w11 Hent. destruct es as [entity session3].
  apply add_flush_ok, insert_entity_ok in Hent. destruct Hent as [Hentity Hs3].
  ok_step H u w12 Hcommit.
  apply commit_inv in Hcommit. destruct Hcommit as [(e' & He' & _) | (_ & Hdb)];
    [discriminate|].
  inversion H; subst res w'; clear H.
  assert (Hres : exists added,
             Resolved session analysis (lower e) patient
               (mkStoreResult true (id patient) name (lower e) pw (c_id consent)
                              (basename pdf_path)) added
             /\ session1 = mkDatabase (patients session ++ added) (consents session)
                                      (entity_index session)).
  { destruct (find_patient_by_email session (lower e)) as [p|] eqn:Hfind.
    - inversion Hfound; subst. exists []. split.
      + apply resolved_existing; [exact Hfind | reflexivity].
      + rewrite app_nil_r. destruct session1; reflexivity.
    - apply create_patient_ok in Hfound.
      destruct Hfound as (cred & salt & Hd & -> & -> & Hem & Hh & Hp & _).
      exists [patient]. split; [|reflexivity].
      eapply resolved_created; eauto. }
  destruct Hres as (added & Hresolved & Hs1).
  apply (stored_together session analysis _ _ e patient added consent entity);
    try assumption; try reflexivity.
  - rewrite Hdb, Hs3, Hs2, Hs1. reflexivity.
  - rewrite Hconsent. reflexivity.
  - rewrite Hentity. reflexivity.
  - rewrite Hentity. reflexivity.
Qed.

Lemma store_ok env pdf_path ocr_text analysis w res w' :
  _store_consent_data env pdf_path ocr_text analysis w = (Ok res, w') ->
  Stored (db w) analysis res (db w').
Proof.
  unfold _store_consent_data. intros H.
  ok_step H session w1 Hs. inversion Hs; subst; clear Hs.
  apply try_except_inv in H. destruct H as [(a & H & Ha) | (e & w2 & _ & H)].
  - inversion Ha; subst. exact (store_try_ok _ _ _ _ _ _ _ _ H).
  - inversion H.
Qed.

(** ** The identity of a stored document *)

(** C1, as amended: when a document creates a patient, the new row holds
    the derived default password twice: hashed in [password_hash], and in
    the clear in [default_password]; the clear text also goes back to the
    caller. *)
Theorem new_patient_password_columns
    env pdf_path ocr_text analysis w res w' (e : string) :
  dict_get analysis "patient_email" = Some (JStr e) ->
  find_patient_by_email (db w) (lower e) = None ->
  _store_consent_data env pdf_path ocr_text analysis w = (Ok res, w') ->
  exists row name cred salt,
    patients (db w') = (patients (db w) ++ [row])%list
    /\ email row = lower e
    /\ dict_get analysis "patient_name" = Some name
    /\ derive_default_password name = Ok cred
    /\ password_hash row = Bcrypt salt cred
    /\ check_password row cred = true
    /\ default_password row = Some cred
    /\ r_default_password res = Some cred.
Proof.
  intros Hemail Hnew H. apply store_ok in H.
  destruct H as [e' patient added consent entity He' _ Hres Hfinal _ _ _ _ _].
  rewrite Hemail in He'. inversion He'; subst e'; clear He'.
  destruct Hres as [Hfind _ | name cred salt _ Hname Hd Hh Hp Hr Hem].
  - rewrite Hnew in Hfind. discriminate.
  - exists patient, name, cred, salt. rewrite Hfinal. simpl.
    repeat split; try assumption.
    unfold check_password. rewrite Hh. simpl. apply String.eqb_refl.
Qed.

Lemma new_patient_password_columns_witness :
  (dict_get Fixtures.maria "patient_email" = Some (JStr "Maria.Garcia@Example.com")
   /\ find_patient_by_email (db Fixtures.w0) (lower "Maria.Garcia@Example.com") = None)
  /\ exists row name cred salt,
       patients (db Fixtures.w_maria) = (patients (db Fixtures.w0) ++ [row])%list
       /\ email row = lower "Maria.Garcia@Example.com"
       /\ dict_get Fixtures.maria "patient_name" = Some name
       /\ derive_default_password name = Ok cred
       /\ password_hash row = Bcrypt salt cred
       /\ check_password row cred = true
       /\ default_password row = Some cred
       /\ r_default_password
            (mkStoreResult true 1 (JStr "Maria Garcia") "maria.garcia@example.com"
                           (Some "maria123!") 1 "a.pdf") = Some cred.
Proof.
  split; [split; reflexivity|].
  apply (new_patient_password_columns Fixtures.env_ok "forms/a.pdf"
           Fixtures.form_text Fixtures.maria Fixtures.w0 _ Fixtures.w_maria
           "Maria.Garcia@Example.com"); reflexivity.
Defined.

(** C1, as stated, fails: after the first document of Maria Garcia the new
    row keeps "maria123!" in the clear in its [default_password] column. *)
Lemma new_patient_row_keeps_plaintext :
  derive_default_password (JStr "Maria Garcia") = Ok "maria123!"
  /\ fst (_store_consent_data Fixtures.env_ok "forms/a.pdf" Fixtures.form_text
                              Fixtures.maria Fixtures.w0)
     = Ok (mkStoreResult true 1 (JStr "Maria Garcia") "maria.garcia@example.com"
                         (Some "maria123!") 1 "a.pdf")
  /\ map default_password (patients (db Fixtures.w_maria)) = [Some "maria123!"]
  /\ map default_password (patients (db Fixtures.w_maria)) <> [None].
Proof.
  repeat split; try reflexivity. discriminate.
Qed.

(** C2, as amended: when the lower-cased email of the record already has a
    patient, no patient row is added or changed, and a successful run
    answers with that patient's [id] and with what its row keeps in
    [default_password], read back from the store and not derived from the
    record's name. *)
Theorem existing_patient_reused
    env pdf_path ocr_text analysis w r w' (e : string) (p : Patient) :
  dict_get analysis "patient_email" = Some (JStr e) ->
  find_patient_by_email (db w) (lower e) = Some p ->
  _store_consent_data env pdf_path ocr_text analysis w = (r, w') ->
  patients (db w') = patients (db w)
  /\ forall res, r = Ok res ->
       r_patient_id res = id p
       /\ r_patient_email res = lower e
       /\ r_default_password res = default_password p.
Proof.
  intros Hemail Hold H. destruct r as [res|ex].
  - apply store_ok in H.
    destruct H as [e' patient added consent entity He' Hre Hres Hfinal _ _ _ Hrp _].
    rewrite Hemail in He'. inversion He'; subst e'; clear He'.
    destruct Hres as [Hfind Hpw | name cred salt Hfind _ _ _ _ _ _].
    + rewrite Hold in Hfind. inversion Hfind; subst patient.
      split.
      * rewrite Hfinal. simpl. apply app_nil_r.
      * intros res' Hr. inversion Hr; subst res'. repeat split; assumption.
    + rewrite Hold in Hfind. discriminate.
  - apply db_atomic_store in H. rewrite H. split; [reflexivity|].
    intros res Hr. discriminate Hr.
Qed.

Lemma existing_patient_reused_witness :
  exists p,
    (dict_get Fixtures.maria "patient_email" = Some (JStr "Maria.Garcia@Example.com")
     /\ find_patient_by_email (db Fixtures.w_maria) (lower "Maria.Garcia@Example.com")
        = Some p)
    /\ patients (db (snd (_store_consent_data Fixtures.env_ok "forms/c.pdf"
                            Fixtures.form_text Fixtures.maria Fixtures.w_maria)))
       = patients (db Fixtures.w_maria)
    /\ forall res,
         fst (_store_consent_data Fixtures.env_ok "forms/c.pdf"
                Fixtures.form_text Fixtures.maria Fixtures.w_maria) = Ok res ->
         r_patient_id res = id p
         /\ r_patient_email res = lower "Maria.Garcia@Example.com"
         /\ r_default_password res = default_password p.
Proof.
  eexists. split; [split; reflexivity|].
  apply (existing_patient_reused Fixtures.env_ok "forms/c.pdf" Fixtures.form_text
           Fixtures.maria Fixtures.w_maria _ _ "Maria.Garcia@Example.com");
    [reflexivity | reflexivity | apply surjective_pairing].
Defined.

(** C2, as stated, fails: the second document of Maria Garcia finds her row
    and the answer carries "maria123!" again, not a null credential. *)
Lemma existing_patient_password_returned :
  find_patient_by_email (db Fixtures.w_maria) "maria.garcia@example.com" <> None
  /\ fst (_store_consent_data Fixtures.env_ok "forms/c.pdf" Fixtures.form_text
                              Fixtures.maria Fixtures.w_maria)
     = Ok (mkStoreResult true 1 (JStr "Maria Garcia") "maria.garcia@example.com"
                         (Some "maria123!") 2 "c.pdf")
  /\ Some "maria123!" <> @None string.
Proof.
  repeat split; try reflexivity; discriminate.
Qed.

(** ** All or nothing *)

(** [_store_consent_data] publishes the patient, the consent and the index
    row in one commit, or nothing. *)
Lemma store_all_or_nothing env pdf_path ocr_text analysis w r w' :
  _store_consent_data env pdf_path ocr_text analysis w = (r, w') ->
  match r with
  | Ok res => Stored (db w) analysis res (db w')
  | Raise _ => db w' = db w
  end.
Proof.
  intros H. destruct r as [res|e].
  - exact (store_ok _ _ _ _ _ _ _ H).
  - exact (db_atomic_store _ _ _ _ _ _ _ H).
Qed.

(** X21: a whole document run by the script, from the text extraction to
    the commit, is all or nothing: when [process_pdf] returns, the patient,
    the consent and the index row are in the store together; when it raises,
    at any step, the store is as it was. *)
Lemma process_pdf_all_or_nothing env ocr_engine pdf_path w r w' :
  process_pdf env ocr_engine pdf_path w = (r, w') ->
  match r with
  | Ok res => exists analysis, Stored (db w) analysis res (db w')
  | Raise _ => db w' = db w
  end.
Proof.
  unfold process_pdf. intros H.
  apply try_except_inv in H.
  assert (Hbody : forall r0 w0,
             (ocr_text <- extract_text_from_pdf env ocr_engine pdf_path ;;
              analysis <- analyze_consent_form env ocr_text ;;
              _store_consent_data env pdf_path ocr_text analysis) w = (r0, w0) ->
             match r0 with
             | Ok res => exists analysis, Stored (db w) analysis res (db w0)
             | Raise _ => db w0 = db w
             end).
  { intros r0 w0 Hb.
    apply bind_inv in Hb. destruct Hb as [(e & Hb & ->) | (text & w1 & Ht & Hb)].
    { exact (db_frame_extract _ _ _ _ _ _ Hb). }
    apply db_frame_extract in Ht.
    apply bind_inv in Hb. destruct Hb as [(e & Hb & ->) | (analysis & w2 & Ha & Hb)].
    { rewrite <- Ht. exact (db_frame_analyze _ _ _ _ _ Hb). }
    apply db_frame_analyze in Ha.
    apply store_all_or_nothing in Hb. rewrite Ha, Ht in Hb.
    destruct r0; [exists analysis|]; exact Hb. }
  destruct H as [(a & H & ->) | (e & w1 & He & H)].
  - exact (Hbody _ _ H).
  - inversion H; subst. exact (Hbody _ _ He).
Qed.

(** C6 fails on the upload route.  The model lists the consented items as
    objects; the consent row is committed, building the index row then
    raises, the route answers 500, and the store keeps a consent that has no
    index row. *)
Theorem upload_keeps_consent_without_index :
  let out := upload_consent Fixtures.env_itemised 1 "c.pdf" "uploads/c.pdf"
                            Fixtures.w_maria in
  fst out
  = Ok (mkResponse
          [("error",
            JStr "Failed to process PDF: sequence item 0: expected str instance, dict found")]
          500)
  /\ map c_id (consents (db Fixtures.w_maria)) = [1]
  /\ map c_id (consents (db (snd out))) = [1; 2]
  /\ map e_consent_id (entity_index (db (snd out))) = [1]
  /\ db (snd out) <> db Fixtures.w_maria.
Proof.
  vm_compute. repeat split. discriminate.
Qed.

(** ** Validation of an analysis *)

Lemma dict_get_set_same (o : Dict) (key : string) (v : JValue) :
  dict_get (dict_set o key v) key = Some v.
Proof.
  induction o as [|[k x] o IH]; simpl.
  - rewrite String.eqb_refl. reflexivity.
  - destruct (String.eqb k key) eqn:E; simpl; rewrite E; [reflexivity | exact IH].
Qed.

Lemma dict_get_set_other (o : Dict) (key key' : string) (v : JValue) :
  key <> key' -> dict_get (dict_set o key v) key' = dict_get o key'.
Proof.
  intros Hne. induction o as [|[k x] o IH]; simpl.
  - destruct (String.eqb key key') eqn:E; [|reflexivity].
    apply String.eqb_eq in E. contradiction.
  - destruct (String.eqb k key) eqn:E; simpl.
    + apply String.eqb_eq in E. subst k.
      destruct (String.eqb key key') eqn:E'; [|reflexivity].
      apply String.eqb_eq in E'. contradiction.
    + destruct (String.eqb k key'); [reflexivity | exact IH].
Qed.

(** One key of the loop, on a dict. *)
Lemma validate_key_dict (o : Dict) (key : string) (d : JValue) :
  exists o',
    validate_key (JObj o) key d = Ok (JObj o')
    /\ dict_get o' key = Some (filled (dict_get o key) d)
    /\ forall key', key <> key' -> dict_get o' key' = dict_get o key'.
Proof.
  unfold validate_key, py_in, py_getitem, dict_getitem, dict_mem, filled. simpl.
  destruct (dict_get o key) as [v|] eqn:E; simpl.
  - destruct (is_none v) eqn:Hv; simpl.
    + exists (dict_set o key d). repeat split.
      * apply dict_get_set_same.
      * intros key' Hne. apply dict_get_set_other. exact Hne.
    + exists o. repeat split. exact E.
  - exists (dict_set o key d). repeat split.
    + apply dict_get_set_same.
    + intros key' Hne. apply dict_get_set_other. exact Hne.
Qed.

(** The whole loop, for any table of defaults without a repeated key. *)
Lemma validate_loop_dict (defaults : Dict) :
  NoDup (map fst defaults) ->
  forall o, exists o',
    validate_loop defaults (JObj o) = Ok (JObj o')
    /\ (forall key d, In (key, d) defaults ->
          dict_get o' key = Some (filled (dict_get o key) d))
    /\ (forall key, ~ In key (map fst defaults) -> dict_get o' key = dict_get o key).
Proof.
  induction defaults as [|[k d] rest IH]; intros Hnd o.
  - exists o. simpl. split; [reflexivity|]. split; [intros key d [] | reflexivity].
  - inversion Hnd as [|k' ks Hk Hrest]; subst.
    destruct (validate_key_dict o k d) as (o1 & H1 & Hsame & Hother).
    destruct (IH Hrest o1) as (o' & H' & Hin & Hout).
    exists o'. simpl. rewrite H1. simpl. split; [exact H'|]. split.
    + intros key d' [Heq | Hlater].
      * inversion Heq; subst. rewrite (Hout key Hk). exact Hsame.
      * rewrite (Hin key d' Hlater). rewrite Hother; [reflexivity|].
        intros ->. apply Hk. apply (in_map fst) in Hlater. exact Hlater.
    + intros key Hnot. simpl in Hnot.
      rewrite Hout by tauto. apply Hother. tauto.
Qed.

(** Anything that is not a dict makes [_validate_analysis] raise. *)
Lemma validate_not_dict (v : JValue) :
  (forall o, v <> JObj o) -> exists e, _validate_analysis v = Raise e.
Proof.
  intros Hv. unfold _validate_analysis, _get_default_analysis.
  cbn [validate_loop]. unfold validate_key at 1.
  destruct v as [| b | z | r | s | l | o]; simpl;
    try (eexists; reflexivity).
  - destruct (contains "patient_name" s); simpl; eexists; reflexivity.
  - destruct (existsb _ l); simpl; eexists; reflexivity.
  - exfalso. exact (Hv o eq_refl).
Qed.

Lemma defaults_keys_nodup : NoDup (map fst _get_default_analysis).
Proof. repeat constructor; simpl; intuition discriminate. Qed.

(** Validation of an object, key by key. *)
Lemma validate_object (o : Dict) :
  exists o',
    _validate_analysis (JObj o) = Ok (JObj o')
    /\ (forall key d, In (key, d) _get_default_analysis ->
          dict_get o' key = Some (filled (dict_get o key) d))
    /\ (forall key, ~ In key (map fst _get_default_analysis) ->
          dict_get o' key = dict_get o key).
Proof. exact (validate_loop_dict _get_default_analysis defaults_keys_nodup o). Qed.

(** A validated analysis is a dict. *)
Lemma validate_dict (v v' : JValue) :
  _validate_analysis v = Ok v' -> exists o o', v = JObj o /\ v' = JObj o'.
Proof.
  intros H. destruct v as [| b | z | r | s | l | o].
  7: { destruct (validate_loop_dict _get_default_analysis) with (o := o)
         as (o' & Ho' & _).
       { repeat constructor; simpl; intuition discriminate. }
       unfold _validate_analysis in H. rewrite Ho' in H. inversion H.
       exists o, o'. split; reflexivity. }
  all: match type of H with
       | _validate_analysis ?x = _ =>
           destruct (validate_not_dict x) as [e He]; [intros o; discriminate|];
           rewrite He in H; discriminate
       end.
Qed.

(** C4, as amended: validating a parsed object succeeds and leaves every
    required field present; a field that was absent or null holds exactly
    its default; hence the seven fields whose default is not null come out
    non-null, while [patient_dob] and [procedure_date], whose default is
    null, stay null when the answer did not give them; a field that had a
    value keeps it, and so does every other key. *)
Theorem validate_fills_defaults (o : Dict) :
  exists o',
    _validate_analysis (JObj o) = Ok (JObj o')
    /\ (forall key d, In (key, d) _get_default_analysis ->
          dict_get o' key = Some (filled (dict_get o key) d)
          /\ (filled (dict_get o key) d = d
              \/ dict_get o key = Some (filled (dict_get o key) d))
          /\ (is_none d = false -> is_none (filled (dict_get o key) d) = false))
    /\ (forall key, ~ In key (map fst _get_default_analysis) ->
          dict_get o' key = dict_get o key).
Proof.
  destruct (validate_loop_dict _get_default_analysis) with (o := o)
    as (o' & Ho' & Hin & Hout).
  { repeat constructor; simpl; intuition discriminate. }
  exists o'. split; [exact Ho'|]. split; [|exact Hout].
  intros key d Hd. split; [exact (Hin key d Hd)|]. split.
  - unfold filled. destruct (dict_get o key) as [v|]; [|left; reflexivity].
    destruct (is_none v); [left | right]; reflexivity.
  - intros Hnn. unfold filled. destruct (dict_get o key) as [v|]; [|exact Hnn].
    destruct (is_none v) eqn:E; [exact Hnn | exact E].
Qed.

(** C4, as stated, fails: an answer that gives no date of birth validates to
    a record whose [patient_dob] and [procedure_date] are null. *)
Lemma validate_leaves_dates_null :
  _validate_analysis (JObj Fixtures.maria_parsed) = Ok (JObj Fixtures.maria)
  /\ dict_get Fixtures.maria "patient_dob" = Some JNull
  /\ dict_get Fixtures.maria "procedure_date" = Some JNull
  /\ _validate_analysis (JObj []) = Ok (JObj _get_default_analysis).
Proof. repeat split; reflexivity. Qed.

(** ** The analysis never fails outward, with one exception *)

Lemma chat_stage_run (env : Env) (prompt : string) (w : World) :
  fst (chat_stage env prompt w)
  = rbind (chat env (draws w) prompt) py_strip.
Proof.
  unfold chat_stage, bind, record_call, draw, lift. simpl.
  destruct (chat env (draws w) prompt) as [content|e]; simpl; [|reflexivity].
  destruct (py_strip content); reflexivity.
Qed.

(** Once the reply is in, every failure ends in the default record. *)
Lemma analyze_after_reply (env : Env) (ocr_text : string) (w : World) (content : string) :
  chat env (draws w) (analysis_prompt ocr_text) = Ok (JStr content) ->
  fst (analyze_consent_form env ocr_text w)
  = match rbind (json_loads env (json_candidate content)) _validate_analysis with
    | Ok (JObj o) => Ok o
    | _ => Ok _get_default_analysis
    end.
Proof.
  intros Hchat. unfold analyze_consent_form.
  pose proof (chat_stage_run env (analysis_prompt ocr_text) w) as Hrun.
  rewrite Hchat in Hrun. simpl in Hrun.
  destruct (chat_stage env (analysis_prompt ocr_text) w) as [[t|e] w1];
    simpl in Hrun; inversion Hrun; subst t.
  fold (json_candidate content).
  unfold try_except, parse_stage, bind, lift.
  destruct (json_loads env (json_candidate content)) as [v|e]; simpl.
  - destruct (_validate_analysis v) as [v'|e] eqn:Hv; simpl.
    + destruct (validate_dict v v' Hv) as (o & o' & _ & ->). reflexivity.
    + unfold analyze_except. destruct (ExnClass_eqb _ _); reflexivity.
  - unfold analyze_except. destruct (ExnClass_eqb _ _); reflexivity.
Qed.

(** The failure policy, in the cases where it holds: the call fails with
    anything but a [JSONDecodeError], the reply is not a string, the reply
    does not parse, or it parses to something that is not an object. *)
Lemma analyze_degrades_to_defaults (env : Env) (ocr_text : string) (w : World) :
  (forall e, chat env (draws w) (analysis_prompt ocr_text) = Raise e ->
             exn_class e <> JSONDecodeError ->
             fst (analyze_consent_form env ocr_text w) = Ok _get_default_analysis)
  /\ (forall v, chat env (draws w) (analysis_prompt ocr_text) = Ok v ->
                (forall s, v <> JStr s) ->
                fst (analyze_consent_form env ocr_text w) = Ok _get_default_analysis)
  /\ (forall content e,
        chat env (draws w) (analysis_prompt ocr_text) = Ok (JStr content) ->
        json_loads env (json_candidate content) = Raise e ->
        fst (analyze_consent_form env ocr_text w) = Ok _get_default_analysis)
  /\ (forall content v,
        chat env (draws w) (analysis_prompt ocr_text) = Ok (JStr content) ->
        json_loads env (json_candidate content) = Ok v ->
        (forall o, v <> JObj o) ->
        fst (analyze_consent_form env ocr_text w) = Ok _get_default_analysis)
  /\ (forall content o,
        chat env (draws w) (analysis_prompt ocr_text) = Ok (JStr content) ->
        json_loads env (json_candidate content) = Ok (JObj o) ->
        exists o', _validate_analysis (JObj o) = Ok (JObj o')
                   /\ fst (analyze_consent_form env ocr_text w) = Ok o').
Proof.
  pose proof (chat_stage_run env (analysis_prompt ocr_text) w) as Hrun.
  repeat split.
  - intros e Hchat Hclass. unfold analyze_consent_form.
    rewrite Hchat in Hrun. simpl in Hrun.
    destruct (chat_stage env (analysis_prompt ocr_text) w) as [[t|e'] w1];
      simpl in Hrun; inversion Hrun; subst e'.
    unfold analyze_except.
    destruct (exn_class e); try reflexivity. contradiction.
  - intros v Hchat Hv. unfold analyze_consent_form.
    rewrite Hchat in Hrun. simpl in Hrun.
    destruct (chat_stage env (analysis_prompt ocr_text) w) as [[t|e'] w1];
      simpl in Hrun.
    + destruct v; simpl in Hrun; try discriminate. exfalso. exact (Hv s eq_refl).
    + destruct v; simpl in Hrun; inversion Hrun; reflexivity.
  - intros content e Hchat Hloads.
    rewrite (analyze_after_reply env ocr_text w content Hchat), Hloads. reflexivity.
  - intros content v Hchat Hloads Hv.
    rewrite (analyze_after_reply env ocr_text w content Hchat), Hloads. simpl.
    destruct (validate_not_dict v Hv) as [e ->]. reflexivity.
  - intros content o Hchat Hloads.
    destruct (validate_object o) as (o' & Ho' & _).
    exists o'. split; [exact Ho'|].
    rewrite (analyze_after_reply env ocr_text w content Hchat), Hloads. simpl.
    rewrite Ho'. reflexivity.
Qed.

(** The case the [except] clauses miss: when the call itself raises a
    [JSONDecodeError], the first clause reads [response_text] before anything
    was assigned to it. *)
Lemma analyze_raises_when_call_raises_decode_error
    (env : Env) (ocr_text : string) (w : World) (e : Exn) :
  chat env (draws w) (analysis_prompt ocr_text) = Raise e ->
  exn_class e = JSONDecodeError ->
  fst (analyze_consent_form env ocr_text w) = Raise unbound_response_text.
Proof.
  intros Hchat Hclass. unfold analyze_consent_form.
  pose proof (chat_stage_run env (analysis_prompt ocr_text) w) as Hrun.
  rewrite Hchat in Hrun. simpl in Hrun.
  destruct (chat_stage env (analysis_prompt ocr_text) w) as [[t|e'] w1];
    simpl in Hrun; inversion Hrun; subst e'.
  unfold analyze_except. rewrite Hclass. reflexivity.
Qed.

(** C3 fails on the code: the client of the model meets a body that is not
    JSON and raises [JSONDecodeError]; [analyze_consent_form] then raises
    [UnboundLocalError] and returns no record. *)
Theorem analyze_raises_on_undecodable_reply :
  chat Fixtures.env_bad_body 0 (analysis_prompt Fixtures.form_text)
  = Raise (mkExn JSONDecodeError "Expecting value: line 1 column 1 (char 0)")
  /\ fst (analyze_consent_form Fixtures.env_bad_body Fixtures.form_text Fixtures.w0)
     = Raise unbound_response_text
  /\ fst (analyze_consent_form Fixtures.env_bad_body Fixtures.form_text Fixtures.w0)
     <> Ok _get_default_analysis.
Proof.
  split; [reflexivity|]. split; [reflexivity | discriminate].
Qed.

(** ** Text extraction in auto mode *)

Lemma pdfplumber_run (env : Env) (pdf_path : string) (w : World) :
  _extract_with_pdfplumber env pdf_path w
  = (pdfplumber_text env pdf_path, after_calls w [CallPdfplumber pdf_path]).
Proof. reflexivity. Qed.

Lemma tesseract_run (env : Env) (pdf_path : string) (w : World) :
  _extract_with_tesseract env pdf_path w
  = (tesseract_text env pdf_path, after_calls w [CallTesseract pdf_path]).
Proof. reflexivity. Qed.

Lemma auto_mode_unfold (env : Env) (ocr_engine pdf_path : string) :
  path_exists env pdf_path = true ->
  ocr_engine <> "pdfplumber" -> ocr_engine <> "tesseract" ->
  extract_text_from_pdf env ocr_engine pdf_path
  = try_except
      (text <- _extract_with_pdfplumber env pdf_path ;;
       if (50 <? String.length (strip text))%nat
       then ret text
       else _extract_with_tesseract env pdf_path)
      (fun e => _extract_with_tesseract env pdf_path).
Proof.
  intros Hex Hp Ht. unfold extract_text_from_pdf. rewrite Hex. simpl.
  apply String.eqb_neq in Hp, Ht. rewrite Hp, Ht. reflexivity.
Qed.

(** C5, as amended: in auto mode, on an existing document, the layout text
    is returned, and Tesseract is not called, when its trimmed length is
    more than 50; when that length is 50 or less, or when the layout
    extraction raises, the outcome is the outcome of Tesseract, so the
    error of the layout extraction is never the one raised. *)
Theorem auto_mode_threshold (env : Env) (ocr_engine pdf_path : string) (w : World) :
  path_exists env pdf_path = true ->
  ocr_engine <> "pdfplumber" -> ocr_engine <> "tesseract" ->
  (forall text,
      pdfplumber_text env pdf_path = Ok text ->
      (50 < String.length (strip text))%nat ->
      extract_text_from_pdf env ocr_engine pdf_path w
      = (Ok text, after_calls w [CallPdfplumber pdf_path]))
  /\ (forall text,
        pdfplumber_text env pdf_path = Ok text ->
        (String.length (strip text) <= 50)%nat ->
        fst (extract_text_from_pdf env ocr_engine pdf_path w)
        = tesseract_text env pdf_path
        /\ In (CallTesseract pdf_path)
              (calls (snd (extract_text_from_pdf env ocr_engine pdf_path w))))
  /\ (forall e,
        pdfplumber_text env pdf_path = Raise e ->
        fst (extract_text_from_pdf env ocr_engine pdf_path w)
        = tesseract_text env pdf_path
        /\ In (CallTesseract pdf_path)
              (calls (snd (extract_text_from_pdf env ocr_engine pdf_path w)))).
Proof.
  intros Hex Hp Ht. rewrite (auto_mode_unfold env ocr_engine pdf_path Hex Hp Ht).
  unfold try_except, bind. rewrite pdfplumber_run.
  split; [|split].
  - intros text Htext Hlen. rewrite Htext.
    apply Nat.ltb_lt in Hlen. rewrite Hlen. reflexivity.
  - intros text Htext Hlen. rewrite Htext.
    apply Nat.ltb_ge in Hlen. rewrite Hlen. rewrite tesseract_run.
    destruct (tesseract_text env pdf_path) as [t|e] eqn:E; cbv beta iota.
    + split; [reflexivity|]. apply in_or_app. right. left. reflexivity.
    + rewrite tesseract_run, E. split; [reflexivity|].
      apply in_or_app. right. left. reflexivity.
  - intros e He. rewrite He. cbv beta iota. rewrite tesseract_run.
    split; [reflexivity|]. apply in_or_app. right. left. reflexivity.
Qed.

Lemma auto_mode_threshold_witness :
  (path_exists Fixtures.env_ok "forms/a.pdf" = true
   /\ "auto" <> "pdfplumber" /\ "auto" <> "tesseract")
  /\ extract_text_from_pdf Fixtures.env_ok "auto" "forms/a.pdf" Fixtures.w0
     = (Ok (page_marker 1 ++ Fixtures.form_text),
        after_calls Fixtures.w0 [CallPdfplumber "forms/a.pdf"])
  /\ fst (extract_text_from_pdf Fixtures.env_fifty "auto" "forms/a.pdf" Fixtures.w0)
     = tesseract_text Fixtures.env_fifty "forms/a.pdf".
Proof.
  split; [repeat split; discriminate|]. split.
  - apply (proj1 (auto_mode_threshold Fixtures.env_ok "auto" "forms/a.pdf" Fixtures.w0
                    eq_refl ltac:(discriminate) ltac:(discriminate))).
    + reflexivity.
    + vm_compute. lia.
  - apply (proj1 (proj2 (auto_mode_threshold Fixtures.env_fifty "auto" "forms/a.pdf"
                           Fixtures.w0 eq_refl ltac:(discriminate) ltac:(discriminate)))
             (page_marker 1 ++ Fixtures.short_page)).
    + reflexivity.
    + vm_compute. lia.
Defined.

(** C5, as stated, fails at the threshold: a layout text whose trimmed
    length is exactly 50 is not returned; Tesseract is called and its text
    comes back. *)
Lemma auto_mode_at_fifty_uses_tesseract :
  pdfplumber_text Fixtures.env_fifty "forms/a.pdf"
  = Ok (page_marker 1 ++ Fixtures.short_page)
  /\ String.length (strip (page_marker 1 ++ Fixtures.short_page)) = 50
  /\ extract_text_from_pdf Fixtures.env_fifty "auto" "forms/a.pdf" Fixtures.w0
     = (Ok (page_marker 1 ++ "scanned"),
        after_calls Fixtures.w0
          [CallPdfplumber "forms/a.pdf"; CallTesseract "forms/a.pdf"])
  /\ page_marker 1 ++ "scanned" <> page_marker 1 ++ Fixtures.short_page.
Proof.
  repeat split; try reflexivity. discriminate.
Qed.

(** ** The batch loop *)

Lemma keeps_stdout_commit (env : Env) (session : Database) :
  keeps stdout (commit env session).
Proof. unfold commit. frame. Qed.

#[export] Hint Resolve keeps_stdout_commit : frame.

Lemma keeps_stdout_store env pdf_path ocr_text analysis :
  keeps stdout (_store_consent_data env pdf_path ocr_text analysis).
Proof. unfold _store_consent_data, store_try. frame. Qed.

Lemma keeps_stdout_process_pdf env ocr_engine pdf_path :
  keeps stdout (process_pdf env ocr_engine pdf_path).
Proof.
  unfold process_pdf. pose proof keeps_stdout_store. frame.
Qed.

Lemma outcomes_count (outcomes : list (string * result StoreResult)) :
  List.length (successes_of outcomes) + List.length (failures_of outcomes)
  = List.length outcomes.
Proof.
  induction outcomes as [|[f [res|e]] rest IH]; simpl; lia.
Qed.

Lemma ran_stdout env ocr_engine directory_path w outcomes w' :
  Ran env ocr_engine directory_path w outcomes w' ->
  stdout w' = (stdout w ++ failures_of outcomes)%list.
Proof.
  induction 1 as [w | w f res w1 rest w2 Hrun _ IH | w f e w1 rest w2 Hrun _ IH]; simpl.
  - symmetry. apply app_nil_r.
  - rewrite IH. apply keeps_stdout_process_pdf in Hrun. rewrite Hrun. reflexivity.
  - rewrite IH. apply keeps_stdout_process_pdf in Hrun. simpl. rewrite Hrun.
    rewrite <- app_assoc. reflexivity.
Qed.

(** The loop always comes to its end, whatever fails on the way. *)
Lemma process_files_runs env ocr_engine directory_path pdf_files :
  forall results w,
  exists outcomes w',
    map fst outcomes = pdf_files
    /\ Ran env ocr_engine directory_path w outcomes w'
    /\ process_files env ocr_engine directory_path pdf_files results w
       = (Ok (results ++ successes_of outcomes)%list, w').
Proof.
  induction pdf_files as [|f rest IH]; intros results w.
  - exists [], w. simpl. rewrite app_nil_r. repeat split. constructor.
  - simpl. unfold bind at 1. unfold try_except at 1. unfold bind at 1.
    destruct (process_pdf env ocr_engine (path_join directory_path f) w)
      as [[res|e] w1] eqn:Hrun.
    + simpl. destruct (IH (results ++ [res])%list w1) as (outcomes & w' & Hfiles & Hran & Hloop).
      exists ((f, Ok res) :: outcomes), w'. simpl. rewrite Hfiles. split; [reflexivity|].
      split; [econstructor; eassumption|].
      rewrite Hloop. rewrite <- app_assoc. reflexivity.
    + simpl. destruct (IH results (after_print w1 (failure_line f e)))
        as (outcomes & w' & Hfiles & Hran & Hloop).
      exists ((f, Raise e) :: outcomes), w'. simpl. rewrite Hfiles. split; [reflexivity|].
      split; [eapply ran_failure; eassumption|].
      exact Hloop.
Qed.

(** ** Which files the batch looks at *)

Lemma length_append (a b : string) :
  String.length (a ++ b) = String.length a + String.length b.
Proof. induction a as [|c a IH]; simpl; [reflexivity | now rewrite IH]. Qed.

Lemma substring_all (s : string) : substring 0 (String.length s) s = s.
Proof. induction s as [|c s IH]; simpl; [reflexivity | now rewrite IH]. Qed.

Lemma substring_after (a b : string) :
  substring (String.length a) (String.length b) (a ++ b) = b.
Proof.
  induction a as [|c a IH]; simpl.
  - apply substring_all.
  - exact IH.
Qed.

Lemma substring_cut (s : string) (k : nat) :
  k <= String.length s ->
  s = substring 0 k s ++ substring k (String.length s - k) s.
Proof.
  revert k. induction s as [|c s IH]; intros k Hk; simpl in *.
  - destruct k; [reflexivity | lia].
  - destruct k as [|k]; simpl.
    + rewrite substring_all. reflexivity.
    + rewrite <- IH by lia. reflexivity.
Qed.

Lemma endswith_app (a b c : string) :
  String.length b = String.length c ->
  endswith (a ++ b) c = String.eqb b c.
Proof.
  intros Hlen. unfold endswith. rewrite length_append, <- Hlen.
  replace (String.length a + String.length b - String.length b)
    with (String.length a) by lia.
  rewrite substring_after.
  replace (String.length b <=? String.length a + String.length b)%nat with true
    by (symmetry; apply Nat.leb_le; lia).
  reflexivity.
Qed.

(** [f.endswith(suffix)] holds exactly for the names [stem ++ suffix]. *)
Lemma endswith_iff (f suffix : string) :
  endswith f suffix = true <-> exists stem, f = stem ++ suffix.
Proof.
  split.
  - unfold endswith. intros H. apply andb_prop in H. destruct H as [Hle Heq].
    apply Nat.leb_le in Hle. apply String.eqb_eq in Heq.
    exists (substring 0 (String.length f - String.length suffix) f).
    pose proof (substring_cut f (String.length f - String.length suffix)) as Hcut.
    replace (String.length f - (String.length f - String.length suffix))
      with (String.length suffix) in Hcut by lia.
    rewrite Heq in Hcut. apply Hcut. lia.
  - intros [stem ->]. rewrite endswith_app by reflexivity. apply String.eqb_refl.
Qed.

Lemma print_all_run (lines : list string) (w : World) :
  print_all lines w
  = (Ok tt, mkWorld (db w) (calls w) (stdout w ++ lines) (draws w)).
Proof.
  revert w. induction lines as [|l rest IH]; intros w; simpl.
  - rewrite app_nil_r. destruct w; reflexivity.
  - unfold bind, print. rewrite IH. simpl. rewrite <- app_assoc. reflexivity.
Qed.

(** [process_directory] on a directory that holds a PDF file, in terms of
    its loop. *)
Lemma process_directory_run env ocr_engine directory_path w results w1 :
  isdir env directory_path = true ->
  pdf_files_of env directory_path <> [] ->
  process_files env ocr_engine directory_path (pdf_files_of env directory_path) []
                (after_print w (found_line (pdf_files_of env directory_path)))
  = (Ok results, w1) ->
  process_directory env ocr_engine directory_path w
  = (Ok tt,
     mkWorld (db w1) (calls w1)
             (stdout w1 ++ summary (pdf_files_of env directory_path) results)
             (draws w1)).
Proof.
  intros Hdir Hsome Hloop. unfold process_directory. rewrite Hdir.
  cbn [negb]. cbv iota.
  destruct (pdf_files_of env directory_path) as [|f rest] eqn:Hfiles;
    [contradiction|].
  unfold bind at 1. unfold print at 1.
  unfold bind at 1. unfold found_line, after_print in Hloop. rewrite Hloop.
  unfold bind, print. cbn [db calls stdout draws]. rewrite print_all_run.
  cbn [db calls stdout draws].
  unfold summary. cbn [app]. repeat rewrite <- app_assoc. reflexivity.
Qed.

(** C7, as amended: [process_directory] runs every PDF file of the
    directory in turn; a document that fails is caught and printed as
    "Failed to process <file>: <reason>", and the loop goes on with the next
    file.  The result sequence holds an entry for each document that
    succeeded and none for one that failed, so the entries and the failure
    lines together number the files; the summary then prints the count of
    entries over the count of files and one line per entry with its email
    and password.  The function itself returns nothing. *)
Theorem batch_records_successes_only env ocr_engine directory_path w :
  isdir env directory_path = true ->
  pdf_files_of env directory_path <> [] ->
  let pdf_files := pdf_files_of env directory_path in
  exists outcomes w1,
    map fst outcomes = pdf_files
    /\ Ran env ocr_engine directory_path (after_print w (found_line pdf_files))
           outcomes w1
    /\ process_files env ocr_engine directory_path pdf_files []
                     (after_print w (found_line pdf_files))
       = (Ok (successes_of outcomes), w1)
    /\ List.length (successes_of outcomes) + List.length (failures_of outcomes)
       = List.length pdf_files
    /\ stdout w1 = (stdout w ++ found_line pdf_files :: failures_of outcomes)%list
    /\ process_directory env ocr_engine directory_path w
       = (Ok tt,
          mkWorld (db w1) (calls w1)
                  (stdout w1 ++ summary pdf_files (successes_of outcomes))
                  (draws w1)).
Proof.
  intros Hdir Hsome pdf_files.
  destruct (process_files_runs env ocr_engine directory_path pdf_files []
              (after_print w (found_line pdf_files)))
    as (outcomes & w1 & Hfiles & Hran & Hloop).
  simpl in Hloop.
  exists outcomes, w1. repeat split; try assumption.
  - rewrite outcomes_count, <- Hfiles. symmetry. apply length_map.
  - rewrite (ran_stdout _ _ _ _ _ _ Hran). simpl. rewrite <- app_assoc. reflexivity.
  - apply process_directory_run; assumption.
Qed.

Lemma batch_records_successes_only_witness :
  (isdir Fixtures.env_ok "forms" = true
   /\ pdf_files_of Fixtures.env_ok "forms" <> [])
  /\ exists outcomes w1,
       map fst outcomes = ["a.pdf"; "b.pdf"; "c.pdf"]
       /\ Ran Fixtures.env_ok "auto" "forms"
              (after_print Fixtures.w0 (found_line ["a.pdf"; "b.pdf"; "c.pdf"]))
              outcomes w1
       /\ process_files Fixtures.env_ok "auto" "forms" ["a.pdf"; "b.pdf"; "c.pdf"] []
                        (after_print Fixtures.w0 (found_line ["a.pdf"; "b.pdf"; "c.pdf"]))
          = (Ok (successes_of outcomes), w1)
       /\ List.length (successes_of outcomes) + List.length (failures_of outcomes) = 3
       /\ stdout w1
          = (stdout Fixtures.w0
             ++ found_line ["a.pdf"; "b.pdf"; "c.pdf"] :: failures_of outcomes)%list
       /\ process_directory Fixtures.env_ok "auto" "forms" Fixtures.w0
          = (Ok tt,
             mkWorld (db w1) (calls w1)
                     (stdout w1 ++ summary ["a.pdf"; "b.pdf"; "c.pdf"]
                                           (successes_of outcomes))
                     (draws w1)).
Proof.
  split; [split; [reflexivity | discriminate]|].
  apply (batch_records_successes_only Fixtures.env_ok "auto" "forms" Fixtures.w0);
    [reflexivity | discriminate].
Defined.

(** C7, as stated, fails: of three documents the second cannot be read;
    the result sequence has two entries, the failed document has none, and
    the batch returns nothing. *)
Lemma batch_of_three_yields_two_entries :
  pdf_files_of Fixtures.env_ok "forms" = ["a.pdf"; "b.pdf"; "c.pdf"]
  /\ is_ok (fst (process_pdf Fixtures.env_ok "auto" "forms/b.pdf" Fixtures.w0)) = false
  /\ fst (process_files Fixtures.env_ok "auto" "forms" ["a.pdf"; "b.pdf"; "c.pdf"] []
                        Fixtures.w0)
     = Ok [ mkStoreResult true 1 (JStr "Maria Garcia") "maria.garcia@example.com"
                          (Some "maria123!") 1 "a.pdf";
            mkStoreResult true 1 (JStr "Maria Garcia") "maria.garcia@example.com"
                          (Some "maria123!") 2 "c.pdf" ]
  /\ fst (process_directory Fixtures.env_ok "auto" "forms" Fixtures.w0) = Ok tt
  /\ In "Total processed: 2/3"
        (stdout (snd (process_directory Fixtures.env_ok "auto" "forms" Fixtures.w0))).
Proof.
  vm_compute. repeat split. do 5 right. left. reflexivity.
Qed.

Lemma process_files_cons env ocr_engine directory_path f rest results w :
  process_files env ocr_engine directory_path (f :: rest) results w
  = match process_pdf env ocr_engine (path_join directory_path f) w with
    | (Ok res, w1) =>
        process_files env ocr_engine directory_path rest (results ++ [res])%list w1
    | (Raise e, w1) =>
        process_files env ocr_engine directory_path rest results
                      (after_print w1 (failure_line f e))
    end.
Proof.
  cbn [process_files]. unfold bind, try_except.
  destruct (process_pdf env ocr_engine (path_join directory_path f) w)
    as [[res|e] w1]; reflexivity.
Qed.

Lemma process_files_listdir env ls ocr_engine directory_path pdf_files :
  forall results w,
    process_files (with_listdir env ls) ocr_engine directory_path pdf_files results w
    = process_files env ocr_engine directory_path pdf_files results w.
Proof.
  induction pdf_files as [|f rest IH]; intros results w; [reflexivity|].
  rewrite !process_files_cons.
  change (process_pdf (with_listdir env ls) ocr_engine (path_join directory_path f) w)
    with (process_pdf env ocr_engine (path_join directory_path f) w).
  destruct (process_pdf env ocr_engine (path_join directory_path f) w)
    as [[res|e] w1]; apply IH.
Qed.

Lemma filter_twice {A} (p : A -> bool) (l : list A) :
  filter p (filter p l) = filter p l.
Proof.
  induction l as [|x l IH]; simpl; [reflexivity|].
  destruct (p x) eqn:E; simpl; [rewrite E, IH | rewrite IH]; reflexivity.
Qed.

Lemma process_directory_listdir env ocr_engine directory_path w :
  process_directory (with_listdir env (pdf_files_of env)) ocr_engine directory_path w
  = process_directory env ocr_engine directory_path w.
Proof.
  unfold process_directory.
  change (isdir (with_listdir env (pdf_files_of env)) directory_path)
    with (isdir env directory_path).
  destruct (negb (isdir env directory_path)); [reflexivity|].
  assert (Hsame : pdf_files_of (with_listdir env (pdf_files_of env)) directory_path
                  = pdf_files_of env directory_path).
  { unfold pdf_files_of at 1. simpl. unfold pdf_files_of. apply filter_twice. }
  rewrite Hsame.
  destruct (pdf_files_of env directory_path) as [|f rest]; [reflexivity|].
  unfold bind at 1 3. unfold print at 1 2.
  unfold bind at 1 3. rewrite process_files_listdir. reflexivity.
Qed.

(** C10: the batch processes exactly the names of the directory that end
    in ".pdf", in lower case: these, in the order of the listing, are the
    files on which [process_pdf] is run, one after the other; a name ending
    in ".PDF" is not among them.  Every other file is skipped silently: it
    has no run, so no entry and no failure line, and the whole batch does
    and prints what it does on a directory holding the ".pdf" files only.
    With no such file the batch prints that none was found and returns,
    without running anything. *)
Theorem batch_considers_lowercase_pdf_only env ocr_engine directory_path w :
  isdir env directory_path = true ->
  (forall f, In f (pdf_files_of env directory_path)
             <-> In f (listdir env directory_path) /\ exists stem, f = stem ++ ".pdf")
  /\ (forall stem, ~ In (stem ++ ".PDF") (pdf_files_of env directory_path))
  /\ (pdf_files_of env directory_path <> [] ->
      exists outcomes w1,
        map fst outcomes
        = filter (fun f => endswith f ".pdf") (listdir env directory_path)
        /\ Ran env ocr_engine directory_path
               (after_print w (found_line (pdf_files_of env directory_path)))
               outcomes w1
        /\ process_directory env ocr_engine directory_path w
           = (Ok tt,
              mkWorld (db w1) (calls w1)
                      (stdout w
                       ++ found_line (pdf_files_of env directory_path)
                          :: failures_of outcomes
                       ++ summary (pdf_files_of env directory_path)
                                  (successes_of outcomes))
                      (draws w1)))
  /\ process_directory (with_listdir env (pdf_files_of env)) ocr_engine directory_path w
     = process_directory env ocr_engine directory_path w
  /\ (pdf_files_of env directory_path = [] ->
      process_directory env ocr_engine directory_path w
      = (Ok tt, after_print w ("No PDF files found in " ++ directory_path))).
Proof.
  intros Hdir. split; [|split; [|split; [|split]]].
  - intros f. unfold pdf_files_of. rewrite filter_In, endswith_iff. reflexivity.
  - intros stem Hin. unfold pdf_files_of in Hin. apply filter_In in Hin.
    destruct Hin as [_ Hends]. rewrite endswith_app in Hends by reflexivity.
    discriminate Hends.
  - intros Hsome.
    destruct (process_files_runs env ocr_engine directory_path
                (pdf_files_of env directory_path) []
                (after_print w (found_line (pdf_files_of env directory_path))))
      as (outcomes & w1 & Hfiles & Hran & Hloop).
    simpl in Hloop.
    exists outcomes, w1. split; [exact Hfiles|]. split; [exact Hran|].
    rewrite (process_directory_run env ocr_engine directory_path w
               (successes_of outcomes) w1 Hdir Hsome Hloop).
    rewrite (ran_stdout _ _ _ _ _ _ Hran). cbn [after_print stdout].
    rewrite <- !app_assoc. reflexivity.
  - apply process_directory_listdir.
  - intros Hnone. unfold process_directory. rewrite Hdir, Hnone. reflexivity.
Qed.

Lemma batch_considers_lowercase_pdf_only_witness :
  (isdir Fixtures.env_ok "forms" = true
   /\ listdir Fixtures.env_ok "forms"
      = ["a.pdf"; "notes.txt"; "b.pdf"; "scan.PDF"; "c.pdf"])
  /\ (In "scan.PDF" (pdf_files_of Fixtures.env_ok "forms") -> False)
  /\ exists outcomes w1,
       map fst outcomes = ["a.pdf"; "b.pdf"; "c.pdf"]
       /\ Ran Fixtures.env_ok "auto" "forms"
              (after_print Fixtures.w0 (found_line ["a.pdf"; "b.pdf"; "c.pdf"]))
              outcomes w1
       /\ process_directory Fixtures.env_ok "auto" "forms" Fixtures.w0
          = (Ok tt,
             mkWorld (db w1) (calls w1)
                     (stdout Fixtures.w0
                      ++ found_line ["a.pdf"; "b.pdf"; "c.pdf"]
                         :: failures_of outcomes
                      ++ summary ["a.pdf"; "b.pdf"; "c.pdf"] (successes_of outcomes))
                     (draws w1)).
Proof.
  split; [split; reflexivity|]. split.
  - exact (proj1 (proj2 (batch_considers_lowercase_pdf_only
                           Fixtures.env_ok "auto" "forms" Fixtures.w0 eq_refl)) "scan").
  - apply (proj1 (proj2 (proj2 (batch_considers_lowercase_pdf_only
                                  Fixtures.env_ok "auto" "forms" Fixtures.w0 eq_refl)))).
    discriminate.
Defined.

(** ** Questions of a patient without documents *)

(** [answer_query] itself has no guard: with no consent it still asks the
    model, over the context "No consent forms found.". *)
Lemma answer_query_empty_asks_model (env : Env) (question : string) (w : World) :
  calls (snd (answer_query env question [] w))
  = (calls w ++ [CallChat (query_prompt "No consent forms found." question)])%list.
Proof.
  unfold answer_query, bind, lift, try_except, chat_stage, bind, record_call, draw, lift.
  simpl.
  destruct (chat env (draws w) _) as [content|e]; simpl; [|reflexivity].
  destruct (py_strip content); reflexivity.
Qed.




(* ================================================================== *)
(** * Further properties of the code *)
(* ================================================================== *)

(** ** The JSON object cut out of a reply *)

Lemma from_first_open_spec (s t : string) :
  from_first_open s = Some t <->
  exists pre rest,
    s = pre ++ t /\ t = String "{"%char rest /\ has_char "{"%char pre = false.
Proof.
  split.
  - revert t. induction s as [|c s IH]; cbn [from_first_open]; intros t H; [discriminate|].
    destruct (Ascii.eqb c "{"%char) eqn:E.
    + inversion H; subst t. apply Ascii.eqb_eq in E. subst c.
      exists EmptyString, s. repeat split.
    + destruct (IH t H) as (pre & rest & -> & Ht & Hpre).
      exists (String c pre), rest. cbn [has_char append]. repeat split; [exact Ht|].
      rewrite Ascii.eqb_sym, E. exact Hpre.
  - intros (pre & rest & -> & -> & Hpre).
    induction pre as [|c pre IH]; cbn [append from_first_open].
    + rewrite Ascii.eqb_refl. reflexivity.
    + cbn [has_char] in Hpre. apply orb_false_elim in Hpre. destruct Hpre as [Hc Hpre].
      rewrite Ascii.eqb_sym, Hc. exact (IH Hpre).
Qed.

Lemma from_first_open_none (s : string) :
  from_first_open s = None <-> has_char "{"%char s = false.
Proof.
  induction s as [|c s IH]; cbn [from_first_open has_char]; [tauto|].
  rewrite (Ascii.eqb_sym "{"%char c).
  destruct (Ascii.eqb c "{"%char); simpl; [split; discriminate | exact IH].
Qed.

Lemma upto_last_close_none (s : string) :
  upto_last_close s = None <-> has_char "}"%char s = false.
Proof.
  induction s as [|c s IH]; cbn [upto_last_close has_char]; [tauto|].
  rewrite (Ascii.eqb_sym "}"%char c).
  destruct (upto_last_close s) as [r|].
  - split; [discriminate|]. intros H. apply orb_false_elim in H.
    destruct H as [_ H]. apply IH in H. discriminate.
  - destruct (Ascii.eqb c "}"%char); simpl; [split; discriminate|].
    split; intros _; [apply IH|]; reflexivity.
Qed.

Lemma upto_last_close_spec (s r : string) :
  upto_last_close s = Some r <->
  exists body post,
    s = r ++ post /\ r = body ++ "}" /\ has_char "}"%char post = false.
Proof.
  split.
  - revert r. induction s as [|c s IH]; cbn [upto_last_close]; intros r H; [discriminate|].
    destruct (upto_last_close s) as [r'|] eqn:E.
    + inversion H; subst r. destruct (IH r' eq_refl) as (body & post & -> & -> & Hpost).
      exists (String c body), post. repeat split. exact Hpost.
    + destruct (Ascii.eqb c "}"%char) eqn:Ec; [|discriminate].
      inversion H; subst r. apply Ascii.eqb_eq in Ec. subst c.
      exists EmptyString, s. repeat split. apply upto_last_close_none. exact E.
  - intros (body & post & -> & -> & Hpost).
    apply upto_last_close_none in Hpost.
    induction body as [|c body IH]; cbn [append upto_last_close].
    + rewrite Hpost, Ascii.eqb_refl. reflexivity.
    + cbn [append] in IH. rewrite IH. reflexivity.
Qed.

(** X1: the pattern finds a match exactly when the text reads
    [pre ++ "{" ++ body ++ "}" ++ post] with no opening brace in [pre] and no
    closing brace in [post]; the match is then the part from that first
    opening brace to that last closing brace. *)
Theorem re_search_braces_spec (text m : string) :
  re_search_braces text = Some m <->
  exists pre body post,
    text = pre ++ m ++ post
    /\ m = "{" ++ body ++ "}"
    /\ has_char "{"%char pre = false
    /\ has_char "}"%char post = false.
Proof.
  unfold re_search_braces. split.
  - destruct (from_first_open text) as [t|] eqn:Ht; [|discriminate].
    intros Hm. apply from_first_open_spec in Ht.
    destruct Ht as (pre & rest & -> & -> & Hpre).
    apply upto_last_close_spec in Hm.
    destruct Hm as (body & post & Hs & -> & Hpost).
    destruct body as [|c body]; cbn [append] in Hs.
    + inversion Hs.
    + inversion Hs; subst c. exists pre, body, post.
      repeat split; try assumption; simpl; congruence.
  - intros (pre & body & post & -> & -> & Hpre & Hpost).
    assert (Ht : from_first_open (pre ++ ("{" ++ body ++ "}") ++ post)
                 = Some (("{" ++ body ++ "}") ++ post)).
    { apply from_first_open_spec. exists pre, ((body ++ "}") ++ post).
      repeat split. exact Hpre. }
    rewrite Ht. apply upto_last_close_spec.
    exists (String "{"%char body), post. repeat split. exact Hpost.
Qed.

Lemma has_char_app (c : ascii) (a b : string) :
  has_char c (a ++ b) = has_char c a || has_char c b.
Proof.
  induction a as [|d a IH]; cbn [append has_char]; [reflexivity|].
  rewrite IH. apply orb_assoc.
Qed.

Lemma string_app_assoc (a b c : string) : (a ++ b) ++ c = a ++ (b ++ c).
Proof. induction a as [|d a IH]; cbn [append]; [reflexivity | now rewrite IH]. Qed.

Lemma after_first_open (pre0 rest pre post : string) :
  has_char "{"%char pre0 = false ->
  pre0 ++ String "{"%char rest = pre ++ String "{"%char post ->
  exists mid, rest = mid ++ post.
Proof.
  revert pre. induction pre0 as [|c0 pre0 IH]; intros pre Hpre0 Heq.
  - destruct pre as [|c pre]; cbn [append] in Heq; inversion Heq.
    + exists EmptyString. reflexivity.
    + exists (pre ++ "{"). rewrite string_app_assoc. reflexivity.
  - cbn [has_char] in Hpre0. apply orb_false_elim in Hpre0.
    destruct Hpre0 as [Hc0 Hpre0].
    destruct pre as [|c pre]; cbn [append] in Heq; inversion Heq.
    + subst c0. rewrite Ascii.eqb_refl in Hc0. discriminate.
    + exact (IH pre Hpre0 H1).
Qed.

(** There is no match exactly when no opening brace has a closing brace
    somewhere after it. *)
Lemma re_search_braces_none (text : string) :
  re_search_braces text = None <->
  forall pre post, text = pre ++ "{" ++ post -> has_char "}"%char post = false.
Proof.
  unfold re_search_braces. split.
  - destruct (from_first_open text) as [t|] eqn:Ht.
    + intros Hnone pre post Htext. apply upto_last_close_none in Hnone.
      apply from_first_open_spec in Ht.
      destruct Ht as (pre0 & rest & Heq & -> & Hpre0).
      rewrite Htext in Heq. symmetry in Heq.
      destruct (after_first_open pre0 rest pre post Hpre0 Heq) as [mid ->].
      cbn [has_char] in Hnone. apply orb_false_elim in Hnone.
      destruct Hnone as [_ Hnone]. rewrite has_char_app in Hnone.
      apply orb_false_elim in Hnone. tauto.
    + intros _ pre post ->. apply from_first_open_none in Ht.
      rewrite has_char_app in Ht. apply orb_false_elim in Ht.
      destruct Ht as [_ Ht]. cbn [append has_char] in Ht.
      rewrite Ascii.eqb_refl in Ht. discriminate.
  - intros H. destruct (from_first_open text) as [t|] eqn:Ht; [|reflexivity].
    apply from_first_open_spec in Ht. destruct Ht as (pre & rest & -> & -> & _).
    apply upto_last_close_none. cbn [has_char].
    rewrite (H pre rest eq_refl). reflexivity.
Qed.

(** ** Validation, once more *)

Lemma dict_set_same (o : Dict) (key : string) (v : JValue) :
  dict_get o key = Some v -> dict_set o key v = o.
Proof.
  induction o as [|[k x] o IH]; simpl; [discriminate|].
  destruct (String.eqb k key) eqn:E.
  - intros H. inversion H; subst. reflexivity.
  - intros H. rewrite (IH H). reflexivity.
Qed.

(** A dict in which every key of the table holds a value, null only where
    the default is null, goes through the loop untouched. *)
Lemma validate_loop_fixed (defaults : Dict) (o : Dict) :
  (forall key d, In (key, d) defaults ->
     exists v, dict_get o key = Some v /\ (is_none v = true -> v = d)) ->
  validate_loop defaults (JObj o) = Ok (JObj o).
Proof.
  induction defaults as [|[k d] rest IH]; intros H; [reflexivity|].
  cbn [validate_loop].
  assert (Hk : validate_key (JObj o) k d = Ok (JObj o)).
  { destruct (H k d (or_introl eq_refl)) as (v & Hv & Hnull).
    unfold validate_key, py_in, py_getitem, dict_getitem, dict_mem.
    rewrite Hv. simpl.
    destruct (is_none v) eqn:E; [|reflexivity].
    simpl. rewrite <- (Hnull eq_refl), (dict_set_same o k v Hv). reflexivity. }
  rewrite Hk. simpl. apply IH.
  intros key d' Hin. apply (H key d'). right. exact Hin.
Qed.

Lemma filled_null (before : option JValue) (d : JValue) :
  is_none (filled before d) = true -> filled before d = d.
Proof.
  unfold filled. destruct before as [v|]; [|reflexivity].
  destruct (is_none v) eqn:E; [reflexivity|]. intros H. congruence.
Qed.

(** X2: validation is idempotent: a validated record validates to itself,
    so validating twice is validating once. *)
Theorem validate_idempotent (o : Dict) :
  exists o',
    _validate_analysis (JObj o) = Ok (JObj o')
    /\ _validate_analysis (JObj o') = Ok (JObj o').
Proof.
  destruct (validate_object o) as (o' & Ho' & Hin & _).
  exists o'. split; [exact Ho'|].
  apply validate_loop_fixed. intros key d Hd.
  exists (filled (dict_get o key) d). split; [exact (Hin key d Hd)|].
  apply filled_null.
Qed.

(** ** What [analyze_consent_form] returns *)

(** A record that comes back is a validated object, the defaults being the
    validation of the empty object. *)
Lemma analyze_ok_validated (env : Env) (ocr_text : string) (w : World) (d : Dict) :
  fst (analyze_consent_form env ocr_text w) = Ok d ->
  exists o, _validate_analysis (JObj o) = Ok (JObj d).
Proof.
  assert (Hdefault : exists o, _validate_analysis (JObj o)
                               = Ok (JObj _get_default_analysis)).
  { exists []. reflexivity. }
  unfold analyze_consent_form.
  destruct (chat_stage env (analysis_prompt ocr_text) w) as [[t|e] w1].
  - generalize (match re_search_braces t with Some m => m | None => t end).
    intros t'. unfold try_except, parse_stage, bind, lift.
    destruct (json_loads env t') as [v|e]; simpl.
    + destruct (_validate_analysis v) as [v'|e] eqn:Hv; simpl.
      * destruct (validate_dict v v' Hv) as (o & o' & -> & ->). simpl.
        intros H. inversion H; subst. exists o. exact Hv.
      * unfold analyze_except. destruct (ExnClass_eqb _ _); simpl;
          intros H; inversion H; subst; exact Hdefault.
    + unfold analyze_except. destruct (ExnClass_eqb _ _); simpl;
        intros H; inversion H; subst; exact Hdefault.
  - unfold analyze_except. destruct (ExnClass_eqb _ _); simpl;
      intros H; inversion H; subst; exact Hdefault.
Qed.

(** X3: every record [analyze_consent_form] returns has all nine fields,
    and the seven whose default is not null are not null; so the lookups
    [analysis['patient_email']] and [analysis['patient_name']] of the callers
    cannot raise [KeyError]. *)
Theorem analyze_result_has_all_fields
    (env : Env) (ocr_text : string) (w : World) (d : Dict) :
  fst (analyze_consent_form env ocr_text w) = Ok d ->
  (forall key dflt, In (key, dflt) _get_default_analysis ->
     exists v, dict_get d key = Some v
               /\ (is_none dflt = false -> is_none v = false))
  /\ (exists email name,
        dict_getitem d "patient_email" = Ok email /\ is_none email = false
        /\ dict_getitem d "patient_name" = Ok name /\ is_none name = false).
Proof.
  intros H. apply analyze_ok_validated in H. destruct H as (o & Hv).
  destruct (validate_object o) as (o' & Ho' & Hin & _).
  rewrite Hv in Ho'. inversion Ho'; subst o'; clear Ho'.
  assert (Hall : forall key dflt, In (key, dflt) _get_default_analysis ->
            exists v, dict_get d key = Some v
                      /\ (is_none dflt = false -> is_none v = false)).
  { intros key dflt Hd. exists (filled (dict_get o key) dflt).
    split; [exact (Hin key dflt Hd)|].
    intros Hnn. unfold filled. destruct (dict_get o key) as [v|]; [|exact Hnn].
    destruct (is_none v) eqn:E; [exact Hnn | exact E]. }
  split; [exact Hall|].
  destruct (Hall "patient_email" (JStr "unknown@example.com")) as (email & He & Hen).
  { simpl. tauto. }
  destruct (Hall "patient_name" (JStr "Unknown")) as (name & Hn & Hnn).
  { simpl. tauto. }
  exists email, name. unfold dict_getitem. rewrite He, Hn.
  repeat split; [apply Hen | apply Hnn]; reflexivity.
Qed.

Lemma analyze_result_has_all_fields_witness :
  fst (analyze_consent_form Fixtures.env_ok Fixtures.form_text Fixtures.w0)
  = Ok Fixtures.maria
  /\ (forall key dflt, In (key, dflt) _get_default_analysis ->
        exists v, dict_get Fixtures.maria key = Some v
                  /\ (is_none dflt = false -> is_none v = false))
  /\ (exists email name,
        dict_getitem Fixtures.maria "patient_email" = Ok email
        /\ is_none email = false
        /\ dict_getitem Fixtures.maria "patient_name" = Ok name
        /\ is_none name = false).
Proof.
  split; [reflexivity|].
  apply (analyze_result_has_all_fields Fixtures.env_ok Fixtures.form_text Fixtures.w0).
  reflexivity.
Defined.

(** ** Answering a question *)

Lemma join_items_ok (idx : nat) (l : list JValue) :
  is_ok (join_items idx l)
  = forallb (fun x => match x with JStr _ => true | _ => false end) l.
Proof.
  revert idx. induction l as [|x l IH]; intros idx; [reflexivity|].
  destruct x; try reflexivity.
  cbn [join_items forallb]. rewrite <- (IH (S idx)).
  destruct (join_items (S idx) l); reflexivity.
Qed.

Lemma py_join_ok (sep : string) (v : JValue) :
  is_ok (py_join sep v) = joinable v.
Proof.
  destruct v; try reflexivity. simpl.
  rewrite <- (join_items_ok 0 items). destruct (join_items 0 items); reflexivity.
Qed.

Lemma format_consent_ok (idx : nat) (consent : Dict) :
  is_ok (format_consent idx consent) = formattable consent.
Proof.
  unfold format_consent, formattable.
  rewrite <- !(py_join_ok ", ").
  destruct (py_join ", " (dict_get_default consent "consented_items" (JArr [])));
    [|reflexivity].
  destruct (py_join ", " (dict_get_default consent "declined_items" (JArr [])));
    reflexivity.
Qed.

Lemma format_consents_loop_ok (idx : nat) (consents : list Dict) :
  is_ok (format_consents_loop idx consents) = forallb formattable consents.
Proof.
  revert idx. induction consents as [|c rest IH]; intros idx; [reflexivity|].
  cbn [format_consents_loop forallb].
  rewrite <- (format_consent_ok idx c), <- (IH (S idx)).
  destruct (format_consent idx c); [|reflexivity].
  destruct (format_consents_loop (S idx) rest); reflexivity.
Qed.

Lemma format_consents_is_ok (consents : list Dict) :
  is_ok (_format_consents_for_context consents) = forallb formattable consents.
Proof.
  unfold _format_consents_for_context. destruct consents as [|c rest]; [reflexivity|].
  rewrite <- (format_consents_loop_ok 1 (c :: rest)).
  destruct (format_consents_loop 1 (c :: rest)); reflexivity.
Qed.

Lemma chat_stage_world (env : Env) (prompt : string) (w : World) :
  snd (chat_stage env prompt w) = after_chat w prompt.
Proof.
  unfold chat_stage, bind, record_call, draw, lift. simpl.
  destruct (chat env (draws w) prompt) as [content|e]; simpl; [|reflexivity].
  destruct (py_strip content); reflexivity.
Qed.

(** Without a context [answer_query] raises before it asks anything. *)
Lemma answer_query_context_error (env : Env) (question : string)
    (consents : list Dict) (w : World) (e : Exn) :
  _format_consents_for_context consents = Raise e ->
  answer_query env question consents w = (Raise e, w).
Proof.
  intros H. unfold answer_query, bind, lift. rewrite H. reflexivity.
Qed.

(** With a context, the model is asked once and the outcome is a value. *)
Lemma answer_query_with_context (env : Env) (question : string)
    (consents : list Dict) (w : World) (context : string) :
  _format_consents_for_context consents = Ok context ->
  answer_query env question consents w
  = (Ok match chat env (draws w) (query_prompt context question) with
        | Ok (JStr content) => strip content
        | _ => query_apology
        end,
     after_chat w (query_prompt context question)).
Proof.
  intros H. unfold answer_query, bind, lift. rewrite H. cbv beta iota.
  unfold try_except.
  pose proof (chat_stage_run env (query_prompt context question) w) as Hrun.
  pose proof (chat_stage_world env (query_prompt context question) w) as Hw.
  destruct (chat_stage env (query_prompt context question) w) as [[t|e] w1].
  - simpl in Hrun, Hw. subst w1.
    destruct (chat env (draws w) (query_prompt context question)) as [v|e];
      [|discriminate].
    destruct v; simpl in Hrun; inversion Hrun. reflexivity.
  - simpl in Hrun, Hw. subst w1. unfold ret.
    destruct (chat env (draws w) (query_prompt context question)) as [v|e'];
      [|reflexivity].
    destruct v; simpl in Hrun; try reflexivity. discriminate.
Qed.

Lemma join_items_error (idx : nat) (l : list JValue) (e : Exn) :
  join_items idx l = Raise e -> exn_class e = TypeError.
Proof.
  revert idx. induction l as [|x l IH]; intros idx; [discriminate|].
  destruct x; cbn [join_items]; try (intros H; inversion H; reflexivity).
  destruct (join_items (S idx) l) as [r|e'] eqn:E; simpl; [discriminate|].
  intros H. inversion H; subst. exact (IH (S idx) E).
Qed.

Lemma py_join_error (sep : string) (v : JValue) (e : Exn) :
  py_join sep v = Raise e -> exn_class e = TypeError.
Proof.
  destruct v; simpl; try (intros H; inversion H; reflexivity); try discriminate.
  destruct (join_items 0 items) as [r|e'] eqn:E; simpl; [discriminate|].
  intros H. inversion H; subst. exact (join_items_error 0 items e E).
Qed.

Lemma format_consents_loop_error (idx : nat) (consents : list Dict) (e : Exn) :
  format_consents_loop idx consents = Raise e -> exn_class e = TypeError.
Proof.
  revert idx. induction consents as [|c rest IH]; intros idx; [discriminate|].
  cbn [format_consents_loop]. unfold format_consent.
  destruct (py_join ", " (dict_get_default c "consented_items" (JArr [])))
    as [a|e1] eqn:E1; simpl.
  - destruct (py_join ", " (dict_get_default c "declined_items" (JArr [])))
      as [b|e2] eqn:E2; simpl.
    + destruct (format_consents_loop (S idx) rest) as [r|e3] eqn:E3; simpl;
        [discriminate|].
      intros H. inversion H; subst. exact (IH (S idx) E3).
    + intros H. inversion H; subst. exact (py_join_error _ _ _ E2).
  - intros H. inversion H; subst. exact (py_join_error _ _ _ E1).
Qed.

(** X4: the context of a question can be built exactly when, in every
    consent, the consented and the declined items are lists of strings (or a
    string, or a dict); one item that is a number, a null or an object makes
    [_format_consents_for_context] raise, and what it raises is a
    [TypeError]. *)
Theorem format_consents_ok (consents : list Dict) :
  is_ok (_format_consents_for_context consents) = forallb formattable consents
  /\ forall e, _format_consents_for_context consents = Raise e ->
               exn_class e = TypeError.
Proof.
  split; [apply format_consents_is_ok|].
  intros e. unfold _format_consents_for_context.
  destruct consents as [|c rest]; [discriminate|].
  destruct (format_consents_loop 1 (c :: rest)) as [parts|e'] eqn:E; simpl;
    [discriminate|].
  intros H. inversion H; subst. exact (format_consents_loop_error 1 _ e E).
Qed.

(** X5: [answer_query] raises only while it builds the context, before it
    asks anything; once the context is built it asks the model exactly once
    and never raises: it returns the trimmed reply, or the fixed apology
    when the call fails in any way or the reply is not a string. *)
Theorem answer_query_fallback (env : Env) (question : string)
    (consents : list Dict) (w : World) :
  match _format_consents_for_context consents with
  | Ok context =>
      answer_query env question consents w
      = (Ok match chat env (draws w) (query_prompt context question) with
            | Ok (JStr content) => strip content
            | _ => query_apology
            end,
         after_chat w (query_prompt context question))
  | Raise e => answer_query env question consents w = (Raise e, w)
  end.
Proof.
  destruct (_format_consents_for_context consents) as [context|e] eqn:Hc.
  - exact (answer_query_with_context env question consents w context Hc).
  - exact (answer_query_context_error env question consents w e Hc).
Qed.

(** ** The query route *)

(** What [query()] does once the token was looked up: it always answers
    and leaves the tables as they were; the model is asked at most once, and
    only for an answer of status 200; without a session the answer is 401
    and nothing happened. *)
Lemma query_outcomes (env : Env) (session_patient : option nat)
    (data : JValue) (w : World) :
  exists resp w',
    query env session_patient data w = (Ok resp, w')
    /\ In (status resp) [200; 400; 401; 404; 500]
    /\ db w' = db w
    /\ (calls w' = calls w
        \/ (status resp = 200
            /\ exists prompt, calls w' = (calls w ++ [CallChat prompt])%list))
    /\ (session_patient = None -> status resp = 401 /\ w' = w).
Proof.
  unfold query, try_except, bind, lift, get_session, ret.
  destruct session_patient as [[|n]|];
    try (eexists; eexists; split; [reflexivity|]; simpl;
         repeat split; try tauto; discriminate).
  destruct (request_field data "query") as [field|e];
    [|eexists; eexists; split; [reflexivity|]; simpl;
      repeat split; try tauto; discriminate].
  destruct (py_strip field) as [text|e];
    [|eexists; eexists; split; [reflexivity|]; simpl;
      repeat split; try tauto; discriminate].
  destruct (String.eqb text "");
    [eexists; eexists; split; [reflexivity|]; simpl;
     repeat split; try tauto; discriminate|].
  destruct (find_patient_by_id (db w) (S n));
    [|eexists; eexists; split; [reflexivity|]; simpl;
      repeat split; try tauto; discriminate].
  destruct (entities_of_patient (db w) (S n)) as [|x rest];
    [eexists; eexists; split; [reflexivity|]; simpl;
     repeat split; try tauto; discriminate|].
  destruct (_format_consents_for_context (map consent_dict (x :: rest)))
    as [context|e] eqn:Hc.
  - rewrite (answer_query_with_context env text _ w context Hc).
    eexists; eexists; split; [reflexivity|]. simpl.
    split; [tauto|]. split; [reflexivity|]. split; [|discriminate].
    right. split; [reflexivity|]. eexists. reflexivity.
  - rewrite (answer_query_context_error env text _ w e Hc).
    eexists; eexists; split; [reflexivity|]. simpl.
    repeat split; try tauto; discriminate.
Qed.

(** X7: a question that is served for a patient with documents is answered
    with status 200, after one call to the model, when every index row of
    the patient is formattable; as soon as one row lists an item that is not
    a string, the route answers 500 "Query processing failed" without asking
    the model. *)
Theorem query_served (env : Env) (pid : nat) (data : JValue) (w : World)
    (question : string) (p : Patient) :
  pid <> 0 ->
  request_field data "query" = Ok (JStr question) ->
  strip question <> "" ->
  find_patient_by_id (db w) pid = Some p ->
  entities_of_patient (db w) pid <> [] ->
  let consents := map consent_dict (entities_of_patient (db w) pid) in
  (forallb formattable consents = true ->
   exists context answer,
     _format_consents_for_context consents = Ok context
     /\ query env (Some pid) data w
        = (Ok (mkResponse [("answer", JStr answer); ("query", JStr (strip question))]
                          200),
           after_chat w (query_prompt context (strip question))))
  /\ (forallb formattable consents = false ->
      query env (Some pid) data w
      = (Ok (mkResponse [("error", JStr "Query processing failed")] 500), w)).
Proof.
  intros Hpid Hfield Hq Hp Hsome consents.
  assert (Hrun : query env (Some pid) data w
                 = match answer_query env (strip question) consents w with
                   | (Ok answer, w') =>
                       (Ok (mkResponse [("answer", JStr answer);
                                        ("query", JStr (strip question))] 200), w')
                   | (Raise _, w') =>
                       (Ok (mkResponse [("error", JStr "Query processing failed")] 500),
                        w')
                   end).
  { unfold query, try_except, bind, lift, get_session, ret.
    destruct pid as [|n]; [contradiction|].
    rewrite Hfield. simpl.
    apply String.eqb_neq in Hq. rewrite Hq, Hp.
    unfold consents.
    destruct (entities_of_patient (db w) (S n)) as [|x rest]; [contradiction|].
    destruct (answer_query env (strip question) (map consent_dict (x :: rest)) w)
      as [[answer|e] w']; reflexivity. }
  pose proof (format_consents_is_ok consents) as Hok.
  split; intros Hall; rewrite Hall in Hok.
  - destruct (_format_consents_for_context consents) as [context|e] eqn:Hc;
      [|discriminate].
    exists context. eexists. split; [reflexivity|].
    rewrite Hrun, (answer_query_with_context env (strip question) consents w context Hc).
    reflexivity.
  - destruct (_format_consents_for_context consents) as [context|e] eqn:Hc;
      [discriminate|].
    rewrite Hrun, (answer_query_context_error env (strip question) consents w e Hc).
    reflexivity.
Qed.

Lemma query_served_witness :
  exists context answer,
    _format_consents_for_context
      (map consent_dict (entities_of_patient (db Fixtures.w_maria) 1)) = Ok context
    /\ query Fixtures.env_ok (Some 1) (JObj [("query", JStr "What did I consent to?")])
             Fixtures.w_maria
       = (Ok (mkResponse [("answer", JStr answer);
                          ("query", JStr (strip "What did I consent to?"))] 200),
          after_chat Fixtures.w_maria
            (query_prompt context (strip "What did I consent to?"))).
Proof.
  refine (proj1 (query_served Fixtures.env_ok 1
                   (JObj [("query", JStr "What did I consent to?")])
                   Fixtures.w_maria "What did I consent to?"
                   (mkPatient 1 "maria.garcia@example.com" (Bcrypt "salt0" "maria123!")
                              (JStr "Maria Garcia") (Some "maria123!") 1)
                   _ _ _ _ _) _);
    try reflexivity; discriminate.
Defined.

(** ** Text extraction: the edges *)

Lemma auto_mode_run (env : Env) (ocr_engine pdf_path : string) (w : World) :
  path_exists env pdf_path = true ->
  ocr_engine <> "pdfplumber" -> ocr_engine <> "tesseract" ->
  extract_text_from_pdf env ocr_engine pdf_path w
  = match pdfplumber_text env pdf_path with
    | Ok text =>
        if (50 <? String.length (strip text))%nat
        then (Ok text, after_calls w [CallPdfplumber pdf_path])
        else
          match tesseract_text env pdf_path with
          | Ok t => (Ok t, after_calls w [CallPdfplumber pdf_path;
                                          CallTesseract pdf_path])
          | Raise e => (Raise e, after_calls w [CallPdfplumber pdf_path;
                                                CallTesseract pdf_path;
                                                CallTesseract pdf_path])
          end
    | Raise _ =>
        (tesseract_text env pdf_path,
         after_calls w [CallPdfplumber pdf_path; CallTesseract pdf_path])
    end.
Proof.
  intros Hex Hp Ht. rewrite (auto_mode_unfold env ocr_engine pdf_path Hex Hp Ht).
  unfold try_except, bind. rewrite pdfplumber_run.
  destruct (pdfplumber_text env pdf_path) as [text|e].
  - destruct (50 <? String.length (strip text))%nat; [reflexivity|].
    rewrite tesseract_run.
    destruct (tesseract_text env pdf_path) as [t|e] eqn:E; cbv beta iota.
    + unfold after_calls. simpl. rewrite <- app_assoc. reflexivity.
    + rewrite tesseract_run, E. unfold after_calls. simpl.
      rewrite <- !app_assoc. reflexivity.
  - cbv beta iota. rewrite tesseract_run. unfold after_calls. simpl.
    rewrite <- app_assoc. reflexivity.
Qed.

(** The text pdfplumber gives for pages that hold no text is empty. *)
Lemma pdfplumber_loop_textless (n : nat) (pages : list (result (option string))) :
  Forall (fun page => page = Ok None \/ page = Ok (Some "")) pages ->
  pdfplumber_loop n pages = Ok [].
Proof.
  intros H. revert n. induction H as [|page rest Hpage _ IH]; intros n; [reflexivity|].
  cbn [pdfplumber_loop]. rewrite (IH (S n)).
  destruct Hpage as [-> | ->]; reflexivity.
Qed.

(** X8: a document whose pages carry no text layer (a scan) is never
    answered from pdfplumber in auto mode: pdfplumber returns the empty text
    and the outcome, text or error, is the one of Tesseract. *)
Theorem textless_pdf_goes_to_tesseract (env : Env) (ocr_engine pdf_path : string)
    (w : World) (pages : list (result (option string))) :
  path_exists env pdf_path = true ->
  ocr_engine <> "pdfplumber" -> ocr_engine <> "tesseract" ->
  pdf_pages env pdf_path = Ok pages ->
  Forall (fun page => page = Ok None \/ page = Ok (Some "")) pages ->
  pdfplumber_text env pdf_path = Ok ""
  /\ fst (extract_text_from_pdf env ocr_engine pdf_path w) = tesseract_text env pdf_path.
Proof.
  intros Hex Hp Ht Hpages Hnone.
  assert (Htext : pdfplumber_text env pdf_path = Ok "").
  { unfold pdfplumber_text. rewrite Hpages. simpl.
    rewrite (pdfplumber_loop_textless 1 pages Hnone). reflexivity. }
  split; [exact Htext|].
  rewrite (auto_mode_run env ocr_engine pdf_path w Hex Hp Ht), Htext. simpl.
  destruct (tesseract_text env pdf_path); reflexivity.
Qed.

(** X9: when both strategies fail in auto mode, each at any step, on
    opening the document or on one of its pages, each was run once and the
    exception that reaches the caller is the one of Tesseract: the cause
    Tesseract gave, with the hint about the installation; the cause
    pdfplumber gave is not in it. *)
Theorem auto_mode_both_fail (env : Env) (ocr_engine pdf_path : string) (w : World)
    (e1 e2 : Exn) :
  path_exists env pdf_path = true ->
  ocr_engine <> "pdfplumber" -> ocr_engine <> "tesseract" ->
  pdfplumber_text env pdf_path = Raise e1 ->
  tesseract_text env pdf_path = Raise e2 ->
  extract_text_from_pdf env ocr_engine pdf_path w
  = (Raise e2, after_calls w [CallPdfplumber pdf_path; CallTesseract pdf_path])
  /\ exists cause,
       rbind (ocr_pages env pdf_path) (tesseract_loop 1) = Raise cause
       /\ e2 = mkExn PlainException
                 ("Tesseract extraction failed: " ++ exn_str cause ++ ". "
                  ++ "Make sure Tesseract is installed: 'brew install tesseract' (macOS) "
                  ++ "or 'apt-get install tesseract-ocr' (Linux)").
Proof.
  intros Hex Hp Ht H1 H2. split.
  - rewrite (auto_mode_run env ocr_engine pdf_path w Hex Hp Ht), H1, H2.
    reflexivity.
  - unfold tesseract_text in H2.
    destruct (rbind (ocr_pages env pdf_path) (tesseract_loop 1)) as [text|cause];
      [discriminate H2|].
    exists cause. split; [reflexivity|]. injection H2 as <-. reflexivity.
Qed.

Lemma textless_pdf_goes_to_tesseract_witness :
  (path_exists Samples.env_scan "scan.pdf" = true
   /\ pdf_pages Samples.env_scan "scan.pdf" = Ok [Ok None; Ok (Some "")])
  /\ pdfplumber_text Samples.env_scan "scan.pdf" = Ok ""
  /\ fst (extract_text_from_pdf Samples.env_scan "auto" "scan.pdf" Fixtures.w0)
     = tesseract_text Samples.env_scan "scan.pdf".
Proof.
  split; [split; reflexivity|].
  apply (textless_pdf_goes_to_tesseract Samples.env_scan "auto" "scan.pdf" Fixtures.w0
           [Ok None; Ok (Some "")]);
    try reflexivity; try discriminate.
  repeat constructor; tauto.
Defined.

Lemma auto_mode_both_fail_witness :
  (path_exists env_page_faults "a.pdf" = true
   /\ pdf_pages env_page_faults "a.pdf"
      = Ok [Ok (Some "Page one"); Raise (mkExn PlainException "Unexpected EOF")]
   /\ ocr_pages env_page_faults "a.pdf"
      = Ok [Raise (mkExn PlainException
                     "tesseract is not installed or it's not in your PATH")])
  /\ extract_text_from_pdf env_page_faults "auto" "a.pdf" Fixtures.w0
     = (Raise (mkExn PlainException
                 ("Tesseract extraction failed: "
                  ++ "tesseract is not installed or it's not in your PATH. "
                  ++ "Make sure Tesseract is installed: 'brew install tesseract' (macOS) "
                  ++ "or 'apt-get install tesseract-ocr' (Linux)")),
        after_calls Fixtures.w0 [CallPdfplumber "a.pdf"; CallTesseract "a.pdf"]).
Proof.
  split; [repeat split; reflexivity|].
  apply (proj1 (auto_mode_both_fail env_page_faults "auto" "a.pdf" Fixtures.w0
                  (mkExn PlainException "pdfplumber extraction failed: Unexpected EOF")
                  (mkExn PlainException
                     ("Tesseract extraction failed: "
                      ++ "tesseract is not installed or it's not in your PATH. "
                      ++ "Make sure Tesseract is installed: 'brew install tesseract' (macOS) "
                      ++ "or 'apt-get install tesseract-ocr' (Linux)"))
                  eq_refl ltac:(discriminate) ltac:(discriminate) eq_refl eq_refl)).
Defined.

(** X10: when the layout text is too short and Tesseract then fails,
    Tesseract is run a second time on the same document before its error
    reaches the caller: the fallback call sits inside the [try] whose
    handler is the fallback again. *)
Theorem short_text_runs_tesseract_twice (env : Env) (ocr_engine pdf_path : string)
    (w : World) (text : string) (e : Exn) :
  path_exists env pdf_path = true ->
  ocr_engine <> "pdfplumber" -> ocr_engine <> "tesseract" ->
  pdfplumber_text env pdf_path = Ok text ->
  (String.length (strip text) <= 50)%nat ->
  tesseract_text env pdf_path = Raise e ->
  extract_text_from_pdf env ocr_engine pdf_path w
  = (Raise e,
     after_calls w [CallPdfplumber pdf_path; CallTesseract pdf_path;
                    CallTesseract pdf_path]).
Proof.
  intros Hex Hp Ht Htext Hlen He.
  rewrite (auto_mode_run env ocr_engine pdf_path w Hex Hp Ht), Htext, He.
  apply Nat.ltb_ge in Hlen. rewrite Hlen. reflexivity.
Qed.

Lemma short_text_runs_tesseract_twice_witness :
  (path_exists Samples.env_no_tesseract "a.pdf" = true
   /\ pdfplumber_text Samples.env_no_tesseract "a.pdf" = Ok (page_marker 1 ++ "Hello")
   /\ (String.length (strip (page_marker 1 ++ "Hello")) <= 50)%nat)
  /\ calls (snd (extract_text_from_pdf Samples.env_no_tesseract "auto" "a.pdf"
                   Fixtures.w0))
     = [CallPdfplumber "a.pdf"; CallTesseract "a.pdf"; CallTesseract "a.pdf"].
Proof.
  split; [split; [reflexivity | split; [reflexivity | vm_compute; lia]]|].
  rewrite (short_text_runs_tesseract_twice Samples.env_no_tesseract "auto" "a.pdf"
             Fixtures.w0 (page_marker 1 ++ "Hello")
             (mkExn PlainException
                ("Tesseract extraction failed: tesseract is not installed. "
                 ++ "Make sure Tesseract is installed: 'brew install tesseract' (macOS) "
                 ++ "or 'apt-get install tesseract-ocr' (Linux)")));
    try reflexivity; try discriminate.
  vm_compute. lia.
Defined.

(** ** The rows of a stored document *)

Lemma next_id_bound (ids : list nat) (i : nat) : In i ids -> i < next_id ids.
Proof.
  unfold next_id. induction ids as [|j ids IH]; simpl; [tauto|].
  intros [-> | H]; [lia|]. specialize (IH H). lia.
Qed.

Lemma next_id_fresh (ids : list nat) : ~ In (next_id ids) ids.
Proof. intros H. apply next_id_bound in H. lia. Qed.

Lemma find_email_none (d : Database) (e : string) :
  find_patient_by_email d e = None -> ~ In e (map email (patients d)).
Proof.
  unfold find_patient_by_email. intros H Hin.
  apply in_map_iff in Hin. destruct Hin as (p & Hp & Hin).
  pose proof (find_none _ _ H p Hin) as Hne. simpl in Hne.
  rewrite Hp, String.eqb_refl in Hne. discriminate.
Qed.

Lemma find_email_some (d : Database) (e : string) (p : Patient) :
  find_patient_by_email d e = Some p -> In p (patients d) /\ email p = e.
Proof.
  unfold find_patient_by_email. intros H. apply find_some in H.
  destruct H as [Hin Heq]. apply String.eqb_eq in Heq. split; assumption.
Qed.

Lemma insert_entity_fresh mk session row session' :
  insert_entity mk session = Ok (row, session') ->
  ~ In (e_consent_id row) (map e_consent_id (entity_index session)).
Proof.
  unfold insert_entity.
  destruct (first_unbindable _); [discriminate|].
  destruct (existsb _ _) eqn:E; [discriminate|].
  intros H. inversion H; subst; clear H. intros Hin.
  apply in_map_iff in Hin. destruct Hin as (x & Hx & Hin).
  assert (Htrue : existsb
            (fun e => Nat.eqb (e_consent_id e)
                              (e_consent_id (mk (next_id (map e_id (entity_index session))))))
            (entity_index session) = true).
  { apply existsb_exists. exists x. split; [exact Hin|]. apply Nat.eqb_eq. exact Hx. }
  rewrite Htrue in E. discriminate.
Qed.

(** Every row a successful run adds, with its keys. *)
Lemma store_rows env pdf_path ocr_text analysis w res w' :
  _store_consent_data env pdf_path ocr_text analysis w = (Ok res, w') ->
  exists e patient added consent entity,
    dict_get analysis "patient_email" = Some (JStr e)
    /\ db w' = mkDatabase (patients (db w) ++ added)
                          (consents (db w) ++ [consent])
                          (entity_index (db w) ++ [entity])
    /\ ((added = [] /\ find_patient_by_email (db w) (lower e) = Some patient)
        \/ (added = [patient]
            /\ id patient = next_id (map id (patients (db w)))
            /\ find_patient_by_email (db w) (lower e) = None))
    /\ email patient = lower e
    /\ c_id consent = next_id (map c_id (consents (db w)))
    /\ c_patient_id consent = id patient
    /\ c_filename consent = basename pdf_path
    /\ c_full_text consent = ocr_text
    /\ c_ai_analysis_json consent = JObj analysis
    /\ e_id entity = next_id (map e_id (entity_index (db w)))
    /\ e_consent_id entity = c_id consent
    /\ e_patient_id entity = id patient
    /\ ~ In (c_id consent) (map e_consent_id (entity_index (db w)))
    /\ r_patient_id res = id patient
    /\ r_consent_id res = c_id consent
    /\ r_patient_email res = lower e
    /\ r_filename res = basename pdf_path.
Proof.
  unfold _store_consent_data. intros H.
  ok_step H session w0 Hs.
  assert (Hsw : session = db w /\ w0 = w) by (inversion Hs; split; reflexivity).
  destruct Hsw as [-> ->]. clear Hs.
  apply try_except_inv in H. destruct H as [(a & H & Ha) | (ex & w2 & _ & H)];
    [|inversion H].
  inversion Ha; subst a; clear Ha.
  unfold store_try in H.
  ok_step H email_v w1 Hemail. apply lift_inv in Hemail. destruct Hemail as [Hemail _].
  apply dict_getitem_ok in Hemail.
  ok_step H lowered w2 Hlow. apply lift_inv in Hlow. destruct Hlow as [Hlow _].
  apply py_lower_ok in Hlow. destruct Hlow as (e & -> & ->).
  ok_step H name w3 Hname.
  ok_step H found w4 Hfound. destruct found as [[patient pw] session1].
  ok_step H now1 w5 Hnow1.
  ok_step H cs w6 Hcons. destruct cs as [consent session2].
  apply add_flush_ok, insert_consent_ok in Hcons. destruct Hcons as [Hconsent Hs2].
  ok_step H e_name w7 He1.
  ok_step H e_email w8 He2.
  ok_step H terms w9 Hterms.
  ok_step H now2 w10 Hnow2.
  ok_step H es w11 Hent. destruct es as [entity session3].
  apply add_flush_ok in Hent.
  pose proof (insert_entity_fresh _ _ _ _ Hent) as Hfresh.
  apply insert_entity_ok in Hent. destruct Hent as [Hentity Hs3].
  ok_step H u w12 Hcommit.
  apply commit_inv in Hcommit. destruct Hcommit as [(e' & He' & _) | (_ & Hdb)];
    [discriminate|].
  inversion H; subst res w'; clear H.
  assert (Hres : exists added,
             session1 = mkDatabase (patients (db w) ++ added) (consents (db w))
                                   (entity_index (db w))
             /\ email patient = lower e
             /\ ((added = [] /\ find_patient_by_email (db w) (lower e) = Some patient)
                 \/ (added = [patient]
                     /\ id patient = next_id (map id (patients (db w)))
                     /\ find_patient_by_email (db w) (lower e) = None))).
  { destruct (find_patient_by_email (db w) (lower e)) as [p|] eqn:Hfind.
    - inversion Hfound; subst. exists []. split; [|split].
      + rewrite app_nil_r. destruct (db w); reflexivity.
      + apply find_email_some in Hfind. tauto.
      + left. split; reflexivity.
    - unfold create_patient in Hfound.
      ok_step Hfound cred wa Hcred.
      ok_step Hfound salt wb Hsalt.
      ok_step Hfound now wc Hnow.
      ok_step Hfound rs wd Hins. destruct rs as [row s'].
      apply add_flush_ok in Hins. inversion Hfound; subst; clear Hfound.
      unfold insert_patient in Hins. simpl in Hins.
      destruct (is_none name); [discriminate|].
      destruct (negb (bindable name)); [discriminate|].
      rewrite Hfind in Hins. inversion Hins; subst; clear Hins.
      exists [mkPatient (next_id (map id (patients (db w)))) (lower e)
                        (Bcrypt salt cred) name (Some cred) now].
      simpl. split; [reflexivity|]. split; [reflexivity|].
      right. repeat split. }
  destruct Hres as (added & Hs1 & Hmail & Hadded).
  exists e, patient, added, consent, entity.
  rewrite Hs3, Hs2, Hs1 in Hdb. simpl in Hdb.
  rewrite Hs2, Hs1 in Hentity. simpl in Hentity.
  rewrite Hs2, Hs1 in Hfresh. simpl in Hfresh.
  rewrite Hs1 in Hconsent. simpl in Hconsent.
  assert (Hcid : c_id consent = next_id (map c_id (consents (db w))))
    by (rewrite Hconsent; reflexivity).
  rewrite Hentity in Hfresh. simpl in Hfresh.
  repeat split; try assumption; try (rewrite Hconsent; reflexivity);
    try (rewrite Hentity; reflexivity).
Qed.

(** ** What ingestion keeps *)

Section Ingestion.
Variable R : Database -> Database -> Prop.
Hypothesis R_refl : forall d, R d d.
Hypothesis R_trans : forall d1 d2 d3, R d1 d2 -> R d2 d3 -> R d1 d3.
Hypothesis R_store :
  forall env pdf_path ocr_text analysis,
    db_rel R (_store_consent_data env pdf_path ocr_text analysis).

Lemma db_rel_frame {A} (c : M A) : db_frame c -> db_rel R c.
Proof. intros H w r w' Hc. rewrite (H _ _ _ Hc). apply R_refl. Qed.

Lemma db_rel_bind {A B} (c : M A) (k : A -> M B) :
  db_rel R c -> (forall a, db_rel R (k a)) -> db_rel R (bind c k).
Proof.
  intros Hc Hk w r w' H.
  apply bind_inv in H. destruct H as [(e & H & _) | (a & w1 & Ha & H)].
  - exact (Hc _ _ _ H).
  - exact (R_trans _ _ _ (Hc _ _ _ Ha) (Hk a _ _ _ H)).
Qed.

Lemma db_rel_try_except {A} (c : M A) (h : Exn -> M A) :
  db_rel R c -> (forall e, db_rel R (h e)) -> db_rel R (try_except c h).
Proof.
  intros Hc Hh w r w' H.
  apply try_except_inv in H. destruct H as [(a & H & _) | (e & w1 & He & H)].
  - exact (Hc _ _ _ H).
  - exact (R_trans _ _ _ (Hc _ _ _ He) (Hh e _ _ _ H)).
Qed.

Lemma db_rel_process_pdf env ocr_engine pdf_path :
  db_rel R (process_pdf env ocr_engine pdf_path).
Proof.
  unfold process_pdf. apply db_rel_try_except.
  - apply db_rel_bind; [apply db_rel_frame, db_frame_extract|]. intros text.
    apply db_rel_bind; [apply db_rel_frame, db_frame_analyze|]. intros analysis.
    apply R_store.
  - intros e. apply db_rel_frame. frame.
Qed.

Lemma db_rel_process_files env ocr_engine directory_path pdf_files :
  forall results, db_rel R (process_files env ocr_engine directory_path pdf_files results).
Proof.
  induction pdf_files as [|f rest IH]; intros results.
  - apply db_rel_frame. simpl. frame.
  - cbn [process_files]. apply db_rel_bind; [|intros results'; apply IH].
    apply db_rel_try_except.
    + apply db_rel_bind; [apply db_rel_process_pdf|].
      intros res. apply db_rel_frame. frame.
    + intros e. apply db_rel_frame. frame.
Qed.

Lemma db_frame_print_all (lines : list string) : db_frame (print_all lines).
Proof. induction lines as [|l rest IH]; simpl; frame. Qed.

Lemma db_rel_process_directory env ocr_engine directory_path :
  db_rel R (process_directory env ocr_engine directory_path).
Proof.
  unfold process_directory.
  destruct (negb (isdir env directory_path)); [apply db_rel_frame; frame|].
  destruct (pdf_files_of env directory_path) as [|f rest] eqn:Hfiles;
    [apply db_rel_frame; frame|].
  apply db_rel_bind; [apply db_rel_frame; frame|]. intros _.
  apply db_rel_bind; [apply db_rel_process_files|]. intros results.
  pose proof db_frame_print_all.
  apply db_rel_frame. frame.
Qed.

End Ingestion.

Lemma extends_refl (d : Database) : extends d d.
Proof. repeat split; exists []; symmetry; apply app_nil_r. Qed.

Lemma extends_trans (d1 d2 d3 : Database) :
  extends d1 d2 -> extends d2 d3 -> extends d1 d3.
Proof.
  intros ((ps & Hp) & (cs & Hc) & (es & He)) ((ps' & Hp') & (cs' & Hc') & (es' & He')).
  repeat split.
  - exists (ps ++ ps')%list. rewrite Hp', Hp, app_assoc. reflexivity.
  - exists (cs ++ cs')%list. rewrite Hc', Hc, app_assoc. reflexivity.
  - exists (es ++ es')%list. rewrite He', He, app_assoc. reflexivity.
Qed.

Lemma store_extends env pdf_path ocr_text analysis :
  db_rel extends (_store_consent_data env pdf_path ocr_text analysis).
Proof.
  intros w r w' H. destruct r as [res|e].
  - apply store_rows in H.
    destruct H as (e & patient & added & consent & entity & _ & Hdb & _).
    rewrite Hdb. repeat split; eexists; reflexivity.
  - rewrite (db_atomic_store _ _ _ _ _ _ _ H). apply extends_refl.
Qed.

Lemma NoDup_snoc {A} (l : list A) (x : A) :
  NoDup l -> ~ In x l -> NoDup (l ++ [x]).
Proof.
  intros Hl Hx. induction Hl as [|y l Hy Hl IH]; simpl.
  - constructor; [tauto | constructor].
  - constructor.
    + intros Hin. apply in_app_or in Hin. destruct Hin as [Hin | [-> | []]].
      * contradiction.
      * apply Hx. left. reflexivity.
    + apply IH. intros Hin. apply Hx. right. exact Hin.
Qed.

Lemma store_keeps_well_formed env pdf_path ocr_text analysis :
  db_rel (fun d d' => well_formed d -> well_formed d')
         (_store_consent_data env pdf_path ocr_text analysis).
Proof.
  intros w r w' H Hwf. destruct r as [res|ex].
  2: { rewrite (db_atomic_store _ _ _ _ _ _ _ H). exact Hwf. }
  apply store_rows in H.
  destruct H as (e & patient & added & consent & entity & _ & Hdb & Hadded & Hmail
                 & Hcid & Hcp & _ & _ & _ & Heid & Hec & Hep & Hfresh & _).
  destruct Hwf as [Wemails Wpids Wcids Weids Wecs Wowner Wec Windexed].
  assert (Hpat : In (id patient) (map id (patients (db w) ++ added))).
  { rewrite map_app. apply in_or_app.
    destruct Hadded as [[-> Hfind] | [-> _]].
    - left. apply find_email_some in Hfind. apply in_map. tauto.
    - right. left. reflexivity. }
  rewrite Hdb. constructor; simpl.
  - destruct Hadded as [[-> _] | (-> & _ & Hnone)].
    + rewrite app_nil_r. exact Wemails.
    + rewrite map_app. simpl. apply NoDup_snoc; [exact Wemails|].
      rewrite Hmail. apply find_email_none. exact Hnone.
  - destruct Hadded as [[-> _] | (-> & Hid & _)].
    + rewrite app_nil_r. exact Wpids.
    + rewrite map_app. simpl. apply NoDup_snoc; [exact Wpids|].
      rewrite Hid. apply next_id_fresh.
  - rewrite map_app. simpl. apply NoDup_snoc; [exact Wcids|].
    rewrite Hcid. apply next_id_fresh.
  - rewrite map_app. simpl. apply NoDup_snoc; [exact Weids|].
    rewrite Heid. apply next_id_fresh.
  - rewrite map_app. simpl. apply NoDup_snoc; [exact Wecs|].
    rewrite Hec. exact Hfresh.
  - intros c Hc. apply in_app_or in Hc. destruct Hc as [Hc | [<- | []]].
    + rewrite map_app. apply in_or_app. left. exact (Wowner c Hc).
    + rewrite Hcp. exact Hpat.
  - intros x Hx. apply in_app_or in Hx. destruct Hx as [Hx | [<- | []]].
    + destruct (Wec x Hx) as (c & Hc & Hid & Hown).
      exists c. split; [apply in_or_app; left; exact Hc | tauto].
    + exists consent. split; [apply in_or_app; right; left; reflexivity|].
      split; [symmetry; exact Hec | congruence].
  - intros c Hc. apply in_app_or in Hc. destruct Hc as [Hc | [<- | []]].
    + destruct (Windexed c Hc) as (x & Hx & Hid).
      exists x. split; [apply in_or_app; left; exact Hx | exact Hid].
    + exists entity. split; [apply in_or_app; right; left; reflexivity | exact Hec].
Qed.

(** X11: the script never deletes or rewrites a stored row: whatever a
    document or a whole directory does, fail or succeed, the three tables
    afterwards begin with the tables before. *)
Theorem ingestion_only_appends env ocr_engine :
  (forall pdf_path, db_rel extends (process_pdf env ocr_engine pdf_path))
  /\ (forall directory_path,
        db_rel extends (process_directory env ocr_engine directory_path)).
Proof.
  split; intros path.
  - apply (db_rel_process_pdf extends extends_refl extends_trans store_extends).
  - apply (db_rel_process_directory extends extends_refl extends_trans store_extends).
Qed.

(** X12: the script keeps the store well formed: emails and ids stay keys,
    every consent keeps an owner and exactly one index row, and every index
    row points at the patient of its consent; this holds after one document
    and after a whole directory, failures included. *)
Theorem ingestion_keeps_well_formed env ocr_engine (w : World) :
  well_formed (db w) ->
  (forall pdf_path r w',
      process_pdf env ocr_engine pdf_path w = (r, w') -> well_formed (db w'))
  /\ (forall directory_path r w',
        process_directory env ocr_engine directory_path w = (r, w') ->
        well_formed (db w')).
Proof.
  intros Hwf.
  pose (R := fun d d' : Database => well_formed d -> well_formed d').
  assert (Hrefl : forall d, R d d) by (intros d H; exact H).
  assert (Htrans : forall d1 d2 d3, R d1 d2 -> R d2 d3 -> R d1 d3)
    by (intros d1 d2 d3 H12 H23 H; exact (H23 (H12 H))).
  split.
  - intros pdf_path r w' H.
    exact (db_rel_process_pdf R Hrefl Htrans store_keeps_well_formed
             env ocr_engine pdf_path w r w' H Hwf).
  - intros directory_path r w' H.
    exact (db_rel_process_directory R Hrefl Htrans store_keeps_well_formed
             env ocr_engine directory_path w r w' H Hwf).
Qed.

Lemma empty_db_well_formed : well_formed empty_db.
Proof.
  constructor; simpl; try constructor; intros x [].
Qed.

Lemma ingestion_keeps_well_formed_witness :
  well_formed (db Fixtures.w0)
  /\ well_formed
       (db (snd (process_directory Fixtures.env_ok "auto" "forms" Fixtures.w0))).
Proof.
  split; [exact empty_db_well_formed|].
  apply (proj2 (ingestion_keeps_well_formed Fixtures.env_ok "auto" Fixtures.w0
                  empty_db_well_formed)
           "forms" (fst (process_directory Fixtures.env_ok "auto" "forms" Fixtures.w0))).
  apply surjective_pairing.
Defined.

(** ** When storing succeeds *)

Lemma bind_intro {A B} (c : M A) (k : A -> M B) (w w1 w2 : World) (a : A) (b : B) :
  c w = (Ok a, w1) -> k a w1 = (Ok b, w2) -> bind c k w = (Ok b, w2).
Proof. intros Hc Hk. unfold bind. rewrite Hc. exact Hk. Qed.

Lemma dict_getitem_some (d : Dict) (key : string) (v : JValue) :
  dict_get d key = Some v -> dict_getitem d key = Ok v.
Proof. intros H. unfold dict_getitem. rewrite H. reflexivity. Qed.

Lemma add_flush_run {Row} (env : Env) (ins : Database -> result (Row * Database))
    (session : Database) (w : World) (x : Row * Database) :
  no_faults env -> ins session = Ok x ->
  exists w1, add_flush env ins session w = (Ok x, w1).
Proof.
  intros Hnf Hins. unfold add_flush, store_op, bind, draw, lift, ret. simpl.
  rewrite Hnf, Hins. eexists. reflexivity.
Qed.

Lemma commit_run (env : Env) (session : Database) (w : World) :
  no_faults env -> exists w1, commit env session w = (Ok tt, w1).
Proof.
  intros Hnf. unfold commit, store_op, bind, draw, set_db, ret. simpl.
  rewrite Hnf. eexists. reflexivity.
Qed.

Lemma lowered_term_ok (analysis : Dict) (key : string) :
  text_or_null (dict_get_none analysis key) = true ->
  exists terms, lowered_term analysis key = Ok terms.
Proof.
  unfold lowered_term, dict_get_none, dict_get_default, dict_getitem.
  destruct (dict_get analysis key) as [v|]; [|eexists; reflexivity].
  destruct v; try discriminate; intros _.
  - eexists. reflexivity.
  - simpl. destruct (negb (String.eqb s "")); eexists; reflexivity.
Qed.

Lemma search_terms_ok (env : Env) (analysis : Dict) (e name : string) :
  dict_get analysis "patient_email" = Some (JStr e) ->
  dict_get analysis "patient_name" = Some (JStr name) ->
  text_or_null (dict_get_none analysis "procedure") = true ->
  text_or_null (dict_get_none analysis "doctor_name") = true ->
  exists terms, _generate_search_terms env analysis = Ok terms.
Proof.
  intros He Hn Hp Hd. unfold _generate_search_terms.
  assert (H1 : exists t, (if truthy (dict_get_none analysis "patient_name")
                          then rbind (dict_getitem analysis "patient_name") (fun v =>
                               rbind (py_lower v) (fun t => Ok (t :: split t)))
                          else Ok []) = Ok t).
  { unfold dict_get_none, dict_get_default, dict_getitem. rewrite Hn. simpl.
    destruct (negb (String.eqb name "")); eexists; reflexivity. }
  destruct H1 as [t1 ->].
  assert (H2 : text_or_null (dict_get_none analysis "patient_email") = true).
  { unfold dict_get_none, dict_get_default. rewrite He. reflexivity. }
  destruct (lowered_term_ok analysis "patient_email" H2) as [t2 ->].
  destruct (lowered_term_ok analysis "procedure" Hp) as [t3 ->].
  destruct (lowered_term_ok analysis "doctor_name" Hd) as [t4 ->].
  eexists. reflexivity.
Qed.

Lemma text_or_null_bindable (v : JValue) : text_or_null v = true -> bindable v = true.
Proof. destruct v; simpl; intros H; try discriminate; reflexivity. Qed.

(** In a well-formed store the next consent id is not yet indexed. *)
Lemma next_consent_unindexed (d : Database) :
  well_formed d ->
  existsb (fun x => Nat.eqb (e_consent_id x) (next_id (map c_id (consents d))))
          (entity_index d) = false.
Proof.
  intros Hwf. destruct (existsb _ _) eqn:E; [|reflexivity].
  apply existsb_exists in E. destruct E as (x & Hx & Heq).
  apply Nat.eqb_eq in Heq.
  destruct (wf_entity_consent d Hwf x Hx) as (c & Hc & Hid & _).
  pose proof (next_id_bound (map c_id (consents d)) (c_id c) (in_map c_id _ _ Hc)).
  lia.
Qed.

Lemma create_patient_run (env : Env) (session : Database) (e name : string) (w : World) :
  no_faults env -> split name <> [] ->
  find_patient_by_email session e = None ->
  exists row pw w1,
    create_patient env session e (JStr name) w
    = (Ok (row, pw,
           mkDatabase (patients session ++ [row]) (consents session)
                      (entity_index session)), w1)
    /\ id row = next_id (map id (patients session)).
Proof.
  intros Hnf Hsplit Hfind. unfold create_patient, derive_default_password.
  simpl. destruct (split name) as [|tok rest]; [contradiction|]. simpl.
  unfold bind, lift, draw, add_flush, store_op, bind, draw, lift, ret. simpl.
  rewrite Hnf. unfold insert_patient. simpl. rewrite Hfind.
  eexists. eexists. eexists. split; reflexivity.
Qed.

Lemma bind_ex {A B} (c : M A) (k : A -> M B) (w w1 : World) (a : A) :
  c w = (Ok a, w1) ->
  (exists b w2, k a w1 = (Ok b, w2)) ->
  exists b w2, bind c k w = (Ok b, w2).
Proof.
  intros Hc (b & w2 & Hk). exists b, w2. unfold bind. rewrite Hc. exact Hk.
Qed.

Lemma store_try_run env pdf_path ocr_text analysis (w : World) (e name : string) :
  no_faults env ->
  well_formed (db w) ->
  dict_get analysis "patient_email" = Some (JStr e) ->
  dict_get analysis "patient_name" = Some (JStr name) ->
  split name <> [] ->
  text_or_null (dict_get_none analysis "procedure") = true ->
  text_or_null (dict_get_none analysis "doctor_name") = true ->
  bindable (dict_get_none analysis "patient_dob") = true ->
  bindable (dict_get_none analysis "procedure_date") = true ->
  bindable (dict_get_none analysis "summary") = true ->
  exists res w', store_try env (db w) pdf_path ocr_text analysis w = (Ok res, w').
Proof.
  intros Hnf Hwf He Hn Hsplit Hproc Hdoc Hdob Hdate Hsum.
  unfold store_try.
  assert (Hfound : exists patient pw added w1,
             match find_patient_by_email (db w) (lower e) with
             | None => create_patient env (db w) (lower e) (JStr name)
             | Some patient => ret (patient, default_password patient, db w)
             end w
             = (Ok (patient, pw,
                    mkDatabase (patients (db w) ++ added) (consents (db w))
                               (entity_index (db w))), w1)).
  { destruct (find_patient_by_email (db w) (lower e)) as [p|] eqn:Hfind.
    - exists p, (default_password p), [], w. unfold ret.
      rewrite app_nil_r. destruct (db w); reflexivity.
    - destruct (create_patient_run env (db w) (lower e) name w Hnf Hsplit Hfind)
        as (row & pw & w1 & Hrun & _).
      exists row, pw, [row], w1. exact Hrun. }
  destruct Hfound as (patient & pw & added & w1 & Hfound).
  set (session1 := mkDatabase (patients (db w) ++ added) (consents (db w))
                              (entity_index (db w))) in *.
  destruct (search_terms_ok env analysis e name He Hn Hproc Hdoc) as [terms Hterms].
  eapply bind_ex; [unfold lift; rewrite (dict_getitem_some _ _ _ He); reflexivity|].
  eapply bind_ex; [reflexivity|].
  eapply bind_ex; [unfold lift; rewrite (dict_getitem_some _ _ _ Hn); reflexivity|].
  eapply bind_ex; [exact Hfound|]. cbv beta iota.
  eapply bind_ex; [reflexivity|].
  match goal with
  | |- context [bind (add_flush env ?ins ?s) _ ?w0] =>
      destruct (add_flush_run env ins s w0 _ Hnf eq_refl) as [w2 Hc]
  end.
  eapply bind_ex; [exact Hc|]. cbv beta iota.
  eapply bind_ex; [unfold lift; rewrite (dict_getitem_some _ _ _ Hn); reflexivity|].
  eapply bind_ex; [unfold lift; rewrite (dict_getitem_some _ _ _ He); reflexivity|].
  eapply bind_ex; [unfold lift; rewrite Hterms; reflexivity|].
  eapply bind_ex; [reflexivity|].
  match goal with
  | |- context [bind (add_flush env (insert_entity ?mk) ?s) _ ?w0] =>
      assert (Hins : exists row,
                 insert_entity mk s
                 = Ok (row, mkDatabase (patients s) (consents s)
                                       (entity_index s ++ [row])));
      [| destruct Hins as [row Hins];
         destruct (add_flush_run env (insert_entity mk) s w0 _ Hnf Hins) as [w3 Hx]]
  end.
  { unfold insert_entity. cbn [e_patient_name e_patient_email e_patient_dob
                               e_doctor_name e_procedure e_procedure_date e_summary
                               e_consent_id].
    unfold first_unbindable. cbn [find bindable negb].
    rewrite Hdob, (text_or_null_bindable _ Hdoc), (text_or_null_bindable _ Hproc),
      Hdate, Hsum.
    cbn [negb find].
    cbn [entity_index consents insert_consent c_id session1 app].
    pose proof (next_consent_unindexed (db w) Hwf) as Hfresh.
    cbn [map] in *. rewrite Hfresh. eexists. reflexivity. }
  eapply bind_ex; [exact Hx|]. cbv beta iota.
  match goal with
  | |- context [bind (commit env ?s) _ ?w0] =>
      destruct (commit_run env s w0 Hnf) as [w4 Hcommit]
  end.
  eapply bind_ex; [exact Hcommit|].
  eexists. eexists. reflexivity.
Qed.

Lemma split_aux_started (cur s : string) :
  cur <> EmptyString -> split_aux cur s <> [].
Proof.
  revert cur. induction s as [|c s IH]; intros cur Hcur.
  - destruct cur; [contradiction | discriminate].
  - cbn [split_aux]. destruct (is_space c).
    + destruct cur; [contradiction | discriminate].
    + apply IH. discriminate.
Qed.

Lemma split_not_blank (s : string) : blank s = false -> split s <> [].
Proof.
  unfold split, blank. induction s as [|c s IH]; [discriminate|].
  cbn [all_chars split_aux]. destruct (is_space c); simpl.
  - exact IH.
  - intros _. apply split_aux_started. discriminate.
Qed.

Lemma find_append {A} (f : A -> bool) (l l' : list A) :
  find f (l ++ l') = match find f l with Some x => Some x | None => find f l' end.
Proof.
  induction l as [|x l IH]; simpl; [reflexivity|].
  destruct (f x); [reflexivity | exact IH].
Qed.

Lemma store_run env pdf_path ocr_text analysis (w : World) (e name : string) :
  no_faults env ->
  well_formed (db w) ->
  dict_get analysis "patient_email" = Some (JStr e) ->
  dict_get analysis "patient_name" = Some (JStr name) ->
  blank name = false ->
  text_or_null (dict_get_none analysis "procedure") = true ->
  text_or_null (dict_get_none analysis "doctor_name") = true ->
  bindable (dict_get_none analysis "patient_dob") = true ->
  bindable (dict_get_none analysis "procedure_date") = true ->
  bindable (dict_get_none analysis "summary") = true ->
  exists res w',
    _store_consent_data env pdf_path ocr_text analysis w = (Ok res, w').
Proof.
  intros Hnf Hwf He Hn Hname Hproc Hdoc Hdob Hdate Hsum.
  destruct (store_try_run env pdf_path ocr_text analysis w e name Hnf Hwf He Hn
              (split_not_blank name Hname) Hproc Hdoc Hdob Hdate Hsum)
    as (res & w' & Hrun).
  exists res, w'. unfold _store_consent_data, bind, get_session, try_except.
  rewrite Hrun. reflexivity.
Qed.

(** X13: storing cannot fail on a well-formed store whose engine does not
    fail, when the record has a string email, a name with a character that
    is not white space, a procedure and a doctor that are strings or null,
    and dates and summary that the driver binds (no list, no object, no
    integer beyond 64 bits): the document is stored, its consent and its
    index row tied to the patient of the lower-cased email. *)
Theorem store_succeeds env pdf_path ocr_text analysis (w : World) (e name : string) :
  no_faults env ->
  well_formed (db w) ->
  dict_get analysis "patient_email" = Some (JStr e) ->
  dict_get analysis "patient_name" = Some (JStr name) ->
  blank name = false ->
  text_or_null (dict_get_none analysis "procedure") = true ->
  text_or_null (dict_get_none analysis "doctor_name") = true ->
  bindable (dict_get_none analysis "patient_dob") = true ->
  bindable (dict_get_none analysis "procedure_date") = true ->
  bindable (dict_get_none analysis "summary") = true ->
  exists res w' patient,
    _store_consent_data env pdf_path ocr_text analysis w = (Ok res, w')
    /\ find_patient_by_email (db w') (lower e) = Some patient
    /\ r_patient_id res = id patient
    /\ r_patient_email res = lower e
    /\ In (r_consent_id res) (map c_id (consents (db w')))
    /\ In (r_consent_id res) (map e_consent_id (entity_index (db w'))).
Proof.
  intros Hnf Hwf He Hn Hname Hproc Hdoc Hdob Hdate Hsum.
  destruct (store_run env pdf_path ocr_text analysis w e name Hnf Hwf He Hn Hname
              Hproc Hdoc Hdob Hdate Hsum) as (res & w' & Hrun).
  pose proof (store_rows _ _ _ _ _ _ _ Hrun) as Hrows.
  destruct Hrows as (e' & patient & added & consent & entity & He' & Hdb & Hadded
                     & Hmail & _ & _ & _ & _ & _ & _ & Hec & _ & _ & Hrp & Hrc & Hre & _).
  rewrite He in He'. inversion He'; subst e'; clear He'.
  exists res, w', patient. split; [exact Hrun|].
  rewrite Hdb. unfold find_patient_by_email. simpl.
  repeat split; try assumption.
  - rewrite find_append.
    destruct Hadded as [[-> Hfind] | (-> & _ & Hnone)].
    + unfold find_patient_by_email in Hfind. rewrite Hfind. reflexivity.
    + unfold find_patient_by_email in Hnone. rewrite Hnone. simpl.
      rewrite Hmail, String.eqb_refl. reflexivity.
  - rewrite Hrc, map_app. apply in_or_app. right. left. reflexivity.
  - rewrite Hrc, map_app. apply in_or_app. right. left. exact Hec.
Qed.

Lemma store_succeeds_witness :
  (no_faults Fixtures.env_ok /\ well_formed (db Fixtures.w0)
   /\ blank "Maria Garcia" = false)
  /\ exists res w' patient,
       _store_consent_data Fixtures.env_ok "forms/a.pdf" Fixtures.form_text
                           Fixtures.maria Fixtures.w0 = (Ok res, w')
       /\ find_patient_by_email (db w') (lower "Maria.Garcia@Example.com") = Some patient
       /\ r_patient_id res = id patient
       /\ r_patient_email res = lower "Maria.Garcia@Example.com"
       /\ In (r_consent_id res) (map c_id (consents (db w')))
       /\ In (r_consent_id res) (map e_consent_id (entity_index (db w'))).
Proof.
  split.
  - split; [intros n; reflexivity|]. split; [exact empty_db_well_formed | reflexivity].
  - apply (store_succeeds Fixtures.env_ok "forms/a.pdf" Fixtures.form_text
             Fixtures.maria Fixtures.w0 "Maria.Garcia@Example.com" "Maria Garcia");
      try reflexivity.
    + intros n. reflexivity.
    + exact empty_db_well_formed.
Defined.

(** X14: two documents whose emails agree up to letter case end, when both
    are stored, on one and the same patient: the second run adds no patient
    row and answers with the id of the first; each run adds its own consent
    and its own index row, both owned by that patient. *)
Theorem two_documents_one_patient
    env path1 text1 analysis1 path2 text2 analysis2
    (w w1 w2 : World) (res1 res2 : StoreResult) (e1 e2 : string) :
  dict_get analysis1 "patient_email" = Some (JStr e1) ->
  dict_get analysis2 "patient_email" = Some (JStr e2) ->
  lower e1 = lower e2 ->
  _store_consent_data env path1 text1 analysis1 w = (Ok res1, w1) ->
  _store_consent_data env path2 text2 analysis2 w1 = (Ok res2, w2) ->
  r_patient_id res2 = r_patient_id res1
  /\ patients (db w2) = patients (db w1)
  /\ exists c1 c2 x1 x2,
       consents (db w2) = (consents (db w) ++ [c1; c2])%list
       /\ entity_index (db w2) = (entity_index (db w) ++ [x1; x2])%list
       /\ c_patient_id c1 = r_patient_id res1
       /\ c_patient_id c2 = r_patient_id res1
       /\ e_consent_id x1 = c_id c1 /\ e_patient_id x1 = r_patient_id res1
       /\ e_consent_id x2 = c_id c2 /\ e_patient_id x2 = r_patient_id res1
       /\ c_id c1 <> c_id c2.
Proof.
  intros He1 He2 Hsame H1 H2.
  apply store_rows in H1.
  destruct H1 as (e1' & p1 & added1 & c1 & x1 & He1' & Hdb1 & Hadded1 & Hmail1
                  & Hcid1 & Hcp1 & _ & _ & _ & _ & Hec1 & Hep1 & _ & Hrp1 & _).
  rewrite He1 in He1'. inversion He1'; subst e1'; clear He1'.
  assert (Hfind1 : find_patient_by_email (db w1) (lower e1) = Some p1).
  { rewrite Hdb1. unfold find_patient_by_email. simpl. rewrite find_append.
    destruct Hadded1 as [[-> Hfind] | (-> & _ & Hnone)].
    - unfold find_patient_by_email in Hfind. rewrite Hfind. reflexivity.
    - unfold find_patient_by_email in Hnone. rewrite Hnone. simpl.
      rewrite Hmail1, String.eqb_refl. reflexivity. }
  apply store_rows in H2.
  destruct H2 as (e2' & p2 & added2 & c2 & x2 & He2' & Hdb2 & Hadded2 & _
                  & Hcid2 & Hcp2 & _ & _ & _ & _ & Hec2 & Hep2 & _ & Hrp2 & _).
  rewrite He2 in He2'. inversion He2'; subst e2'; clear He2'.
  rewrite <- Hsame in Hadded2.
  destruct Hadded2 as [[-> Hfind2] | (_ & _ & Hnone)];
    [|rewrite Hfind1 in Hnone; discriminate].
  rewrite Hfind1 in Hfind2. inversion Hfind2; subst p2; clear Hfind2.
  assert (Hlt : c_id c1 < c_id c2).
  { rewrite Hcid2. apply next_id_bound. rewrite Hdb1. simpl.
    rewrite map_app. apply in_or_app. right. left. reflexivity. }
  split; [congruence|]. split.
  - rewrite Hdb2. simpl. apply app_nil_r.
  - exists c1, c2, x1, x2. rewrite Hdb2, Hdb1. simpl.
    rewrite <- !app_assoc. simpl.
    repeat split; try congruence. lia.
Qed.

Lemma two_documents_one_patient_witness :
  exists w2 res2,
    _store_consent_data Fixtures.env_ok "forms/c.pdf" Fixtures.form_text
                        (dict_set Fixtures.maria "patient_email"
                                  (JStr "MARIA.GARCIA@EXAMPLE.COM"))
                        Fixtures.w_maria = (Ok res2, w2)
    /\ r_patient_id res2 = 1
    /\ patients (db w2) = patients (db Fixtures.w_maria).
Proof.
  eexists. eexists. split; [reflexivity|].
  destruct (two_documents_one_patient Fixtures.env_ok
              "forms/a.pdf" Fixtures.form_text Fixtures.maria
              "forms/c.pdf" Fixtures.form_text
              (dict_set Fixtures.maria "patient_email" (JStr "MARIA.GARCIA@EXAMPLE.COM"))
              Fixtures.w0 Fixtures.w_maria _ _ _
              "Maria.Garcia@Example.com" "MARIA.GARCIA@EXAMPLE.COM"
              eq_refl eq_refl eq_refl eq_refl eq_refl) as (Hid & Hpat & _).
  split; [exact Hid | exact Hpat].
Defined.

(** X15: when the model cannot be reached (any failure of the call but a
    [JSONDecodeError]), a readable document is still stored: under the
    default record, that is for the patient "unknown@example.com", created
    with the password "unknown123!" if not there yet.  Every such document
    lands in that one account. *)
Theorem unanalysed_document_stored_as_unknown
    env ocr_engine pdf_path (w w1 : World) (text : string) (ex : Exn) :
  no_faults env ->
  well_formed (db w) ->
  extract_text_from_pdf env ocr_engine pdf_path w = (Ok text, w1) ->
  chat env (draws w1) (analysis_prompt text) = Raise ex ->
  exn_class ex <> JSONDecodeError ->
  exists res w',
    process_pdf env ocr_engine pdf_path w = (Ok res, w')
    /\ r_patient_email res = "unknown@example.com"
    /\ (find_patient_by_email (db w) "unknown@example.com" = None ->
        r_default_password res = Some "unknown123!")
    /\ exists c, In c (consents (db w'))
                 /\ c_id c = r_consent_id res
                 /\ c_full_text c = text
                 /\ c_ai_analysis_json c = JObj _get_default_analysis.
Proof.
  intros Hnf Hwf Hext Hchat Hclass.
  pose proof (db_frame_extract _ _ _ _ _ _ Hext) as Hdb1.
  destruct (analyze_consent_form env text w1) as [ra w2] eqn:Han.
  pose proof (db_frame_analyze _ _ _ _ _ Han) as Hdb2.
  pose proof (proj1 (analyze_degrades_to_defaults env text w1) ex Hchat Hclass) as Hra.
  rewrite Han in Hra. simpl in Hra. subst ra.
  assert (Hwf2 : well_formed (db w2)) by (rewrite Hdb2, Hdb1; exact Hwf).
  destruct (store_run env pdf_path text _get_default_analysis w2
              "unknown@example.com" "Unknown" Hnf Hwf2
              eq_refl eq_refl eq_refl eq_refl eq_refl eq_refl eq_refl eq_refl)
    as (res & w' & Hstore).
  exists res, w'. split.
  { unfold process_pdf, try_except, bind. rewrite Hext, Han, Hstore. reflexivity. }
  pose proof (store_ok _ _ _ _ _ _ _ Hstore) as Hstored.
  pose proof (store_rows _ _ _ _ _ _ _ Hstore) as Hrows.
  destruct Hrows as (e & patient & added & consent & entity & He & Hdb & _ & _
                     & _ & _ & _ & Htext & Hjson & _ & _ & _ & _ & _ & Hrc & Hre & _).
  simpl in He. inversion He; subst e; clear He.
  split; [exact Hre|]. split.
  - intros Hnew.
    destruct Hstored as [e' p' added' c' x' He' _ Hres _ _ _ _ _ _].
    simpl in He'. inversion He'; subst e'; clear He'.
    destruct Hres as [Hfind _ | name cred salt _ Hname Hd _ _ Hr _].
    + rewrite Hdb2, Hdb1 in Hfind.
      change (lower "unknown@example.com") with "unknown@example.com" in Hfind.
      rewrite Hnew in Hfind. discriminate.
    + simpl in Hname. inversion Hname; subst name.
      inversion Hd; subst cred. exact Hr.
  - exists consent. rewrite Hdb. simpl.
    split; [apply in_or_app; right; left; reflexivity|].
    repeat split; congruence.
Qed.

Lemma unanalysed_document_stored_as_unknown_witness :
  (no_faults Samples.env_model_down /\ well_formed (db Fixtures.w0))
  /\ exists res w',
       process_pdf Samples.env_model_down "auto" "forms/a.pdf" Fixtures.w0 = (Ok res, w')
       /\ r_patient_email res = "unknown@example.com"
       /\ (find_patient_by_email (db Fixtures.w0) "unknown@example.com" = None ->
           r_default_password res = Some "unknown123!")
       /\ exists c, In c (consents (db w'))
                    /\ c_id c = r_consent_id res
                    /\ c_full_text c = page_marker 1 ++ Fixtures.form_text
                    /\ c_ai_analysis_json c = JObj _get_default_analysis.
Proof.
  split; [split; [intros n; reflexivity | exact empty_db_well_formed]|].
  apply (unanalysed_document_stored_as_unknown Samples.env_model_down "auto"
           "forms/a.pdf" Fixtures.w0
           (after_calls Fixtures.w0 [CallPdfplumber "forms/a.pdf"])
           (page_marker 1 ++ Fixtures.form_text)
           (mkExn PlainException "Connection refused"));
    try reflexivity.
  - intros n. reflexivity.
  - exact empty_db_well_formed.
  - discriminate.
Defined.

(** ** The upload route *)

Lemma commit_db (env : Env) (session : Database) (w : World) r w' :
  commit env session w = (r, w') ->
  (exists e, r = Raise e /\ db w' = db w) \/ (r = Ok tt /\ db w' = session).
Proof. apply commit_inv. Qed.

(** The [try] block of the upload route, by its outcome. *)
Lemma upload_body_outcomes (env : Env) (patient_id : nat) (filename file_path : string)
    (w : World) r w' :
  (text <- extract_text_from_pdf env "auto" file_path ;;
   if String.eqb text "" || (String.length text <? 50)%nat then
     ret (mkResponse [("error", JStr "Could not extract text from PDF")] 400)
   else
     analysis <- analyze_consent_form env text ;;
     db_session <- get_session ;;
     let patient := find_patient_by_id db_session patient_id in
     now <- draw (utcnow env) ;;
     '(consent, db_session) <-
        add_flush env
          (insert_consent (fun i => mkConsent i patient_id filename text
                                              (JObj analysis) now))
          db_session ;;
     commit env db_session ;;;
     patient <-
       match patient with
       | Some p => ret p
       | None => raise (no_attribute JNull "patient_name")
       end ;;
     items <- lift (py_join " " (dict_get_default analysis "consented_items" (JArr []))) ;;
     let search_terms :=
       lower (join " " [ py_str (dict_get_default analysis "patient_name" (JStr ""));
                         py_str (dict_get_default analysis "doctor_name" (JStr ""));
                         py_str (dict_get_default analysis "procedure" (JStr ""));
                         items ]) in
     now <- draw (utcnow env) ;;
     '(entity, db_session) <-
        add_flush env
          (insert_entity (fun i =>
             mkEntityIndex i (c_id consent) patient_id
               (dict_get_default analysis "patient_name" (patient_name patient))
               (dict_get_default analysis "patient_email" (JStr (email patient)))
               (dict_get_none analysis "patient_dob")
               (dict_get_none analysis "doctor_name")
               (dict_get_none analysis "procedure")
               (dict_get_none analysis "procedure_date")
               (dict_get_default analysis "consented_items" (JArr []))
               (dict_get_default analysis "declined_items" (JArr []))
               (dict_get_default analysis "summary" (JStr ""))
               search_terms now))
          db_session ;;
     commit env db_session ;;;
     ret (mkResponse [("success", JBool true);
                      ("message", JStr "Consent form processed successfully");
                      ("analysis", JObj analysis)] 200)) w = (r, w') ->
  match r with
  | Ok resp =>
      (status resp = 400 /\ db w' = db w)
      \/ (status resp = 200
          /\ exists c x,
               db w' = with_indexed_consent (db w) c x
               /\ c_patient_id c = patient_id /\ c_filename c = filename
               /\ e_patient_id x = patient_id /\ e_consent_id x = c_id c)
  | Raise _ =>
      db w' = db w
      \/ exists c, db w' = with_consent (db w) c
                   /\ c_patient_id c = patient_id /\ c_filename c = filename
  end.
Proof.
  intros H.
  apply bind_inv in H. destruct H as [(e & H & ->) | (text & w1 & Htext & H)].
  { left. exact (db_frame_extract _ _ _ _ _ _ H). }
  apply db_frame_extract in Htext.
  destruct (String.eqb text "" || (String.length text <? 50)%nat).
  { inversion H; subst. left. split; [reflexivity | exact Htext]. }
  apply bind_inv in H. destruct H as [(e & H & ->) | (analysis & w2 & Han & H)].
  { left. rewrite <- Htext. exact (db_frame_analyze _ _ _ _ _ H). }
  apply db_frame_analyze in Han.
  apply bind_inv in H. destruct H as [(e & H & ->) | (session & w3 & Hs & H)].
  { inversion H. }
  assert (Hsw : session = db w2 /\ w3 = w2) by (inversion Hs; split; reflexivity).
  destruct Hsw as [-> ->]. clear Hs.
  assert (H0 : db w2 = db w) by congruence.
  apply bind_inv in H. destruct H as [(e & H & ->) | (now & w4 & Hnow & H)].
  { inversion H. }
  assert (H4 : db w4 = db w) by (inversion Hnow; subst; exact H0).
  apply bind_inv in H. destruct H as [(e & H & ->) | ([consent session1] & w5 & Hc & H)].
  { left. rewrite <- H4. exact (keeps_add_flush db quiet_db _ _ _ _ _ _ H). }
  pose proof (keeps_add_flush db quiet_db _ _ _ _ _ _ Hc) as H5.
  apply add_flush_ok, insert_consent_ok in Hc. destruct Hc as [Hconsent Hs1].
  assert (Hs1' : session1 = with_consent (db w) consent).
  { rewrite Hs1, H0. reflexivity. }
  assert (Hcp : c_patient_id consent = patient_id /\ c_filename consent = filename)
    by (rewrite Hconsent; split; reflexivity).
  apply bind_inv in H. destruct H as [(e & H & ->) | (u & w6 & Hcommit & H)].
  { left. apply commit_db in H. destruct H as [(e' & _ & Hdb) | (Habs & _)];
      [congruence | discriminate]. }
  apply commit_db in Hcommit. destruct Hcommit as [(e' & Habs & _) | (_ & H6)];
    [discriminate|].
  assert (Hlater : forall wa, db wa = db w6 ->
            exists c, db wa = with_consent (db w) c
                      /\ c_patient_id c = patient_id /\ c_filename c = filename).
  { intros wa Hwa. exists consent. rewrite Hwa, H6. tauto. }
  apply bind_inv in H. destruct H as [(e & H & ->) | (patient & w7 & Hp & H)].
  { right. apply Hlater.
    destruct (find_patient_by_id (db w2) patient_id); inversion H; reflexivity. }
  assert (H7 : db w7 = db w6)
    by (destruct (find_patient_by_id (db w2) patient_id); inversion Hp; reflexivity).
  apply bind_inv in H. destruct H as [(e & H & ->) | (items & w8 & Hi & H)].
  { right. apply Hlater. inversion H; subst. exact H7. }
  assert (H8 : db w8 = db w6) by (inversion Hi; subst; exact H7).
  apply bind_inv in H. destruct H as [(e & H & ->) | (now2 & w9 & Hnow2 & H)].
  { inversion H. }
  assert (H9 : db w9 = db w6) by (inversion Hnow2; subst; exact H8).
  apply bind_inv in H. destruct H as [(e & H & ->) | ([entity session2] & w10 & Hx & H)].
  { right. apply Hlater. rewrite <- H9.
    exact (keeps_add_flush db quiet_db _ _ _ _ _ _ H). }
  pose proof (keeps_add_flush db quiet_db _ _ _ _ _ _ Hx) as H10.
  apply add_flush_ok, insert_entity_ok in Hx. destruct Hx as [Hentity Hs2].
  apply bind_inv in H. destruct H as [(e & H & ->) | (u2 & w11 & Hcommit2 & H)].
  { right. apply Hlater. apply commit_db in H.
    destruct H as [(e' & _ & Hdb) | (Habs & _)]; [congruence | discriminate]. }
  apply commit_db in Hcommit2. destruct Hcommit2 as [(e' & Habs & _) | (_ & H11)];
    [discriminate|].
  inversion H; subst r w'; clear H. right. split; [reflexivity|].
  exists consent, entity. rewrite H11, Hs2, Hs1'. simpl.
  split; [reflexivity|]. rewrite Hentity. simpl. tauto.
Qed.

(** What [upload_consent()] does once the session is valid and the upload
    is saved: it answers 200, 400 or 500 and leaves the patients alone;
    after 200 the store holds one more consent and its index row, after 400
    it is as before, after 500 it is as before or holds one more consent,
    without an index row. *)
Lemma upload_consent_outcomes (env : Env) (patient_id : nat) (filename file_path : string)
    (w : World) :
  exists resp w',
    upload_consent env patient_id filename file_path w = (Ok resp, w')
    /\ patients (db w') = patients (db w)
    /\ ((status resp = 200
         /\ exists c x,
              db w' = with_indexed_consent (db w) c x
              /\ c_patient_id c = patient_id /\ c_filename c = filename
              /\ e_patient_id x = patient_id /\ e_consent_id x = c_id c)
        \/ (status resp = 400 /\ db w' = db w)
        \/ (status resp = 500
            /\ (db w' = db w
                \/ exists c, db w' = with_consent (db w) c
                             /\ c_patient_id c = patient_id
                             /\ c_filename c = filename))).
Proof.
  unfold upload_consent, try_except.
  match goal with
  | |- context [match ?body w with _ => _ end] =>
      destruct (body w) as [[resp|e] w1] eqn:Hbody
  end.
  - apply upload_body_outcomes in Hbody.
    exists resp, w1. split; [reflexivity|].
    destruct Hbody as [[Hst Hdb] | (Hst & c & x & Hdb & Hrest)].
    + split; [rewrite Hdb; reflexivity|]. right. left. tauto.
    + split; [rewrite Hdb; reflexivity|]. left. split; [exact Hst|].
      exists c, x. tauto.
  - apply upload_body_outcomes in Hbody.
    eexists. exists w1. unfold ret. split; [reflexivity|].
    destruct Hbody as [Hdb | (c & Hdb & Hrest)].
    + split; [rewrite Hdb; reflexivity|]. right. right. simpl. tauto.
    + split; [rewrite Hdb; reflexivity|]. right. right. simpl.
      split; [reflexivity|]. right. exists c. tauto.
Qed.

(** ** Sessions *)

Import auth.

Lemma find_session_some (st : Store) (t : string) (x : Session) :
  find_session st t = Some x -> In x (st_sessions st) /\ session_token x = t.
Proof.
  unfold find_session. intros H. apply find_some in H.
  destruct H as [Hin Heq]. apply String.eqb_eq in Heq. tauto.
Qed.

Lemma filter_keeps_others (l : list Session) (i : nat) :
  ~ In i (map s_id l) ->
  filter (fun y => negb (Nat.eqb (s_id y) i)) l = l.
Proof.
  induction l as [|y l IH]; simpl; intros H; [reflexivity|].
  destruct (Nat.eqb (s_id y) i) eqn:E.
  - apply Nat.eqb_eq in E. exfalso. apply H. left. exact E.
  - simpl. rewrite IH; [reflexivity|]. intros Hin. apply H. right. exact Hin.
Qed.

(** What a successful login leaves: the same store with one more session. *)
Lemma login_run (aenv : AuthEnv) (st : Store) (typed_email typed_password : string)
    (p : Patient) :
  commit_fault aenv = None ->
  find_session st (token_urlsafe aenv) = None ->
  lower (strip typed_email) <> "" ->
  strip typed_password <> "" ->
  find_patient_by_email (st_db st) (lower (strip typed_email)) = Some p ->
  check_password p (strip typed_password) = true ->
  login aenv (credentials typed_email typed_password) st
  = (mkResponse [ ("success", JBool true);
                  ("session_token", JStr (token_urlsafe aenv));
                  ("patient_name", patient_name p);
                  ("email", JStr (email p));
                  ("expires_at", JStr (isoformat aenv (expiry aenv))) ] 200,
     mkStore (st_db st)
             (st_sessions st
              ++ [mkSession (next_id (map s_id (st_sessions st))) (id p)
                            (token_urlsafe aenv) (clock aenv) (expiry aenv)])).
Proof.
  intros Hfault Hfresh Hemail Hpw Hfind Hcheck.
  unfold login, login_try, stripped_field, credentials, request_field. simpl.
  apply String.eqb_neq in Hemail, Hpw. rewrite Hemail, Hpw. simpl.
  rewrite Hfind, Hcheck. simpl.
  unfold insert_session. rewrite Hfault, Hfresh. reflexivity.
Qed.

(** X17: a login with the right password opens a session that
    [validate_session] accepts, for that patient, up to and including the
    instant it expires; the first validation after that instant removes the
    session, which leaves the store as it was before the login, and answers
    that there is no session. *)
Theorem login_then_validate (aenv later : AuthEnv) (st : Store)
    (typed_email typed_password : string) (p : Patient) :
  commit_fault aenv = None ->
  token_urlsafe aenv <> "" ->
  find_session st (token_urlsafe aenv) = None ->
  lower (strip typed_email) <> "" ->
  strip typed_password <> "" ->
  find_patient_by_email (st_db st) (lower (strip typed_email)) = Some p ->
  check_password p (strip typed_password) = true ->
  exists resp st',
    login aenv (credentials typed_email typed_password) st = (resp, st')
    /\ status resp = 200
    /\ dict_get (body resp) "session_token" = Some (JStr (token_urlsafe aenv))
    /\ st_db st' = st_db st
    /\ ((clock later <= expiry aenv)%Z ->
        validate_session later (token_urlsafe aenv) st' = (Ok (Some (id p)), st'))
    /\ ((expiry aenv < clock later)%Z -> commit_fault later = None ->
        validate_session later (token_urlsafe aenv) st' = (Ok None, st)).
Proof.
  intros Hfault Htoken Hfresh Hemail Hpw Hfind Hcheck.
  eexists. eexists. split.
  { exact (login_run aenv st typed_email typed_password p
             Hfault Hfresh Hemail Hpw Hfind Hcheck). }
  split; [reflexivity|]. split; [reflexivity|]. split; [reflexivity|].
  assert (Hfound : forall st0,
            st0 = mkStore (st_db st)
                    (st_sessions st
                     ++ [mkSession (next_id (map s_id (st_sessions st))) (id p)
                                   (token_urlsafe aenv) (clock aenv) (expiry aenv)]) ->
            find_session st0 (token_urlsafe aenv)
            = Some (mkSession (next_id (map s_id (st_sessions st))) (id p)
                              (token_urlsafe aenv) (clock aenv) (expiry aenv))).
  { intros st0 ->. unfold find_session in *. simpl. rewrite find_append, Hfresh.
    simpl. rewrite String.eqb_refl. reflexivity. }
  apply String.eqb_neq in Htoken.
  split.
  - intros Hlive. unfold validate_session. rewrite Htoken, (Hfound _ eq_refl). simpl.
    apply Z.ltb_ge in Hlive. rewrite Hlive. reflexivity.
  - intros Hdead Hfault2. unfold validate_session.
    rewrite Htoken, (Hfound _ eq_refl). simpl.
    apply Z.ltb_lt in Hdead. rewrite Hdead.
    unfold delete_session. rewrite Hfault2. simpl.
    rewrite filter_app. simpl. rewrite Nat.eqb_refl. simpl.
    rewrite app_nil_r, filter_keeps_others by apply next_id_fresh.
    destruct st; reflexivity.
Qed.

Lemma login_then_validate_witness :
  exists resp st',
    login AuthSamples.aenv (credentials " Maria.Garcia@Example.com " "maria123!")
          AuthSamples.st = (resp, st')
    /\ status resp = 200
    /\ dict_get (body resp) "session_token" = Some (JStr "k3Jx0Zr-9dQ")
    /\ st_db st' = st_db AuthSamples.st
    /\ ((clock (AuthSamples.later 29800) <= expiry AuthSamples.aenv)%Z ->
        validate_session (AuthSamples.later 29800) "k3Jx0Zr-9dQ" st'
        = (Ok (Some 1), st'))
    /\ ((expiry AuthSamples.aenv < clock (AuthSamples.later 29800))%Z ->
        commit_fault (AuthSamples.later 29800) = None ->
        validate_session (AuthSamples.later 29800) "k3Jx0Zr-9dQ" st'
        = (Ok None, AuthSamples.st)).
Proof.
  apply (login_then_validate AuthSamples.aenv (AuthSamples.later 29800) AuthSamples.st
           " Maria.Garcia@Example.com " "maria123!" AuthSamples.maria_row);
    try reflexivity; discriminate.
Defined.

(** X18: an unknown email and a wrong password are refused alike, with 401
    and the same message, and neither opens a session nor changes the
    store. *)
Theorem login_rejects_alike (aenv : AuthEnv) (st : Store)
    (typed_email typed_password : string) :
  lower (strip typed_email) <> "" ->
  strip typed_password <> "" ->
  match find_patient_by_email (st_db st) (lower (strip typed_email)) with
  | None => True
  | Some p => check_password p (strip typed_password) = false
  end ->
  login aenv (credentials typed_email typed_password) st
  = (mkResponse [("error", JStr "Invalid credentials")] 401, st).
Proof.
  intros Hemail Hpw Hbad.
  unfold login, login_try, stripped_field, credentials, request_field. simpl.
  apply String.eqb_neq in Hemail, Hpw. rewrite Hemail, Hpw. simpl.
  destruct (find_patient_by_email (st_db st) (lower (strip typed_email))) as [p|];
    [|reflexivity].
  rewrite Hbad. reflexivity.
Qed.

Lemma login_rejects_alike_witness :
  login AuthSamples.aenv (credentials "maria.garcia@example.com" "Maria123!")
        AuthSamples.st
  = (mkResponse [("error", JStr "Invalid credentials")] 401, AuthSamples.st)
  /\ login AuthSamples.aenv (credentials "nobody@example.com" "maria123!")
           AuthSamples.st
     = (mkResponse [("error", JStr "Invalid credentials")] 401, AuthSamples.st).
Proof.
  split.
  - apply (login_rejects_alike AuthSamples.aenv AuthSamples.st
             "maria.garcia@example.com" "Maria123!");
      [discriminate | discriminate | reflexivity].
  - apply (login_rejects_alike AuthSamples.aenv AuthSamples.st
             "nobody@example.com" "maria123!");
      [discriminate | discriminate | exact I].
Defined.

Lemma NoDup_map_eq {A B} (f : A -> B) (l : list A) (x y : A) :
  NoDup (map f l) -> In x l -> In y l -> f x = f y -> x = y.
Proof.
  induction l as [|z l IH]; simpl; intros Hnd Hx Hy Heq; [contradiction|].
  inversion Hnd as [|b bs Hz Hl]; subst.
  destruct Hx as [-> | Hx], Hy as [-> | Hy].
  - reflexivity.
  - exfalso. apply Hz. rewrite Heq. apply in_map. exact Hy.
  - exfalso. apply Hz. rewrite <- Heq. apply in_map. exact Hx.
  - exact (IH Hl Hx Hy Heq).
Qed.

Lemma find_filter {A} (f g : A -> bool) (l : list A) :
  (forall y, In y l -> f y = true -> g y = true) ->
  find f (filter g l) = find f l.
Proof.
  induction l as [|z l IH]; simpl; intros H; [reflexivity|].
  destruct (f z) eqn:Ef.
  - rewrite (H z (or_introl eq_refl) Ef). simpl. rewrite Ef. reflexivity.
  - destruct (g z); simpl; [rewrite Ef|]; apply IH; intros y Hy; apply H; right; exact Hy.
Qed.

Lemma find_none_iff {A} (f : A -> bool) (l : list A) :
  (forall y, In y l -> f y = false) -> find f l = None.
Proof.
  induction l as [|z l IH]; simpl; intros H; [reflexivity|].
  rewrite (H z (or_introl eq_refl)). apply IH. intros y Hy. apply H. right. exact Hy.
Qed.

Lemma bearer_prefix_has_space (s : string) :
  prefix "Bearer " s = true -> has_char " "%char s = true.
Proof.
  intros H. apply prefix_correct in H. simpl in H.
  do 7 (destruct s as [|? s]; [discriminate|]).
  inversion H; subst. cbn [has_char]. rewrite !orb_true_r. reflexivity.
Qed.

Lemma remove_all_spaceless (fuel : nat) (t : string) :
  has_char " "%char t = false -> remove_all fuel "Bearer " t = t.
Proof.
  revert t. induction fuel as [|fuel IH]; intros t Ht; [reflexivity|].
  cbn [remove_all].
  destruct (prefix "Bearer " t) eqn:E.
  - apply bearer_prefix_has_space in E. congruence.
  - destruct t as [|c t]; [reflexivity|].
    cbn [has_char] in Ht. apply orb_false_elim in Ht.
    rewrite (IH t (proj2 Ht)). reflexivity.
Qed.

Lemma remove_all_step (fuel : nat) (pat s : string) :
  remove_all (S fuel) pat s
  = if prefix pat s then remove_all fuel pat (drop (String.length pat) s)
    else match s with
         | EmptyString => EmptyString
         | String c s' => String c (remove_all fuel pat s')
         end.
Proof. reflexivity. Qed.

(** The token of a header "Bearer <token>". *)
Lemma bearer_token_of_header (t : string) :
  has_char " "%char t = false -> bearer_token ("Bearer " ++ t) = t.
Proof.
  intros Ht. unfold bearer_token.
  assert (Hp : prefix "Bearer " ("Bearer " ++ t) = true).
  { apply prefix_correct. destruct t; reflexivity. }
  rewrite remove_all_step, Hp.
  change (drop (String.length "Bearer ") ("Bearer " ++ t)) with t.
  apply remove_all_spaceless. exact Ht.
Qed.

(** X19: logging out with the header "Bearer <token>" of an open session
    removes that session and no other: afterwards the token is refused at
    any time, the sessions under other tokens are as before, and the other
    tables are untouched. *)
Theorem logout_ends_session (aenv : AuthEnv) (st : Store) (t : string) (x : Session) :
  commit_fault aenv = None ->
  sessions_ok st ->
  find_session st t = Some x ->
  t <> "" ->
  has_char " "%char t = false ->
  exists st',
    logout aenv ("Bearer " ++ t) st = (mkResponse [("success", JBool true)] 200, st')
    /\ st_db st' = st_db st
    /\ find_session st' t = None
    /\ (forall later, validate_session later t st' = (Ok None, st'))
    /\ (forall t', t' <> t -> find_session st' t' = find_session st t').
Proof.
  intros Hfault [Htokens Hids] Hfind Ht Hspace.
  destruct (find_session_some st t x Hfind) as [Hx Htx].
  exists (mkStore (st_db st)
                  (filter (fun y => negb (Nat.eqb (s_id y) (s_id x))) (st_sessions st))).
  assert (Hgone : find_session
                    (mkStore (st_db st)
                       (filter (fun y => negb (Nat.eqb (s_id y) (s_id x)))
                               (st_sessions st))) t = None).
  { unfold find_session. simpl. apply find_none_iff. intros y Hy.
    apply filter_In in Hy. destruct Hy as [Hy Hid].
    destruct (String.eqb (session_token y) t) eqn:E; [|reflexivity].
    apply String.eqb_eq in E.
    assert (y = x) by (apply (NoDup_map_eq session_token _ y x Htokens Hy Hx); congruence).
    subst y. rewrite Nat.eqb_refl in Hid. discriminate. }
  split; [|split; [reflexivity|split; [exact Hgone|split]]].
  - unfold logout. rewrite (bearer_token_of_header t Hspace).
    apply String.eqb_neq in Ht. rewrite Ht, Hfind.
    unfold delete_session. rewrite Hfault. reflexivity.
  - intros later. unfold validate_session.
    apply String.eqb_neq in Ht. rewrite Ht, Hgone. reflexivity.
  - intros t' Hne. unfold find_session. simpl. apply find_filter.
    intros y Hy Htok. apply String.eqb_eq in Htok.
    destruct (Nat.eqb (s_id y) (s_id x)) eqn:E; [|reflexivity].
    apply Nat.eqb_eq in E.
    assert (y = x) by (apply (NoDup_map_eq s_id _ y x Hids Hy Hx); exact E).
    subst y. congruence.
Qed.

Lemma logout_ends_session_witness :
  exists st',
    logout AuthSamples.aenv "Bearer k3Jx0Zr-9dQ" AuthSamples.st_logged_in
    = (mkResponse [("success", JBool true)] 200, st')
    /\ st_db st' = st_db AuthSamples.st_logged_in
    /\ find_session st' "k3Jx0Zr-9dQ" = None
    /\ (forall later, validate_session later "k3Jx0Zr-9dQ" st' = (Ok None, st'))
    /\ (forall t', t' <> "k3Jx0Zr-9dQ" ->
                   find_session st' t' = find_session AuthSamples.st_logged_in t').
Proof.
  apply (logout_ends_session AuthSamples.aenv AuthSamples.st_logged_in "k3Jx0Zr-9dQ"
           (mkSession 1 1 "k3Jx0Zr-9dQ" 1000 29800)).
  - reflexivity.
  - split; repeat constructor; simpl; tauto.
  - reflexivity.
  - discriminate.
  - reflexivity.
Defined.

(** ** From a stored document to a login *)














(** ** Page markers count as text *)

Lemma str_nat_aux_length (fuel n : nat) (acc : string) :
  String.length acc <= String.length (str_nat_aux fuel n acc).
Proof.
  revert n acc. induction fuel as [|fuel IH]; intros n acc; [apply Nat.le_refl|].
  cbn [str_nat_aux]. destruct (n / 10) as [|q].
  - simpl. lia.
  - eapply Nat.le_trans; [|apply IH]. simpl. lia.
Qed.

Lemma str_nat_length (n : nat) : 1 <= String.length (str_nat n).
Proof.
  unfold str_nat. cbn [str_nat_aux]. destruct (n / 10) as [|q].
  - simpl. lia.
  - eapply Nat.le_trans; [|apply str_nat_aux_length]. simpl. lia.
Qed.

Lemma page_marker_length (n : nat) : 16 <= String.length (page_marker n).
Proof.
  unfold page_marker, nl. rewrite !length_append. simpl.
  pose proof (str_nat_length n). lia.
Qed.

Lemma concat_length (parts : list string) :
  String.length (String.concat "" parts)
  = fold_right (fun p n => String.length p + n) 0 parts.
Proof.
  induction parts as [|p rest IH]; [reflexivity|].
  destruct rest as [|q rest].
  - simpl. lia.
  - change (String.concat "" (p :: q :: rest))
      with (p ++ "" ++ String.concat "" (q :: rest)).
    rewrite !length_append, IH. simpl. lia.
Qed.

Lemma tesseract_loop_length (n : nat) (texts : list string) :
  exists parts,
    tesseract_loop n (map Ok texts) = Ok parts
    /\ 16 * List.length texts <= fold_right (fun p k => String.length p + k) 0 parts.
Proof.
  revert n. induction texts as [|t rest IH]; intros n.
  - exists []. split; [reflexivity | simpl; lia].
  - destruct (IH (S n)) as (parts & Hparts & Hlen).
    exists (page_marker n :: t :: parts). cbn [map tesseract_loop rbind].
    rewrite Hparts. split; [reflexivity|].
    cbn [fold_right List.length]. pose proof (page_marker_length n). lia.
Qed.

(** X22: the text of Tesseract holds a marker of at least 16 characters for
    every page, recognised or not; so for a scan of four pages or more the
    text has 64 characters at least, and the test [len(text) < 50] of the
    upload route cannot tell that nothing was read. *)
Theorem tesseract_text_counts_markers (env : Env) (pdf_path : string)
    (texts : list string) :
  ocr_pages env pdf_path = Ok (map Ok texts) ->
  exists text,
    tesseract_text env pdf_path = Ok text
    /\ 16 * List.length texts <= String.length text
    /\ (4 <= List.length texts -> (String.length text <? 50)%nat = false).
Proof.
  intros Hpages. unfold tesseract_text. rewrite Hpages. simpl.
  destruct (tesseract_loop_length 1 texts) as (parts & -> & Hlen).
  eexists. split; [reflexivity|]. rewrite concat_length.
  split; [exact Hlen|]. intros H4. apply Nat.ltb_ge. lia.
Qed.

Lemma tesseract_text_counts_markers_witness :
  ocr_pages Samples.env_blank_scan "scan.pdf" = Ok (map Ok [""; ""; ""; ""])
  /\ exists text,
       tesseract_text Samples.env_blank_scan "scan.pdf" = Ok text
       /\ 16 * 4 <= String.length text
       /\ (4 <= 4 -> (String.length text <? 50)%nat = false).
Proof.
  split; [reflexivity|].
  apply (tesseract_text_counts_markers Samples.env_blank_scan "scan.pdf" [""; ""; ""; ""]).
  reflexivity.
Defined.

Lemma process_pdf_all_or_nothing_witness :
  exists analysis,
    Stored (db Fixtures.w0) analysis
           (mkStoreResult true 1 (JStr "Maria Garcia") "maria.garcia@example.com"
                          (Some "maria123!") 1 "a.pdf")
           (db (snd (process_pdf Fixtures.env_ok "auto" "forms/a.pdf" Fixtures.w0))).
Proof.
  apply (process_pdf_all_or_nothing Fixtures.env_ok "auto" "forms/a.pdf" Fixtures.w0
           (Ok (mkStoreResult true 1 (JStr "Maria Garcia") "maria.garcia@example.com"
                              (Some "maria123!") 1 "a.pdf"))
           (snd (process_pdf Fixtures.env_ok "auto" "forms/a.pdf" Fixtures.w0))).
  reflexivity.
Defined.

(** ** A question sees the rows of its patient only *)

(** X23: what the query route answers, and what it sends to the model,
    depends on the store only through the index rows of the patient of the
    session (and on whether that patient exists): two stores that agree on
    these, and differ in anything else, other patients' rows included, give
    the same response and the same prompts. *)
Theorem query_sees_only_own_rows (env : Env) (pid : nat) (data : JValue)
    (w1 w2 : World) :
  entities_of_patient (db w1) pid = entities_of_patient (db w2) pid ->
  (find_patient_by_id (db w1) pid = None <-> find_patient_by_id (db w2) pid = None) ->
  draws w1 = draws w2 ->
  fst (query env (Some pid) data w1) = fst (query env (Some pid) data w2)
  /\ exists prompts,
       calls (snd (query env (Some pid) data w1)) = (calls w1 ++ prompts)%list
       /\ calls (snd (query env (Some pid) data w2)) = (calls w2 ++ prompts)%list.
Proof.
  intros Hrows Hpatient Hdraws.
  unfold query, try_except, bind, lift, get_session, ret.
  destruct pid as [|n]; [split; [reflexivity | exists []; rewrite !app_nil_r; tauto]|].
  destruct (request_field data "query") as [field|e];
    [|split; [reflexivity | exists []; rewrite !app_nil_r; tauto]].
  destruct (py_strip field) as [text|e];
    [|split; [reflexivity | exists []; rewrite !app_nil_r; tauto]].
  destruct (String.eqb text "");
    [split; [reflexivity | exists []; rewrite !app_nil_r; tauto]|].
  rewrite <- Hrows.
  destruct (find_patient_by_id (db w1) (S n)) as [p1|] eqn:H1,
           (find_patient_by_id (db w2) (S n)) as [p2|] eqn:H2.
  2: { destruct Hpatient as [_ Habs]. discriminate (Habs eq_refl). }
  2: { destruct Hpatient as [Habs _]. discriminate (Habs eq_refl). }
  2: { split; [reflexivity | exists []; rewrite !app_nil_r; tauto]. }
  destruct (entities_of_patient (db w1) (S n)) as [|x rest];
    [split; [reflexivity | exists []; rewrite !app_nil_r; tauto]|].
  destruct (_format_consents_for_context (map consent_dict (x :: rest)))
    as [context|e] eqn:Hc.
  - rewrite !(answer_query_with_context env text _ _ context Hc), Hdraws.
    split; [reflexivity|]. exists [CallChat (query_prompt context text)].
    simpl. tauto.
  - rewrite !(answer_query_context_error env text _ _ e Hc).
    split; [reflexivity | exists []; rewrite !app_nil_r; tauto].
Qed.

Lemma query_sees_only_own_rows_witness :
  fst (query Fixtures.env_ok (Some 1) (JObj [("query", JStr "Anything?")])
             Fixtures.w_maria)
  = fst (query Fixtures.env_ok (Some 1) (JObj [("query", JStr "Anything?")])
               w_maria_and_stranger).
Proof.
  apply (query_sees_only_own_rows Fixtures.env_ok 1
           (JObj [("query", JStr "Anything?")]) Fixtures.w_maria
           w_maria_and_stranger);
    [vm_compute; reflexivity | split; vm_compute; discriminate | reflexivity].
Defined.

(** ** Search terms *)

Lemma lowered_term_str (analysis : Dict) (key s : string) :
  dict_get analysis key = Some (JStr s) -> s <> "" ->
  lowered_term analysis key = Ok [lower s].
Proof.
  intros H Hs. unfold lowered_term, dict_get_none, dict_get_default, dict_getitem.
  rewrite H. simpl. apply String.eqb_neq in Hs. rewrite Hs. reflexivity.
Qed.

(** X24: for a record whose name, email, procedure and doctor are strings
    that are not empty, the search terms are, joined by single spaces, in no
    fixed order and each once: the name in lower case, each of its words,
    and the email, the procedure and the doctor in lower case; and nothing
    else. *)
Theorem search_terms_content (env : Env) (analysis : Dict)
    (name email_ procedure doctor : string) :
  set_law env ->
  dict_get analysis "patient_name" = Some (JStr name) -> name <> "" ->
  dict_get analysis "patient_email" = Some (JStr email_) -> email_ <> "" ->
  dict_get analysis "procedure" = Some (JStr procedure) -> procedure <> "" ->
  dict_get analysis "doctor_name" = Some (JStr doctor) -> doctor <> "" ->
  exists terms,
    _generate_search_terms env analysis = Ok (join " " terms)
    /\ NoDup terms
    /\ forall t, In t terms <->
                 t = lower name \/ In t (split (lower name))
                 \/ t = lower email_ \/ t = lower procedure \/ t = lower doctor.
Proof.
  intros Hset Hn Hn0 He He0 Hp Hp0 Hd Hd0.
  unfold _generate_search_terms.
  rewrite (lowered_term_str analysis "patient_email" email_ He He0).
  rewrite (lowered_term_str analysis "procedure" procedure Hp Hp0).
  rewrite (lowered_term_str analysis "doctor_name" doctor Hd Hd0).
  unfold dict_get_none, dict_get_default, dict_getitem. rewrite Hn. simpl.
  apply String.eqb_neq in Hn0. rewrite Hn0. simpl.
  destruct (Hset ((lower name :: split (lower name))
                  ++ [lower email_] ++ [lower procedure] ++ [lower doctor])%list)
    as [Hnodup Hin].
  eexists. split; [reflexivity|]. split; [exact Hnodup|].
  intros t. rewrite Hin. simpl. rewrite in_app_iff. simpl.
  intuition (subst; auto).
Qed.

Lemma search_terms_content_witness :
  exists terms,
    _generate_search_terms Fixtures.env_ok Fixtures.maria = Ok (join " " terms)
    /\ NoDup terms
    /\ forall t, In t terms <->
                 t = lower "Maria Garcia" \/ In t (split (lower "Maria Garcia"))
                 \/ t = lower "Maria.Garcia@Example.com"
                 \/ t = lower "Appendectomy" \/ t = lower "Unknown".
Proof.
  apply (search_terms_content Fixtures.env_ok Fixtures.maria "Maria Garcia"
           "Maria.Garcia@Example.com" "Appendectomy" "Unknown");
    try reflexivity; try discriminate.
  intros xs. split; [apply NoDup_nodup | intros x; apply nodup_In].
Defined.

(** ** The routes, from the header on *)

(** X6: the query route, from the Authorization header on, always answers,
    with one of 200, 400, 401, 404 and 500, and leaves the patients, the
    consents and the index as they were.  The one row it can remove is the
    session of the token when that session has expired, and the answer is
    then 401.  The model is asked at most once, and only for a request that
    is answered with 200. *)
Theorem query_request_outcomes (aenv : AuthEnv) (env : Env) (authorization : string)
    (data : JValue) (sessions : list Session) (w : World) :
  exists resp sessions' w',
    query_request aenv env authorization data sessions w = (resp, sessions', w')
    /\ In (status resp) [200; 400; 401; 404; 500]
    /\ db w' = db w
    /\ (calls w' = calls w
        \/ (status resp = 200
            /\ exists prompt, calls w' = (calls w ++ [CallChat prompt])%list))
    /\ (sessions' = sessions
        \/ exists x,
             find_session (mkStore (db w) sessions) (bearer_token authorization)
             = Some x
             /\ (expires_at x < clock aenv)%Z
             /\ sessions'
                = filter (fun y => negb (Nat.eqb (s_id y) (s_id x))) sessions
             /\ status resp = 401
             /\ calls w' = calls w).
Proof.
  unfold query_request, validate_session.
  destruct (String.eqb (bearer_token authorization) "").
  { destruct (query_outcomes env None data w) as (resp & w' & Hq & Hst & Hdb & Hcalls & _).
    rewrite Hq. exists resp, sessions, w'. simpl. tauto. }
  destruct (find_session (mkStore (db w) sessions) (bearer_token authorization))
    as [x|] eqn:Hx.
  2: { destruct (query_outcomes env None data w)
         as (resp & w' & Hq & Hst & Hdb & Hcalls & _).
       rewrite Hq. exists resp, sessions, w'. simpl. tauto. }
  destruct (expires_at x <? clock aenv)%Z eqn:Hexp.
  - unfold delete_session. destruct (commit_fault aenv) as [e|].
    + eexists; eexists; eexists. split; [reflexivity|]. simpl. tauto.
    + destruct (query_outcomes env None data w)
        as (resp & w' & Hq & Hst & Hdb & Hcalls & Hnone).
      destruct (Hnone eq_refl) as [H401 ->].
      rewrite Hq. eexists; eexists; eexists. split; [reflexivity|]. simpl.
      split; [exact Hst|]. split; [reflexivity|]. split; [left; reflexivity|].
      right. exists x. apply Z.ltb_lt in Hexp. tauto.
  - destruct (query_outcomes env (Some (s_patient_id x)) data w)
      as (resp & w' & Hq & Hst & Hdb & Hcalls & _).
    rewrite Hq. exists resp, sessions, w'. simpl. tauto.
Qed.

(** X16: the upload route, from the Authorization header on, always
    answers, with one of 200, 400, 401 and 500, and never touches the
    patients.  The one session row it can remove is the expired session of
    the token, and the answer is then 401.  After 200 the store holds one
    more consent, under the name of the uploaded file, and its index row,
    both owned by the patient of the session, whatever patient the analysis
    names; after 400 and 401 the tables are as before; after 500 they are as
    before or hold one more consent of that patient, without an index
    row. *)
Theorem upload_request_outcomes (aenv : AuthEnv) (env : Env) (authorization : string)
    (file : option string) (saved : result string)
    (sessions : list Session) (w : World) :
  exists resp sessions' w',
    upload_request aenv env authorization file saved sessions w
    = (resp, sessions', w')
    /\ In (status resp) [200; 400; 401; 500]
    /\ patients (db w') = patients (db w)
    /\ (sessions' = sessions
        \/ exists x,
             find_session (mkStore (db w) sessions) (bearer_token authorization)
             = Some x
             /\ (expires_at x < clock aenv)%Z
             /\ sessions'
                = filter (fun y => negb (Nat.eqb (s_id y) (s_id x))) sessions
             /\ status resp = 401)
    /\ (status resp = 200 ->
        exists x filename c i,
          find_session (mkStore (db w) sessions) (bearer_token authorization)
          = Some x
          /\ file = Some filename
          /\ db w' = with_indexed_consent (db w) c i
          /\ c_patient_id c = s_patient_id x /\ c_filename c = filename
          /\ e_patient_id i = s_patient_id x /\ e_consent_id i = c_id c)
    /\ (status resp = 400 \/ status resp = 401 -> db w' = db w)
    /\ (status resp = 500 ->
        db w' = db w
        \/ exists x filename c,
             find_session (mkStore (db w) sessions) (bearer_token authorization)
             = Some x
             /\ file = Some filename
             /\ db w' = with_consent (db w) c
             /\ c_patient_id c = s_patient_id x /\ c_filename c = filename).
Proof.
  unfold upload_request, validate_session.
  destruct (String.eqb (bearer_token authorization) "").
  { eexists; eexists; eexists. split; [reflexivity|]. simpl.
    repeat split; try tauto; try discriminate. }
  destruct (find_session (mkStore (db w) sessions) (bearer_token authorization))
    as [x|] eqn:Hx.
  2: { eexists; eexists; eexists. split; [reflexivity|]. simpl.
       repeat split; try tauto; try discriminate. }
  destruct (expires_at x <? clock aenv)%Z eqn:Hexp.
  - unfold delete_session. destruct (commit_fault aenv) as [e|].
    + eexists; eexists; eexists. split; [reflexivity|]. simpl.
      repeat split; try tauto; try discriminate.
    + eexists; eexists; eexists. split; [reflexivity|]. simpl.
      split; [tauto|]. split; [reflexivity|].
      split; [right; exists x; apply Z.ltb_lt in Hexp; tauto|].
      repeat split; try tauto; try discriminate.
  - destruct (s_patient_id x) as [|n] eqn:Hpid.
    { eexists; eexists; eexists. split; [reflexivity|]. simpl.
      repeat split; try tauto; try discriminate. }
    destruct file as [filename|].
    2: { eexists; eexists; eexists. split; [reflexivity|]. simpl.
         repeat split; try tauto; try discriminate. }
    destruct (String.eqb filename "").
    { eexists; eexists; eexists. split; [reflexivity|]. simpl.
      repeat split; try tauto; try discriminate. }
    destruct (negb (endswith (lower filename) ".pdf")).
    { eexists; eexists; eexists. split; [reflexivity|]. simpl.
      repeat split; try tauto; try discriminate. }
    destruct saved as [file_path|e].
    2: { eexists; eexists; eexists. split; [reflexivity|]. simpl.
         repeat split; try tauto; try discriminate. }
    destruct (upload_consent_outcomes env (S n) filename file_path w)
      as (resp & w' & Hu & Hpat & Hcases).
    rewrite Hu. exists resp, sessions, w'. split; [reflexivity|].
    destruct Hcases as [(H200 & c & i & Hdb & Hc1 & Hc2 & Hi1 & Hi2)
                       | [(H400 & Hdb) | (H500 & Hcases)]].
    + rewrite H200. split; [simpl; tauto|]. split; [exact Hpat|].
      split; [left; reflexivity|]. split.
      * intros _. exists x, filename, c, i. rewrite Hpid. tauto.
      * split; [intros [H|H]; discriminate H | intros H; discriminate H].
    + rewrite H400. split; [simpl; tauto|]. split; [exact Hpat|].
      split; [left; reflexivity|]. split; [intros H; discriminate H|].
      split; [intros _; exact Hdb | intros H; discriminate H].
    + rewrite H500. split; [simpl; tauto|]. split; [exact Hpat|].
      split; [left; reflexivity|]. split; [intros H; discriminate H|].
      split; [intros [H|H]; discriminate H|]. intros _.
      destruct Hcases as [Hdb | (c & Hdb & Hc1 & Hc2)]; [left; exact Hdb|].
      right. exists x, filename, c. rewrite Hpid. tauto.
Qed.
